(** * The Cursor debug-log filter ([cursor-log.py]) and the prelude's shell
      helpers ([python-prelude.py]): a shallow embedding and its properties.

    Python values that come out of [json.loads] are modelled by the inductive
    type [json]; a Python [dict] is an association list in insertion order.
    Python exceptions are modelled by the error monad [res].  Library
    functions whose behaviour depends on the platform ([datetime], [json],
    [repr]) are variables of the section [Log]; [Module Ref] instantiates
    them once, for the closed examples. *)

From Stdlib Require Import String Ascii List ZArith Bool Lia DecimalString.
From Stdlib Require Import Orders Mergesort Sorted Permutation.
Import ListNotations.

Set Warnings "-register-all".

Open Scope string_scope.
Open Scope Z_scope.

(** ** Python exceptions *)

Inductive exn : Type :=
| TypeError          (* operand of the wrong type, unhashable set member *)
| AttributeError     (* [.get] on a value that is not a dict *)
| ClockError         (* [datetime.fromtimestamp] out of range *)
| JSONDecodeError
| RuntimeError
| KeyboardInterrupt
| TimeoutExpired
| OSError
| SystemExit
| IndexError.

Inductive res (A : Type) : Type :=
| Ok (a : A)
| Raise (e : exn).

Arguments Ok {A} a.
Arguments Raise {A} e.

Definition bind {A B : Type} (m : res A) (k : A -> res B) : res B :=
  match m with
  | Ok a => k a
  | Raise e => Raise e
  end.

Notation "x <- m ;; k" := (bind m (fun x => k))
  (at level 61, m at next level, right associativity).

Definition succeeds {A : Type} (m : res A) : Prop := exists a, m = Ok a.

(** ** JSON values as Python sees them *)

Inductive json : Type :=
| JNull
| JBool (b : bool)
| JInt (n : Z)
| JFloat (bits : Z)            (* IEEE-754 binary64, as its 64-bit pattern *)
| JStr (s : string)
| JArr (l : list json)
| JObj (kvs : list (string * json)).

Definition dict : Type := list (string * json).

(** [d.get(k)] / [k in d] on the items of a dict. *)
Fixpoint lookup (k : string) (d : dict) : option json :=
  match d with
  | [] => None
  | (k', v) :: d' => if String.eqb k k' then Some v else lookup k d'
  end.

(** [del d[k]]: the dict without the key. *)
Fixpoint remove_key (k : string) (d : dict) : dict :=
  match d with
  | [] => []
  | (k', v) :: d' =>
      if String.eqb k k' then remove_key k d' else (k', v) :: remove_key k d'
  end.

(** [d.get(k, default)] on a dict. *)
Definition field (d : dict) (k : string) (default : json) : json :=
  match lookup k d with Some v => v | None => default end.

(** [x.get(k, default)]: an [AttributeError] unless [x] is a dict. *)
Definition py_get (x : json) (k : string) (default : json) : res json :=
  match x with
  | JObj d => Ok (field d k default)
  | _ => Raise AttributeError
  end.

(** [isinstance(x, dict)] *)
Definition is_dict (x : json) : bool :=
  match x with JObj _ => true | _ => false end.

(** Truth value of a Python object ([if x], [x or y], [not x]). *)
Definition truthy (x : json) : bool :=
  match x with
  | JNull => false
  | JBool b => b
  | JInt n => negb (n =? 0)
  | JFloat bits => negb (Z.land bits (2 ^ 63 - 1) =? 0)
  | JStr s => negb (String.eqb s "")
  | JArr l => match l with [] => false | _ => true end
  | JObj d => match d with [] => false | _ => true end
  end.

(** [x == "lit"] against a string literal: false for every non-string. *)
Definition eq_str (x : json) (lit : string) : bool :=
  match x with
  | JStr s => String.eqb s lit
  | _ => false
  end.

(** [x in S] for a set [S] of strings: hashing a list or a dict raises. *)
Definition in_str_set (x : json) (S : list string) : res bool :=
  match x with
  | JStr s => Ok (existsb (String.eqb s) S)
  | JArr _ | JObj _ => Raise TypeError
  | _ => Ok false
  end.

(** [x in (a, b, ...)] for a tuple of strings: plain equality, no hashing. *)
Definition in_str_tuple (x : json) (T : list string) : bool :=
  existsb (eq_str x) T.

(** [s[:n]] on a string. *)
Definition str_take (n : nat) (s : string) : string := substring 0 n s.

(** [x[:n]]: defined on strings and lists; every other value raises (a
    [TypeError], or for a dict a [KeyError] from Python 3.12 on: both are
    [TypeError] here). *)
Definition py_take (n : nat) (x : json) : res json :=
  match x with
  | JStr s => Ok (JStr (str_take n s))
  | JArr l => Ok (JArr (firstn n l))
  | _ => Raise TypeError
  end.

(** [s.replace(old, new)] for a non-empty [old]: left to right, without
    overlap.  [skip] counts the characters of a match still to be dropped. *)
Fixpoint replace_from (old new s : string) (skip : nat) : string :=
  match s with
  | EmptyString => EmptyString
  | String c s' =>
      match skip with
      | S k => replace_from old new s' k
      | O =>
          if String.prefix old s
          then new ++ replace_from old new s' (String.length old - 1)
          else String c (replace_from old new s' O)
      end
  end.

Definition str_replace (old new s : string) : string :=
  replace_from old new s O.

Definition newline : string := String (ascii_of_nat 10) EmptyString.

Definition quote : string := String (ascii_of_nat 34) EmptyString.

(** ["\n" in s] *)
Fixpoint has_newline (s : string) : bool :=
  match s with
  | EmptyString => false
  | String c s' => Ascii.eqb c (ascii_of_nat 10) || has_newline s'
  end.

(** Decimal text of a Python int. *)
Definition str_of_Z (n : Z) : string := NilZero.string_of_int (Z.to_int n).

(** [x.replace(old, new)]: only strings have the method. *)
Definition py_replace (old new : string) (x : json) : res string :=
  match x with
  | JStr s => Ok (str_replace old new s)
  | _ => Raise AttributeError
  end.

(** [c.isspace()] for the characters below 256. *)
Definition is_space (c : ascii) : bool :=
  let n := Z.of_nat (nat_of_ascii c) in
  ((9 <=? n) && (n <=? 13)) || ((28 <=? n) && (n <=? 32))
  || (n =? 133) || (n =? 160).

Fixpoint lstrip (s : string) : string :=
  match s with
  | String c s' => if is_space c then lstrip s' else s
  | EmptyString => EmptyString
  end.

Fixpoint rstrip (s : string) : string :=
  match s with
  | EmptyString => EmptyString
  | String c s' =>
      match rstrip s' with
      | EmptyString => if is_space c then EmptyString else String c EmptyString
      | r => String c r
      end
  end.

(** [s.strip()] *)
Definition str_strip (s : string) : string := rstrip (lstrip s).

(** [s.split("\n")] *)
Fixpoint split_lines (s : string) : list string :=
  match s with
  | EmptyString => [EmptyString]
  | String c s' =>
      if Ascii.eqb c (ascii_of_nat 10) then EmptyString :: split_lines s'
      else match split_lines s' with
           | line :: rest => String c line :: rest
           | [] => [String c EmptyString]
           end
  end.

(** ** A reference platform

    One instance of the library functions that the section [Log] takes as
    variables: a clock in the UTC time zone, a serializer and a parser for
    JSON.  Floats are outside what this instance renders and parses
    faithfully: it prints them by their bit pattern and rejects numbers with
    a fraction or an exponent.  The theorems of the section hold for every
    instance; this one closes the examples. *)

Module Ref.

Definition digits (width : nat) (n : Z) : string :=
  let s := str_of_Z n in
  String.concat "" (repeat "0" (width - String.length s)) ++ s.

Definition clock (n : Z) : res string :=
  if (-62135596800000 <=? n) && (n <? 253402300800000) then
    Ok (digits 2 ((n / 3600000) mod 24) ++ ":" ++
        digits 2 ((n / 60000) mod 60) ++ ":" ++
        digits 2 ((n / 1000) mod 60) ++ "." ++
        digits 3 (n mod 1000))
  else Raise ClockError.

(** Round to nearest, ties to even, of [num / 2^k]. *)
Definition round_half_even (num : Z) (k : Z) : Z :=
  let q := Z.shiftr num k in
  let r := num - Z.shiftl q k in
  let half := Z.shiftl 1 (k - 1) in
  if r <? half then q
  else if half <? r then q + 1
  else if Z.even q then q else q + 1.

(** The float is read in milliseconds, rounded to microseconds as
    [fromtimestamp] does, and cut to milliseconds as the slice does. *)
Definition clock_float (bits : Z) : res string :=
  let negative := Z.testbit bits 63 in
  let e := Z.land (Z.shiftr bits 52) 2047 in
  let m := Z.land bits (2 ^ 52 - 1) in
  if e =? 2047 then Raise ClockError
  else
    let mant := if e =? 0 then m else m + 2 ^ 52 in
    let shift := Z.max e 1 - 1075 in
    let micros :=
      if 0 <=? shift then Z.shiftl (mant * 1000) shift
      else round_half_even (mant * 1000) (- shift) in
    let micros := if negative then - micros else micros in
    clock (micros / 1000).

Definition hex_digit (n : Z) : string :=
  String.substring (Z.to_nat n) 1 "0123456789abcdef".

Definition code (c : ascii) : Z := Z.of_nat (nat_of_ascii c).

(** One character inside a JSON string, as [json.dumps] escapes it. *)
Definition dumps_char (c : ascii) : string :=
  let n := code c in
  if n =? 34 then "\" ++ quote
  else if n =? 92 then "\\"
  else if n =? 10 then "\n"
  else if n =? 13 then "\r"
  else if n =? 9 then "\t"
  else if n =? 8 then "\b"
  else if n =? 12 then "\f"
  else if (n <? 32) || (126 <? n)
  then "\u00" ++ hex_digit (n / 16) ++ hex_digit (n mod 16)
  else String c EmptyString.

Fixpoint dumps_chars (s : string) : string :=
  match s with
  | EmptyString => EmptyString
  | String c s' => dumps_char c ++ dumps_chars s'
  end.

Definition dumps_string (s : string) : string :=
  quote ++ dumps_chars s ++ quote.

Fixpoint json_dumps (x : json) : string :=
  match x with
  | JNull => "null"
  | JBool true => "true"
  | JBool false => "false"
  | JInt n => str_of_Z n
  | JFloat bits => "float:" ++ str_of_Z bits
  | JStr s => dumps_string s
  | JArr l => "[" ++ String.concat ", " (map json_dumps l) ++ "]"
  | JObj d =>
      "{" ++ String.concat ", "
               (map (fun kv => dumps_string (fst kv) ++ ": "
                               ++ json_dumps (snd kv)) d) ++ "}"
  end.

Fixpoint has_char (n : Z) (s : string) : bool :=
  match s with
  | EmptyString => false
  | String c s' => (code c =? n) || has_char n s'
  end.

(** One character inside the [repr] of a string; [q] is the code of the
    quote that encloses it. *)
Definition repr_char (q : Z) (c : ascii) : string :=
  let n := code c in
  if n =? q then "\" ++ String c EmptyString
  else if n =? 92 then "\\"
  else if n =? 10 then "\n"
  else if n =? 13 then "\r"
  else if n =? 9 then "\t"
  else if (n <? 32) || (n =? 127)
  then "\x" ++ hex_digit (n / 16) ++ hex_digit (n mod 16)
  else String c EmptyString.

Fixpoint repr_chars (q : Z) (s : string) : string :=
  match s with
  | EmptyString => EmptyString
  | String c s' => repr_char q c ++ repr_chars q s'
  end.

(** Single quotes, unless the string has one and no double quote. *)
Definition repr_string (s : string) : string :=
  if has_char 39 s && negb (has_char 34 s)
  then quote ++ repr_chars 34 s ++ quote
  else "'" ++ repr_chars 39 s ++ "'".

Fixpoint py_repr (x : json) : string :=
  match x with
  | JNull => "None"
  | JBool true => "True"
  | JBool false => "False"
  | JInt n => str_of_Z n
  | JFloat bits => "float:" ++ str_of_Z bits
  | JStr s => repr_string s
  | JArr l => "[" ++ String.concat ", " (map py_repr l) ++ "]"
  | JObj d =>
      "{" ++ String.concat ", "
               (map (fun kv => repr_string (fst kv) ++ ": "
                               ++ py_repr (snd kv)) d) ++ "}"
  end.

(** *** Parsing *)

Definition is_ws (c : ascii) : bool :=
  let n := code c in (n =? 32) || (n =? 9) || (n =? 10) || (n =? 13).

Fixpoint skip_ws (s : string) : string :=
  match s with
  | String c s' => if is_ws c then skip_ws s' else s
  | EmptyString => s
  end.

Definition is_digit (c : ascii) : bool :=
  (48 <=? code c) && (code c <=? 57).

Fixpoint read_digits (s : string) (acc : Z) : Z * string :=
  match s with
  | String c s' =>
      if is_digit c then read_digits s' (10 * acc + (code c - 48))
      else (acc, s)
  | EmptyString => (acc, s)
  end.

(** A number without fraction and exponent; the text after it must not
    go on as a float. *)
Definition no_fraction (s : string) : bool :=
  match s with
  | String c _ =>
      negb ((code c =? 46) || (code c =? 101) || (code c =? 69))
  | EmptyString => true
  end.

Definition parse_nat (s : string) : option (Z * string) :=
  match s with
  | String c s' =>
      if code c =? 48 then
        if no_fraction s' then Some (0, s') else None
      else if is_digit c then
        let '(n, rest) := read_digits s 0 in
        if no_fraction rest then Some (n, rest) else None
      else None
  | EmptyString => None
  end.

Definition hex_value (c : ascii) : option Z :=
  let n := code c in
  if (48 <=? n) && (n <=? 57) then Some (n - 48)
  else if (97 <=? n) && (n <=? 102) then Some (n - 87)
  else if (65 <=? n) && (n <=? 70) then Some (n - 55)
  else None.

Definition unescape (c : ascii) : option ascii :=
  let n := code c in
  if n =? 34 then Some c
  else if n =? 92 then Some c
  else if n =? 47 then Some c
  else if n =? 98 then Some (ascii_of_nat 8)
  else if n =? 102 then Some (ascii_of_nat 12)
  else if n =? 110 then Some (ascii_of_nat 10)
  else if n =? 114 then Some (ascii_of_nat 13)
  else if n =? 116 then Some (ascii_of_nat 9)
  else None.

Definition cons_char (c : ascii) (r : option (string * string))
  : option (string * string) :=
  match r with
  | Some (body, rest) => Some (String c body, rest)
  | None => None
  end.

(** The text after an opening quote: the string and what follows its
    closing quote.  Code points above 255 are outside the fragment. *)
Fixpoint parse_string (s : string) : option (string * string) :=
  match s with
  | EmptyString => None
  | String c s' =>
      let n := code c in
      if n =? 34 then Some (EmptyString, s')
      else if n <? 32 then None
      else if n =? 92 then
        match s' with
        | String e s'' =>
            if code e =? 117 then
              match s'' with
              | String h1 (String h2 (String h3 (String h4 r))) =>
                  match hex_value h1, hex_value h2,
                        hex_value h3, hex_value h4 with
                  | Some 0, Some 0, Some a, Some b =>
                      cons_char (ascii_of_nat (Z.to_nat (16 * a + b)))
                                (parse_string r)
                  | _, _, _, _ => None
                  end
              | _ => None
              end
            else
              match unescape e with
              | Some ch => cons_char ch (parse_string s'')
              | None => None
              end
        | EmptyString => None
        end
      else cons_char c (parse_string s')
  end.

(** [d[k] = v] *)
Fixpoint dict_set (k : string) (v : json) (d : dict) : dict :=
  match d with
  | [] => [(k, v)]
  | (k', v') :: d' =>
      if String.eqb k k' then (k, v) :: d' else (k', v') :: dict_set k v d'
  end.

Definition literal (word : string) (v : json) (s : string)
  : option (json * string) :=
  if String.prefix word s
  then Some (v, substring (String.length word)
                          (String.length s - String.length word) s)
  else None.

Fixpoint parse_value (fuel : nat) (s : string) : option (json * string) :=
  match fuel with
  | O => None
  | S f =>
      match s with
      | EmptyString => None
      | String c s' =>
          let n := code c in
          if n =? 123 then
            match skip_ws s' with
            | String c1 r =>
                if code c1 =? 125 then Some (JObj [], r)
                else parse_members f (String c1 r) []
            | EmptyString => None
            end
          else if n =? 91 then
            match skip_ws s' with
            | String c1 r =>
                if code c1 =? 93 then Some (JArr [], r)
                else parse_elements f (String c1 r) []
            | EmptyString => None
            end
          else if n =? 34 then
            match parse_string s' with
            | Some (body, rest) => Some (JStr body, rest)
            | None => None
            end
          else if n =? 45 then
            match parse_nat s' with
            | Some (k, rest) => Some (JInt (- k), rest)
            | None => None
            end
          else if is_digit c then
            match parse_nat s with
            | Some (k, rest) => Some (JInt k, rest)
            | None => None
            end
          else if n =? 116 then literal "true" (JBool true) s
          else if n =? 102 then literal "false" (JBool false) s
          else if n =? 110 then literal "null" JNull s
          else None
      end
  end
with parse_members (fuel : nat) (s : string) (acc : dict)
  : option (json * string) :=
  match fuel with
  | O => None
  | S f =>
      match s with
      | String c s1 =>
          if code c =? 34 then
            match parse_string s1 with
            | Some (k, s2) =>
                match skip_ws s2 with
                | String c3 s3 =>
                    if code c3 =? 58 then
                      match parse_value f (skip_ws s3) with
                      | Some (v, s4) =>
                          match skip_ws s4 with
                          | String c5 s5 =>
                              if code c5 =? 44
                              then parse_members f (skip_ws s5)
                                                 (dict_set k v acc)
                              else if code c5 =? 125
                              then Some (JObj (dict_set k v acc), s5)
                              else None
                          | EmptyString => None
                          end
                      | None => None
                      end
                    else None
                | EmptyString => None
                end
            | None => None
            end
          else None
      | EmptyString => None
      end
  end
with parse_elements (fuel : nat) (s : string) (acc : list json)
  : option (json * string) :=
  match fuel with
  | O => None
  | S f =>
      match parse_value f s with
      | Some (v, s1) =>
          match skip_ws s1 with
          | String c2 s2 =>
              if code c2 =? 44
              then parse_elements f (skip_ws s2) (acc ++ [v])
              else if code c2 =? 93 then Some (JArr (acc ++ [v]), s2)
              else None
          | EmptyString => None
          end
      | None => None
      end
  end.

Definition json_loads (s : string) : res json :=
  match parse_value (S (String.length s)) (skip_ws s) with
  | Some (v, rest) =>
      match skip_ws rest with
      | EmptyString => Ok v
      | _ => Raise JSONDecodeError
      end
  | None => Raise JSONDecodeError
  end.

End Ref.

(** ** python-prelude.py: the shell helpers

    The operating system is an oracle: what each [proc.communicate] call
    and each [os.killpg] call of [_run_with_interrupt] does, exceptions
    included, is a field of the spawned [process], and the signals sent and
    status events emitted are a trace of [event]s returned next to the
    result. *)

Module Shell.

Inductive signal : Type := SIGINT | SIGKILL.

Definition signum (s : signal) : Z :=
  match s with SIGINT => 2 | SIGKILL => 9 end.

Record ShellResult : Type := mkResult {
  stdout : string;
  stderr : string;
  code : Z
}.

(** [ShellResult.__bool__] *)
Definition succeeded (r : ShellResult) : bool := code r =? 0.

(** What one call of [proc.communicate] does: it returns
    [(stdout, stderr)] or raises.  [subprocess.TimeoutExpired] and
    [KeyboardInterrupt] are the exceptions the handlers look for; any
    other one (a decoding error of the text mode, an [OSError]) is a
    [Raise] like them. *)
Definition wait : Type := res (string * string).

Abbreviation Finished out err := (Ok (out, err)) (only parsing).
Abbreviation Expired := (Raise TimeoutExpired) (only parsing).
Abbreviation Interrupted := (Raise KeyboardInterrupt) (only parsing).

Record process : Type := mkProcess {
  first_wait : wait;              (* communicate(timeout=timeout) *)
  grace_wait : wait;              (* communicate(timeout=2), after SIGINT *)
  final_wait : wait;              (* communicate(), after SIGKILL *)
  returncode : Z;
  (* os.killpg(proc.pid, s): it raises ProcessLookupError, an OSError,
     when the group is gone *)
  killpg : signal -> res unit
}.

Inductive event : Type :=
| Killpg (s : signal)                     (* os.killpg(proc.pid, s) returned *)
| Status (cmd : string) (code : Z) (output : string). (* _emit_status("sh", ...) *)

Definition outcome : Type := (list event * res ShellResult)%type.

Definition after (evs : list event) (o : outcome) : outcome :=
  ((evs ++ fst o)%list, snd o).

Definition _make_shell_result (out err : string) (rc : Z) (cmd : string)
  : outcome :=
  let output := if negb (String.eqb err "") then out ++ err else out in
  ([Status (str_take 80 cmd) rc (str_take 500 output)],
   Ok (mkResult out err rc)).

(** [os.killpg(proc.pid, s)] and what follows it: an exception of the
    call leaves the function. *)
Definition send (p : process) (s : signal) (next : outcome) : outcome :=
  match killpg p s with
  | Ok _ => after [Killpg s] next
  | Raise e => ([], Raise e)
  end.

(** A wait whose exceptions no handler catches. *)
Definition uncaught (w : wait) (rc : Z) (cmd : string) : outcome :=
  match w with
  | Ok (out, err) => _make_shell_result out err rc cmd
  | Raise e => ([], Raise e)
  end.

Definition _run_with_interrupt (p : process) (cmd : string) : outcome :=
  match first_wait p with
  | Ok (out, err) => _make_shell_result out err (returncode p) cmd
  | Raise KeyboardInterrupt =>
      send p SIGINT
        match grace_wait p with
        | Raise TimeoutExpired =>
            send p SIGKILL (uncaught (final_wait p) (- signum SIGINT) cmd)
        | w => uncaught w (- signum SIGINT) cmd
        end
  | Raise TimeoutExpired =>
      send p SIGKILL (uncaught (final_wait p) (- signum SIGKILL) cmd)
  | Raise e => ([], Raise e)
  end.

Record os : Type := mkOs {
  which : string -> option string;        (* shutil.which *)
  getenv : string -> option string;       (* os.environ.get *)
  platform : string;                      (* sys.platform *)
  (* subprocess.Popen(args, cwd=cwd, ...), observed with this timeout *)
  spawn : list string -> option string -> option Z -> res process;
  (* subprocess.run(args, cwd=cwd, capture_output=True, timeout=timeout) *)
  subprocess_run :
    list string -> option string -> option Z -> res (string * string * Z)
}.

(** [x or y] on optional strings: [None] and the empty string are false. *)
Definition or_else (x y : option string) : option string :=
  match x with
  | Some EmptyString | None => y
  | Some _ => x
  end.

Definition is_true (x : option string) : bool :=
  match x with
  | Some EmptyString | None => false
  | Some _ => true
  end.

(** [str(cwd) if cwd else None] *)
Definition cwd_arg (cwd : option string) : option string := or_else cwd None.

Definition launch (o : os) (args : list string) (cwd : option string)
  (timeout : option Z) (cmd : string) : outcome :=
  match spawn o args (cwd_arg cwd) timeout with
  | Ok p => _run_with_interrupt p cmd
  | Raise e => ([], Raise e)
  end.

Definition run (o : os) (cmd : string) (cwd : option string)
  (timeout : option Z) : outcome :=
  let shell_path :=
    match or_else (which o "bash") (or_else (which o "sh") (Some "/bin/sh"))
    with Some path => path | None => "/bin/sh" end in
  launch o [shell_path; "-c"; cmd] cwd timeout cmd.

(** The shell that [sh] settles on, if any. *)
Definition locate_shell (o : os) : option string :=
  let shell_path := getenv o "SHELL" in
  let usable :=
    match shell_path with
    | Some path => is_true shell_path && is_true (which o path)
    | None => false
    end in
  if usable then shell_path
  else or_else (which o "bash") (or_else (which o "zsh") (which o "sh")).

Definition sh (o : os) (cmd : string) (cwd : option string)
  (timeout : option Z) : outcome :=
  let snapshot := getenv o "OMP_SHELL_SNAPSHOT" in
  let prefix :=
    match or_else snapshot None with
    | Some path => "source '" ++ path ++ "' 2>/dev/null && "
    | None => ""
    end in
  let final := prefix ++ cmd in
  match or_else (locate_shell o) None with
  | None =>
      if String.prefix "win" (platform o) then
        match subprocess_run o ["cmd"; "/c"; cmd] (cwd_arg cwd) timeout with
        | Ok (out, err, rc) => _make_shell_result out err rc cmd
        | Raise e => ([], Raise e)
        end
      else ([], Raise RuntimeError)
  | Some shell_path =>
      let no_login :=
        or_else (getenv o "OMP_BASH_NO_LOGIN")
                (getenv o "CLAUDE_BASH_NO_LOGIN") in
      let args :=
        if is_true no_login then [shell_path; "-c"; final]
        else [shell_path; "-l"; "-c"; final] in
      launch o args cwd timeout cmd
  end.

Definition signals (evs : list event) : list signal :=
  flat_map (fun e => match e with Killpg s => [s] | Status _ _ _ => [] end)
           evs.

(** The sentence of the specification on timeouts and interrupts, read
    literally: the first signal is the graceful one, the forceful one can
    only follow it, and a result comes back. *)
Definition graceful_then_forceful (p : process) (cmd : string) : Prop :=
  (signals (fst (_run_with_interrupt p cmd)) = [SIGINT]
   \/ signals (fst (_run_with_interrupt p cmd)) = [SIGINT; SIGKILL])
  /\ succeeds (snd (_run_with_interrupt p cmd)).

(** The status events of a trace. *)
Definition statuses (evs : list event) : list event :=
  filter (fun e => match e with Status _ _ _ => true | Killpg _ => false end)
         evs.


(** *** Example processes *)

(** [os.killpg] finds the process group. *)
Definition delivered : signal -> res unit := fun _ => Ok tt.

(** A process that outlives the timeout and dies on SIGKILL. *)
Definition hung : process :=
  mkProcess Expired Expired (Finished "partial" "") 0 delivered.

(** A process that is interrupted, ignores SIGINT and dies on SIGKILL. *)
Definition stubborn : process :=
  mkProcess Interrupted Expired (Finished "partial" "") 0 delivered.

(** A process that outlives the timeout; a second interrupt arrives while
    its output is collected after SIGKILL. *)
Definition harassed : process :=
  mkProcess Expired Expired Interrupted 0 delivered.

(** A process whose group is gone when the timeout handler signals it. *)
Definition vanished : process :=
  mkProcess Expired Expired (Finished "partial" "") 0
            (fun _ => Raise OSError).

(** A system without any shell on the path, that spawns [p]. *)
Definition bare_os (p : process) : os :=
  mkOs (fun _ => None) (fun _ => None) "linux"
       (fun _ _ _ => Ok p) (fun _ _ _ => Raise OSError).

(** A system with bash on the path, that spawns [p]. *)
Definition bash_os (p : process) : os :=
  mkOs (fun name => if String.eqb name "bash" then Some "/bin/bash" else None)
       (fun _ => None) "linux"
       (fun _ _ _ => Ok p) (fun _ _ _ => Raise OSError).

(** A system whose [subprocess.Popen] fails. *)
Definition broken_os : os :=
  mkOs (fun _ => None) (fun _ => None) "linux"
       (fun _ _ _ => Raise OSError) (fun _ _ _ => Raise OSError).

End Shell.

(** ** python-prelude.py: the text and line helpers

    A helper returns the status events it emits ([_emit_status], as the
    dict it displays) next to its value; a helper that rewrites a file takes
    the text that [read_text] returned and gives the text it passes to
    [write_text]. *)

Module Prelude.

(** The line boundaries of [str.splitlines], among the characters below
    256. *)
Definition is_linebreak (c : ascii) : bool :=
  let n := Z.of_nat (nat_of_ascii c) in
  ((10 <=? n) && (n <=? 13)) || ((28 <=? n) && (n <=? 30)) || (n =? 133).

Definition is_cr (c : ascii) : bool := Ascii.eqb c (ascii_of_nat 13).
Definition is_lf (c : ascii) : bool := Ascii.eqb c (ascii_of_nat 10).

(** [s.splitlines()] *)
Fixpoint splitlines (s : string) : list string :=
  match s with
  | EmptyString => []
  | String c s' =>
      if is_linebreak c then
        match s' with
        | String c' s'' =>
            if is_cr c && is_lf c' then EmptyString :: splitlines s''
            else EmptyString :: splitlines s'
        | EmptyString => [EmptyString]
        end
      else
        match splitlines s' with
        | [] => [String c EmptyString]
        | line :: rest => String c line :: rest
        end
  end.

(** ["\n".join(lines)] *)
Definition join_lines (lines : list string) : string :=
  String.concat newline lines.

(** A slice bound [i] of a sequence of length [len], as Python clips it. *)
Definition clip (len : nat) (i : Z) : nat :=
  Z.to_nat (if i <? 0 then Z.max (Z.of_nat len + i) 0
            else Z.min i (Z.of_nat len)).

(** [l[start:stop]]; [None] is an omitted bound. *)
Definition slice {A : Type} (start stop : option Z) (l : list A) : list A :=
  let a := match start with Some i => clip (length l) i | None => O end in
  let b := match stop with Some i => clip (length l) i
                         | None => length l end in
  firstn (b - a) (skipn a l).

(** [_emit_status(op, **data)] *)
Definition emit (op : string) (data : dict) : json :=
  JObj (("op", JStr op) :: data).

Definition int_of_len {A : Type} (l : list A) : json :=
  JInt (Z.of_nat (length l)).

Definition head (text : string) (n : Z) : list json * string :=
  let lines := slice None (Some n) (splitlines text) in
  let out := join_lines lines in
  ([emit "head" [("lines", int_of_len lines);
                 ("preview", JStr (str_take 500 out))]],
   out).

Definition tail (text : string) (n : Z) : list json * string :=
  let lines := slice (Some (- n)) None (splitlines text) in
  let out := join_lines lines in
  ([emit "tail" [("lines", int_of_len lines);
                 ("preview", JStr (str_take 500 out))]],
   out).

(** [list(dict.fromkeys(lines))]: the first occurrence of each line. *)
Fixpoint fromkeys (lines : list string) : list string :=
  match lines with
  | [] => []
  | x :: rest => x :: filter (fun y => negb (String.eqb y x)) (fromkeys rest)
  end.

Module StringOrder <: TotalLeBool.
Definition t : Type := string.
Definition leb : string -> string -> bool := String.leb.
Definition leb_total : forall x y, leb x y = true \/ leb y x = true :=
  String.leb_total.
End StringOrder.

(** [sorted] on strings is the stable merge sort of the library: strings
    that compare equal are the same string, so every stable sort returns
    the same list. *)
Module StringSort := Sort StringOrder.

(** The list [lines] of [sort_lines] when it is joined. *)
Definition sorted_lines (text : string) (reverse unique : bool)
  : list string :=
  let lines := splitlines text in
  let lines := if unique then fromkeys lines else lines in
  if reverse then rev (StringSort.sort lines) else StringSort.sort lines.

Definition sort_lines (text : string) (reverse unique : bool)
  : list json * string :=
  let lines := sorted_lines text reverse unique in
  ([emit "sort_lines" [("lines", int_of_len lines);
                       ("unique", JBool unique);
                       ("reverse", JBool reverse)]],
   join_lines lines).

(** The loop of [uniq] over [lines[1:]]. *)
Fixpoint uniq_loop (rest : list string) (groups : list (Z * string))
  (current : string) (current_count : Z) : list (Z * string) :=
  match rest with
  | [] => groups ++ [(current_count, current)]
  | line :: rest' =>
      if String.eqb line current
      then uniq_loop rest' groups current (current_count + 1)
      else uniq_loop rest' (groups ++ [(current_count, current)]) line 1
  end.

(** The list [groups] of [uniq]. *)
Definition uniq_groups (lines : list string) : list (Z * string) :=
  match lines with
  | [] => []
  | first :: rest => uniq_loop rest [] first 1
  end.

(** [uniq]: the groups when [count] is set, the joined lines otherwise. *)
Definition uniq (text : string) (count : bool)
  : list json * (list (Z * string) + string) :=
  let lines := splitlines text in
  match lines with
  | [] => ([emit "uniq" [("groups", JInt 0)]],
           if count then inl [] else inr "")
  | _ :: _ =>
      let groups := uniq_groups lines in
      ([emit "uniq" [("groups", int_of_len groups);
                     ("count_mode", JBool count)]],
       if count then inl groups else inr (join_lines (map snd groups)))
  end.

(** What a helper does to the file it edits. *)
Record edit (A : Type) : Type := mkEdit {
  display : list json;
  written : string;
  value : A
}.

Arguments mkEdit {A} display written value.
Arguments display {A} e.
Arguments written {A} e.
Arguments value {A} e.

(** The lines [selected] of [lines]. *)
Definition selected_lines (data : string) (start : Z) (stop : option Z)
  : list string :=
  let all_lines := splitlines data in
  let stop := match stop with Some e => e
                            | None => Z.of_nat (length all_lines) end in
  let start := Z.max 1 start in
  let stop := Z.min (Z.of_nat (length all_lines)) stop in
  slice (Some (start - 1)) (Some stop) all_lines.

Definition lines (path data : string) (start : Z) (stop : option Z)
  : list json * string :=
  let all_lines := splitlines data in
  let stop' := match stop with Some e => e
                             | None => Z.of_nat (length all_lines) end in
  let start' := Z.max 1 start in
  let stop' := Z.min (Z.of_nat (length all_lines)) stop' in
  let selected := selected_lines data start stop in
  let out := join_lines selected in
  ([emit "lines" [("path", JStr path); ("start", JInt start');
                  ("end", JInt stop'); ("count", int_of_len selected);
                  ("preview", JStr (str_take 500 out))]],
   out).

(** The list [new_lines] of [delete_lines]. *)
Definition kept_lines (data : string) (start : Z) (stop : option Z)
  : list string :=
  let all_lines := splitlines data in
  let stop := match stop with Some e => e | None => start end in
  let start := Z.max 1 start in
  let stop := Z.min (Z.of_nat (length all_lines)) stop in
  (slice None (Some (start - 1)) all_lines
   ++ slice (Some stop) None all_lines)%list.

(** The text written back by the line helpers that delete. *)
Definition rewrite_lines (all_lines new_lines : list string) : string :=
  join_lines new_lines
  ++ match all_lines with [] => "" | _ :: _ => newline end.

Definition delete_lines (path data : string) (start : Z) (stop : option Z)
  : edit Z :=
  let all_lines := splitlines data in
  let stop' := match stop with Some e => e | None => start end in
  let start' := Z.max 1 start in
  let stop' := Z.min (Z.of_nat (length all_lines)) stop' in
  let count := stop' - start' + 1 in
  let new_lines := kept_lines data start stop in
  mkEdit [emit "delete_lines" [("path", JStr path); ("start", JInt start');
                               ("end", JInt stop'); ("count", JInt count)]]
         (rewrite_lines all_lines new_lines)
         count.

(** The list [all_lines] of [insert_at] after the insertion. *)
Definition inserted_lines (data : string) (line_num : Z) (text : string)
  (after : bool) : list string :=
  let all_lines := splitlines data in
  let new_lines := splitlines text in
  let len := Z.of_nat (length all_lines) in
  let line_num := Z.max 1 (Z.min (len + 1) line_num) in
  let idx := if after then Z.min line_num len else line_num - 1 in
  (slice None (Some idx) all_lines ++ new_lines
   ++ slice (Some idx) None all_lines)%list.

Definition insert_at (path data : string) (line_num : Z) (text : string)
  (after : bool) : edit string :=
  let all_lines := splitlines data in
  let len := Z.of_nat (length all_lines) in
  let line_num' := Z.max 1 (Z.min (len + 1) line_num) in
  mkEdit [emit "insert_at"
            [("path", JStr path); ("line", JInt line_num');
             ("lines_inserted", int_of_len (splitlines text));
             ("position", JStr (if after then "after" else "before"))]]
         (join_lines (inserted_lines data line_num text after) ++ newline)
         path.

(** [s.count(old)] for a non-empty [old]; [skip] as in [replace_from]. *)
Fixpoint count_from (old s : string) (skip : nat) : nat :=
  match s with
  | EmptyString => O
  | String c s' =>
      match skip with
      | S k => count_from old s' k
      | O =>
          if String.prefix old s
          then S (count_from old s' (String.length old - 1))
          else count_from old s' O
      end
  end.

(** [s.count(old)]: an empty [old] is found before every character and at
    the end. *)
Definition str_count (old s : string) : nat :=
  match old with
  | EmptyString => S (String.length s)
  | _ => count_from old s O
  end.

(** [new] before every character of [s]. *)
Fixpoint interleave (new s : string) : string :=
  match s with
  | EmptyString => EmptyString
  | String c s' => new ++ String c (interleave new s')
  end.

(** [s.replace(old, new)], the empty [old] included. *)
Definition str_replace_all (old new s : string) : string :=
  match old with
  | EmptyString => interleave new s ++ new
  | _ => str_replace old new s
  end.

(** [c.lower()] for a character below 256. *)
Definition lower_char (c : ascii) : ascii :=
  let n := nat_of_ascii c in
  if ((65 <=? n) && (n <=? 90)
      || (192 <=? n) && (n <=? 222) && negb (n =? 215))%nat
  then ascii_of_nat (n + 32)
  else c.

(** [s.lower()] *)
Fixpoint lower (s : string) : string :=
  match s with
  | EmptyString => EmptyString
  | String c s' => String (lower_char c) (lower s')
  end.

(** [pattern in line] *)
Fixpoint contains (pattern line : string) : bool :=
  String.prefix pattern line
  || match line with
     | EmptyString => false
     | String _ line' => contains pattern line'
     end.

(** The numbers [i], [i + 1], ... of the lines that match:
    [match_lines] of [grep], in the order of [enumerate(lines, i)]. *)
Fixpoint matching (match_fn : string -> bool) (lines : list string) (i : Z)
  : list Z :=
  match lines with
  | [] => []
  | line :: rest =>
      if match_fn line then i :: matching match_fn rest (i + 1)
      else matching match_fn rest (i + 1)
  end.

(** [range(-context, context + 1)] *)
Definition offsets (context : Z) : list Z :=
  map (fun k => Z.of_nat k - context) (seq 0 (Z.to_nat (2 * context + 1))).

Module ZOrder <: TotalLeBool.
Definition t : Type := Z.
Definition leb : Z -> Z -> bool := Z.leb.
Definition leb_total : forall x y, leb x y = true \/ leb y x = true :=
  fun x y =>
    match Z.le_ge_cases x y with
    | or_introl H => or_introl (proj2 (Z.leb_le x y) H)
    | or_intror H => or_intror (proj2 (Z.leb_le y x) H)
    end.
End ZOrder.

Module ZSort := Sort ZOrder.

(** [sorted(ln for ln in s if keep(ln))] for a set [s] given by the list of
    what was added to it. *)
Definition sorted_set (keep : Z -> bool) (added : list Z) : list Z :=
  ZSort.sort (filter keep (nodup Z.eq_dec added)).

(** [output_lines] of [grep]. *)
Definition output_lines (match_lines : list Z) (context len : Z) : list Z :=
  if 0 <? context then
    sorted_set (fun ln => (1 <=? ln) && (ln <=? len))
      (flat_map (fun ln => map (fun offset => ln + offset) (offsets context))
                match_lines)
  else sorted_set (fun _ => true) match_lines.

(** [[(ln, lines[ln - 1]) for ln in output_lines]] *)
Definition hits_of (lines : list string) (numbers : list Z)
  : list (Z * string) :=
  map (fun ln => (ln, nth (Z.to_nat (ln - 1)) lines "")) numbers.

(** [s.split(sep)] for a non-empty [sep]; [skip] counts the characters of
    a separator still to be dropped. *)
Fixpoint split_from (sep s : string) (skip : nat) : list string :=
  match s with
  | EmptyString => [EmptyString]
  | String c s' =>
      match skip with
      | S k => split_from sep s' k
      | O =>
          if String.prefix sep s
          then EmptyString :: split_from sep s' (String.length sep - 1)
          else match split_from sep s' O with
               | field :: rest => String c field :: rest
               | [] => [String c EmptyString]
               end
      end
  end.

(** [s.split()]: the runs of characters that are not white space. *)
Fixpoint split_ws (s : string) : list string :=
  match s with
  | EmptyString => []
  | String c s' =>
      if is_space c then split_ws s'
      else match s' with
           | EmptyString => [String c EmptyString]
           | String c' _ =>
               if is_space c' then String c EmptyString :: split_ws s'
               else match split_ws s' with
                    | field :: rest => String c field :: rest
                    | [] => [String c EmptyString]
                    end
           end
  end.

(** [line.split(sep) if sep else line.split()] *)
Definition fields (sep : option string) (line : string) : list string :=
  match sep with
  | Some (String c sep') => split_from (String c sep') line O
  | _ => split_ws line
  end.

(** [[parts[i] for i in indices if i < len(parts)]]: a negative [i] counts
    from the end and raises [IndexError] below [-len(parts)]. *)
Fixpoint select (parts : list string) (indices : list Z)
  : res (list string) :=
  match indices with
  | [] => Ok []
  | i :: rest =>
      if i <? Z.of_nat (length parts) then
        if i <? - Z.of_nat (length parts) then Raise IndexError
        else
          selected <- select parts rest ;;
          Ok (nth (Z.to_nat (if i <? 0 then Z.of_nat (length parts) + i
                             else i)) parts "" :: selected)
      else select parts rest
  end.

(** The loop of [cols] over the lines. *)
Fixpoint cols_lines (lines : list string) (indices : list Z)
  (sep : option string) : res (list string) :=
  match lines with
  | [] => Ok []
  | line :: rest =>
      selected <- select (fields sep line) indices ;;
      result_lines <- cols_lines rest indices sep ;;
      Ok (String.concat " " selected :: result_lines)
  end.

Definition cols (text : string) (indices : list Z) (sep : option string)
  : res (list json * string) :=
  result_lines <- cols_lines (splitlines text) indices sep ;;
  Ok ([emit "cols" [("lines", int_of_len result_lines);
                    ("columns", JArr (map JInt indices))]],
      join_lines result_lines).

Section Regex.

(** [re.subn(pattern, repl, data)] *)
Variable re_subn : string -> string -> string -> res (string * Z).

Definition replace (path data pattern repl : string) (regex : bool)
  : res (edit Z) :=
  result <- (if regex then re_subn pattern repl data
             else Ok (str_replace_all pattern repl data,
                      Z.of_nat (str_count pattern data))) ;;
  Ok (mkEdit [emit "replace" [("path", JStr path);
                              ("count", JInt (snd result))]]
             (fst result)
             (snd result)).

(** [re.compile(pattern, flags)] with [flags] either 0 or [re.IGNORECASE],
    as the test [rx.search(line) is not None]. *)
Variable re_compile : string -> bool -> res (string -> bool).

(** [match_fn] of [grep] and [rgrep]. *)
Definition line_matcher (pattern : string) (ignore_case literal : bool)
  : res (string -> bool) :=
  if literal then
    if ignore_case
    then Ok (fun line => contains (lower pattern) (lower line))
    else Ok (fun line => contains pattern line)
  else re_compile pattern ignore_case.

Definition grep (path data pattern : string)
  (ignore_case literal : bool) (context : Z)
  : res (list json * list (Z * string)) :=
  let lines := splitlines data in
  match_fn <- line_matcher pattern ignore_case literal ;;
  let match_lines := matching match_fn lines 1 in
  let hits := hits_of lines (output_lines match_lines context
                                          (Z.of_nat (length lines))) in
  Ok ([emit "grep"
         [("pattern", JStr pattern); ("path", JStr path);
          ("count", int_of_len (nodup Z.eq_dec match_lines));
          ("hits",
           JArr (map (fun h => JObj [("line", JInt (fst h));
                                     ("text", JStr (str_take 100 (snd h)))])
                     (firstn 10 hits)))]],
      hits).

(** The list [new_lines] of [delete_matching]. *)
Definition unmatched_lines (data pattern : string) (regex : bool)
  : res (list string) :=
  let all_lines := splitlines data in
  if regex then
    search <- re_compile pattern false ;;
    Ok (filter (fun l => negb (search l)) all_lines)
  else Ok (filter (fun l => negb (contains pattern l)) all_lines).

Definition delete_matching (path data pattern : string) (regex : bool)
  : res (edit Z) :=
  let all_lines := splitlines data in
  new_lines <- unmatched_lines data pattern regex ;;
  let count := Z.of_nat (length all_lines) - Z.of_nat (length new_lines) in
  Ok (mkEdit [emit "delete_matching"
                [("path", JStr path); ("pattern", JStr pattern);
                 ("count", JInt count)]]
             (rewrite_lines all_lines new_lines)
             count).

End Regex.

(** The expansion of the groups of [uniq]: each line as often as counted. *)
Definition expand (groups : list (Z * string)) : list string :=
  flat_map (fun g => repeat (snd g) (Z.to_nat (fst g))) groups.

(** No two neighbours of the list are equal. *)
Fixpoint no_repeat (lines : list string) : Prop :=
  match lines with
  | x :: (y :: _) as rest => x <> y /\ no_repeat rest
  | _ => True
  end.

(** A line boundary occurs in [s]. *)
Fixpoint has_break (s : string) : bool :=
  match s with
  | EmptyString => false
  | String c s' => is_linebreak c || has_break s'
  end.

(** A line as [splitlines] returns it: without line boundary. *)
Definition is_line (s : string) : Prop := has_break s = false.

(** The index [idx] of [insert_at]. *)
Definition insert_index (data : string) (line_num : Z) (after : bool) : Z :=
  let len := Z.of_nat (length (splitlines data)) in
  let line_num := Z.max 1 (Z.min (len + 1) line_num) in
  if after then Z.min line_num len else line_num - 1.

End Prelude.

(** ** cursor-log.py *)

Definition SKIP_DELTAS : list string :=
  ["tokenDelta"; "partialToolCall"; "heartbeat"; "thinkingDelta"].

Definition COALESCE_DELTAS : list string := ["textDelta"].

(** The pending text of [coalesce_entries]: the closure variables
    [output], [text_buffer] and [text_ts]. *)
Record state : Type := mkState {
  output : list string;
  text_buffer : string;
  text_ts : json
}.

Definition init_state : state := mkState [] "" (JInt 0).

Section Log.

(** [datetime.fromtimestamp(n / 1000).strftime("%H:%M:%S.%f")[:-3]] for an
    int [n]; it depends on the local time zone and raises out of range. *)
Variable clock : Z -> res string.

(** The same expression for a float operand, given by its bit pattern. *)
Variable clock_float : Z -> res string.

(** [json.dumps(x, default=str)] *)
Variable json_dumps : json -> string.

(** [repr] of a float, a list or a dict, as an f-string renders them. *)
Variable py_repr : json -> string.

(** [json.loads(line)] *)
Variable json_loads : string -> res json.

(** [f"{x}"] *)
Definition py_str (x : json) : string :=
  match x with
  | JNull => "None"
  | JBool true => "True"
  | JBool false => "False"
  | JInt n => str_of_Z n
  | JStr s => s
  | _ => py_repr x
  end.

(** [datetime.fromtimestamp(ts / 1000).strftime("%H:%M:%S.%f")[:-3]]:
    the division raises unless [ts] is a number. *)
Definition py_clock (ts : json) : res string :=
  match ts with
  | JInt n => clock n
  | JBool b => clock (if b then 1 else 0)
  | JFloat bits => clock_float bits
  | _ => Raise TypeError
  end.

Definition get_delta_type (entry : json) : res json :=
  typ <- py_get entry "type" (JStr "") ;;
  subtype <- py_get entry "subtype" (JStr "") ;;
  is_delta <- (if eq_str typ "interactionUpdate"
               then in_str_set subtype (SKIP_DELTAS ++ COALESCE_DELTAS)
               else Ok false) ;;
  if is_delta then Ok subtype
  else if eq_str typ "info" && eq_str subtype "interactionUpdate" then
    data <- py_get entry "data" (JObj []) ;;
    if is_dict data then py_get data "updateCase" JNull else Ok JNull
  else Ok JNull.

Definition is_noise (entry : json) (verbose : bool) : res bool :=
  if verbose then Ok false
  else
    typ <- py_get entry "type" (JStr "") ;;
    subtype <- py_get entry "subtype" (JStr "") ;;
    if eq_str typ "serverMessage" && eq_str subtype "interactionUpdate"
    then Ok true
    else if eq_str typ "kvClient"
            || (eq_str typ "serverMessage" && eq_str subtype "kvServerMessage")
    then Ok true
    else if eq_str typ "serverMessage"
            && eq_str subtype "conversationCheckpointUpdate"
    then Ok true
    else if eq_str typ "execClient" && eq_str subtype "requestContextResult"
    then Ok true
    else
      delta_type <- get_delta_type entry ;;
      skipped <- in_str_set delta_type SKIP_DELTAS ;;
      if skipped then Ok true else Ok false.

(** [x[:n] + "..." if len(x) > n else x] *)
Definition ellipsis (n : nat) (s : string) : string :=
  if (n <? String.length s)%nat then str_take n s ++ "..." else s.

Definition is_null (x : json) : bool :=
  match x with JNull => true | _ => false end.

Definition format_exec (data : json) : res string :=
  msg <- py_get data "message" (JObj []) ;;
  case <- py_get msg "case" (JStr "") ;;
  value <- py_get msg "value" (JObj []) ;;
  if eq_str case "mcpArgs" then
    n1 <- py_get value "name" JNull ;;
    name <- (if truthy n1 then Ok n1
             else n2 <- py_get value "toolName" JNull ;;
                  Ok (if truthy n2 then n2 else JStr "?")) ;;
    args <- py_get value "args" (JObj []) ;;
    let args_str := if truthy args then json_dumps args else "" in
    Ok (" mcp:" ++ py_str name ++ " " ++ ellipsis 200 args_str)
  else if eq_str case "grepArgs" then
    pattern <- py_get value "pattern" (JStr "") ;;
    path <- py_get value "path" (JStr ".") ;;
    if truthy pattern then
      p <- py_take 30 pattern ;;
      q <- py_take 30 path ;;
      Ok (" grep:" ++ py_str p ++ "@" ++ py_str q)
    else
      q <- py_take 30 path ;;
      Ok (" grep@" ++ py_str q)
  else if eq_str case "shellArgs" then
    command <- py_get value "command" (JStr "") ;;
    cmd <- py_take 50 command ;;
    Ok (" shell:" ++ py_str cmd)
  else if in_str_tuple case ["readArgs"; "writeArgs"; "lsArgs"; "deleteArgs"]
  then
    path <- py_get value "path" (JStr "") ;;
    if truthy path then
      op <- py_replace "Args" "" case ;;
      p <- py_take 60 path ;;
      Ok (" " ++ op ++ ":" ++ py_str p)
    else Ok (" " ++ py_str case)
  else Ok (" " ++ py_str case).

Definition format_default (d : dict) : string :=
  let filtered :=
    filter (fun kv => negb (is_null (snd kv))
                      && negb (existsb (String.eqb (fst kv))
                                       ["detail"; "$typeName"])) d in
  match filtered with
  | [] => ""
  | _ => " " ++ ellipsis 120 (json_dumps (JObj filtered))
  end.

Definition format_data (typ subtype data : json) : res string :=
  match data with
  | JObj (_ :: _ as d) =>
      if eq_str typ "serverMessage" && eq_str subtype "execServerMessage"
      then format_exec data
      else if eq_str typ "info" && eq_str subtype "interactionUpdate" then
        update_case <- py_get data "updateCase" (JStr "") ;;
        Ok (" " ++ py_str update_case)
      else if eq_str typ "info" && eq_str subtype "builtRunRequest" then
        tools <- py_get data "tools" (JInt 0) ;;
        Ok (" tools=" ++ py_str tools)
      else if eq_str typ "info" && eq_str subtype "execClientMessage" then
        message_case <- py_get data "messageCase" (JStr "") ;;
        Ok (" " ++ py_str message_case)
      else Ok (format_default d)
  | _ => Ok ""             (* not data or not isinstance(data, dict) *)
  end.

Definition format_entry (entry : json) (verbose : bool)
  : res (option string) :=
  noise <- is_noise entry verbose ;;
  if noise then Ok None
  else
    ts <- py_get entry "ts" (JInt 0) ;;
    typ <- py_get entry "type" (JStr "?") ;;
    subtype <- py_get entry "subtype" JNull ;;
    data <- py_get entry "data" JNull ;;
    time_str <- (if truthy ts then py_clock ts else Ok "??:??:??") ;;
    let type_str :=
      if truthy subtype then py_str typ ++ ":" ++ py_str subtype
      else py_str typ in
    data_str <- (if negb verbose
                 then format_data typ
                        (if truthy subtype then subtype else JStr "") data
                 else Ok "") ;;
    let data_str :=
      if verbose && truthy data
      then " " ++ str_take 300 (json_dumps data)
      else data_str in
    Ok (Some ("[" ++ time_str ++ "] " ++ type_str ++ data_str)).

Definition extract_text_delta (entry : json) : res json :=
  data <- py_get entry "data" (JObj []) ;;
  match data with
  | JObj d =>
      match lookup "text" d with
      | Some t => Ok t
      | None =>
          match lookup "message" d with
          | Some (JObj m) =>
              match lookup "value" m with
              | Some (JObj v) =>
                  match lookup "text" v with
                  | Some t => Ok t
                  | None => Ok JNull
                  end
              | _ => Ok JNull
              end
          | _ => Ok JNull
          end
      end
  | _ => Ok JNull
  end.

(** The escaped and capped text of a flushed line. *)
Definition escape_text (buffer : string) : string :=
  ellipsis 300 (str_replace newline "\n" buffer).

Definition text_line (time_str buffer : string) : string :=
  "[" ++ time_str ++ "] text: " ++ escape_text buffer.

Definition flush_text (st : state) : res state :=
  if negb (String.eqb (text_buffer st) "") then
    time_str <- py_clock (text_ts st) ;;
    Ok (mkState (output st ++ [text_line time_str (text_buffer st)])
                "" (JInt 0))
  else Ok st.

(** [text_buffer += text]: a [TypeError] unless [text] is a string. *)
Definition py_append (buffer : string) (text : json) : res string :=
  match text with
  | JStr s => Ok (buffer ++ s)
  | _ => Raise TypeError
  end.

(** One iteration of the loop of [coalesce_entries]. *)
Definition step (verbose : bool) (st : state) (entry : json) : res state :=
  typ <- py_get entry "type" (JStr "") ;;
  subtype <- py_get entry "subtype" (JStr "") ;;
  if eq_str typ "interactionUpdate" && eq_str subtype "textDelta" then
    text <- extract_text_delta entry ;;
    if truthy text then
      ts <- (if String.eqb (text_buffer st) ""
             then py_get entry "ts" (JInt 0)
             else Ok (text_ts st)) ;;
      buffer <- py_append (text_buffer st) text ;;
      Ok (mkState (output st) buffer ts)
    else Ok st
  else
    noise <- is_noise entry verbose ;;
    if noise then Ok st
    else
      st1 <- flush_text st ;;
      formatted <- format_entry entry verbose ;;
      match formatted with
      | Some line =>
          if negb (String.eqb line "")
          then Ok (mkState (output st1 ++ [line])
                           (text_buffer st1) (text_ts st1))
          else Ok st1
      | None => Ok st1
      end.

Fixpoint run_entries (verbose : bool) (st : state) (entries : list json)
  : res state :=
  match entries with
  | [] => Ok st
  | entry :: rest =>
      st' <- step verbose st entry ;;
      run_entries verbose st' rest
  end.

Definition coalesce_from (verbose : bool) (st : state)
  (entries : list json) : res (list string) :=
  st' <- run_entries verbose st entries ;;
  st'' <- flush_text st' ;;
  Ok (output st'').

Definition coalesce_entries (entries : list json) (verbose : bool)
  : res (list string) :=
  coalesce_from verbose init_state entries.

(** Standard output and standard error of the process. *)
Record io : Type := mkIo {
  printed : list string;
  reported : list string
}.

(** The loop of [parse_entries]; the lines written to standard error come
    back next to the result. *)
Fixpoint parse_lines (lines : list string) (entries : list json)
  (err : list string) : list string * res (list json) :=
  match lines with
  | [] => (err, Ok entries)
  | line :: rest =>
      if negb (String.eqb (str_strip line) "") then
        match json_loads line with
        | Ok v => parse_lines rest (entries ++ [v]) err
        | Raise JSONDecodeError =>
            parse_lines rest entries
                        (err ++ ["[PARSE ERROR] " ++ str_take 100 line])
        | Raise e => (err, Raise e)
        end
      else parse_lines rest entries err
  end.

(** [lines[-last:] if len(lines) > last else lines], when [last > 0]. *)
Definition last_lines (last : Z) (lines : list string) : list string :=
  if 0 <? last then
    if last <? Z.of_nat (length lines)
    then skipn (length lines - Z.to_nat last) lines
    else lines
  else lines.

Definition parse_entries (text : string) (last : Z)
  : list string * res (list json) :=
  parse_lines (last_lines last (split_lines (str_strip text))) [] [].

(** [process_file] without [follow]; [file] is the content of the file at
    [path], if it exists. *)
Definition process_file (path : string) (file : option string)
  (verbose : bool) (last : Z) : io * res unit :=
  match file with
  | None => (mkIo [] ["File not found: " ++ path], Raise SystemExit)
  | Some text =>
      let '(err, parsed) := parse_entries text last in
      match parsed with
      | Ok entries =>
          match coalesce_entries entries verbose with
          | Ok lines => (mkIo lines err, Ok tt)
          | Raise e => (mkIo [] err, Raise e)
          end
      | Raise e => (mkIo [] err, Raise e)
      end
  end.

(** The state of the loop of [process_file] with [follow]. *)
Record follow_state : Type := mkFollow {
  buffer : list json;
  channels : io;
  sleeps : nat
}.

(** One iteration of that loop: [line] is what [f.readline()] returns and
    [elapsed] what [time.time() - last_emit > 0.5] evaluates to. *)
Definition follow_iter (verbose : bool) (st : follow_state)
  (line : string) (elapsed : bool) : res follow_state :=
  buffer1 <- (if negb (String.eqb line "")
                 && negb (String.eqb (str_strip line) "")
              then match json_loads line with
                   | Ok v => Ok (buffer st ++ [v])%list
                   | Raise JSONDecodeError => Ok (buffer st)
                   | Raise e => Raise e
                   end
              else Ok (buffer st)) ;;
  if match buffer1 with [] => false | _ => true end
     && (elapsed || (50 <? length buffer1)%nat)
  then
    lines <- coalesce_entries buffer1 verbose ;;
    Ok (mkFollow [] (mkIo (printed (channels st) ++ lines)
                          (reported (channels st)))
                 (sleeps st))
  else if String.eqb line ""
  then Ok (mkFollow buffer1 (channels st) (S (sleeps st)))
  else Ok (mkFollow buffer1 (channels st) (sleeps st)).

Fixpoint follow_run (verbose : bool) (st : follow_state)
  (reads : list (string * bool)) : res follow_state :=
  match reads with
  | [] => Ok st
  | (line, elapsed) :: rest =>
      st' <- follow_iter verbose st line elapsed ;;
      follow_run verbose st' rest
  end.

Definition follow_start : follow_state := mkFollow [] (mkIo [] []) O.

(** *** The records of the examples *)

(** A record whose envelope names a message that is not a dict. *)
Definition broken_exec_record : dict :=
  [("type", JStr "serverMessage"); ("subtype", JStr "execServerMessage");
   ("data", JObj [("message", JStr "x")])].

(** A record whose subtype is a list. *)
Definition list_subtype_record : dict :=
  [("type", JStr "interactionUpdate"); ("subtype", JArr [])].

(** An info record that wraps a text delta. *)
Definition wrapped_text_delta : dict :=
  [("type", JStr "info"); ("subtype", JStr "interactionUpdate");
   ("data", JObj [("updateCase", JStr "textDelta"); ("text", JStr "zz")]);
   ("ts", JInt 5)].

(** A text delta without ts. *)
Definition unstamped_text_delta : dict :=
  [("type", JStr "interactionUpdate"); ("subtype", JStr "textDelta");
   ("data", JObj [("text", JStr "zz")])].

(** A text delta stamped 01:02:03.004 after the epoch. *)
Definition stamped_text_delta : dict :=
  [("type", JStr "interactionUpdate"); ("subtype", JStr "textDelta");
   ("data", JObj [("text", JStr "zz")]); ("ts", JInt 3723004)].

(** A text delta without payload. *)
Definition textless_delta : dict :=
  [("type", JStr "interactionUpdate"); ("subtype", JStr "textDelta");
   ("ts", JInt 9)].

Definition heartbeat_record : dict :=
  [("type", JStr "interactionUpdate"); ("subtype", JStr "heartbeat");
   ("ts", JInt 7)].

Definition built_run_request_fields : dict :=
  [("type", JStr "info"); ("subtype", JStr "builtRunRequest");
   ("data", JObj [("tools", JInt 3)]); ("ts", JInt 2000)].

(** A state with the text "pending", stamped 1000, waiting for its flush. *)
Definition pending_state : state := mkState [] "pending" (JInt 1000).

Definition text_delta (text : string) (ts : Z) : json :=
  JObj [("type", JStr "interactionUpdate"); ("subtype", JStr "textDelta");
        ("data", JObj [("text", JStr text)]); ("ts", JInt ts)].

Definition kv_record : json :=
  JObj [("type", JStr "kvClient"); ("ts", JInt 1001)].

Definition built_run_request : json := JObj built_run_request_fields.

Definition sample_stream : list json :=
  [text_delta "A" 1000; kv_record; text_delta "B" 1002; built_run_request].

Definition shell_args (command : string) : dict :=
  [("message", JObj [("case", JStr "shellArgs");
                     ("value", JObj [("command", JStr command)])])].

Definition shell_record (command : string) : json :=
  JObj [("type", JStr "serverMessage"); ("subtype", JStr "execServerMessage");
        ("data", JObj (shell_args command))].

(** A command of 69 characters. *)
Definition long_command : string :=
  "for f in *.txt; do wc -l $f; done | sort -n | tail -n 5 | tee out.log".

Definition malformed_line : string := "{not json".

(** The line [{"type": "info"}]. *)
Definition valid_line : string :=
  "{" ++ quote ++ "type" ++ quote ++ ": " ++ quote ++ "info" ++ quote ++ "}".

Definition sample_text : string :=
  malformed_line ++ newline ++ valid_line ++ newline.

(** The fields of a record that the filter reads. *)
Definition record_fields : list string := ["type"; "subtype"; "ts"; "data"].

(** [time_str] of [format_entry]. *)
Definition entry_time (d : dict) : res string :=
  if truthy (field d "ts" (JInt 0))
  then py_clock (field d "ts" (JInt 0))
  else Ok "??:??:??".

(** [output.append(line)] *)
Definition emit_line (st : state) (line : string) : state :=
  mkState (output st ++ [line]) (text_buffer st) (text_ts st).

(** The state with [lines] printed before its output. *)
Definition prepend (lines : list string) (st : state) : state :=
  mkState (lines ++ output st) (text_buffer st) (text_ts st).

(** *** Shapes of records *)

(** A record whose [type] and [subtype] are the given strings. *)
Definition has_kind (d : dict) (typ subtype : string) : Prop :=
  lookup "type" d = Some (JStr typ) /\ lookup "subtype" d = Some (JStr subtype).

(** The test that opens the loop body: an interactionUpdate:textDelta. *)
Definition is_text_delta (entry : json) : bool :=
  match entry with
  | JObj d => eq_str (field d "type" (JStr "")) "interactionUpdate"
              && eq_str (field d "subtype" (JStr "")) "textDelta"
  | _ => false
  end.

(** The text of a fragment: a textDelta record whose extracted text is a
    non-empty string. *)
Definition fragment_text (entry : json) : option string :=
  if is_text_delta entry then
    match extract_text_delta entry with
    | Ok (JStr s) => if String.eqb s "" then None else Some s
    | _ => None
    end
  else None.

Definition is_fragment (entry : json) : bool :=
  match fragment_text entry with Some _ => true | None => false end.

(** A textDelta record with the string [s] as its text: under data.text
    or, when data has no text, under data.message.value.text. *)
Definition carries_text (entry : json) (s : string) : Prop :=
  exists d data,
    entry = JObj d
    /\ has_kind d "interactionUpdate" "textDelta"
    /\ lookup "data" d = Some (JObj data)
    /\ (lookup "text" data = Some (JStr s)
        \/ (lookup "text" data = None
            /\ exists msg value,
                 lookup "message" data = Some (JObj msg)
                 /\ lookup "value" msg = Some (JObj value)
                 /\ lookup "text" value = Some (JStr s))).

(** The concatenation of the texts of a run of fragments. *)
Fixpoint run_text (run : list json) : string :=
  match run with
  | [] => ""
  | entry :: rest =>
      match fragment_text entry with
      | Some s => s ++ run_text rest
      | None => run_text rest
      end
  end.

(** [entry.get("ts", 0)] of the first record of a run. *)
Definition first_ts (run : list json) : json :=
  match run with
  | JObj d :: _ => field d "ts" (JInt 0)
  | _ => JInt 0
  end.

(** A record that the loop passes over without any effect: a textDelta
    without text, or noise. *)
Definition dropped (verbose : bool) (entry : json) : Prop :=
  (is_text_delta entry = true
   /\ exists t, extract_text_delta entry = Ok t /\ truthy t = false)
  \/ (is_text_delta entry = false /\ is_dict entry = true
      /\ is_noise entry verbose = Ok true).

(** A record that the loop formats: neither a textDelta nor noise. *)
Definition emitted (verbose : bool) (entry : json) : Prop :=
  is_text_delta entry = false /\ is_dict entry = true
  /\ is_noise entry verbose = Ok false.

(** *** The sentences of the specification that fail, read literally *)



(** In verbose mode no record is dropped: every record leaves a line. *)
Definition verbose_drops_nothing : Prop :=
  forall (d : dict) (lines : list string),
    coalesce_entries [JObj d] true = Ok lines -> lines <> [].

(** A malformed line read in follow mode is reported on standard error. *)
Definition follow_reports_malformed : Prop :=
  forall verbose st line elapsed st',
    str_strip line <> "" ->
    json_loads line = Raise JSONDecodeError ->
    follow_iter verbose st line elapsed = Ok st' ->
    exists preview,
      reported (channels st') = (reported (channels st) ++ [preview])%list.

(** Classification and formatting return on every dict. *)
Definition total_on_dicts : Prop :=
  forall (d : dict) (verbose : bool),
    succeeds (is_noise (JObj d) verbose)
    /\ succeeds (get_delta_type (JObj d))
    /\ succeeds (format_entry (JObj d) verbose).

(** The hour of a clock string starts it: its first character is not
    the question mark of the placeholder. *)
Definition starts_plain (s : string) : bool :=
  negb (String.prefix "?" s).

(** *** Measures and invariants of the loop *)

(** The number of lines that the pending text will give: 1 or 0. *)
Definition pending (st : state) : nat :=
  if String.eqb (text_buffer st) "" then 0 else 1.

(** [text_ts] is reset together with [text_buffer]. *)
Definition settled (st : state) : Prop :=
  text_buffer st = "" -> text_ts st = JInt 0.

(** [line.strip()] is true. *)
Definition nonblank (line : string) : bool :=
  negb (String.eqb (str_strip line) "").

(** The fields that [format_data] strips from its fallback. *)
Definition stripped (kv : string * json) : bool :=
  is_null (snd kv) || existsb (String.eqb (fst kv)) ["detail"; "$typeName"].

(** The number of lines of a batch that are parsed at all. *)
Definition count_nonblank (lines : list string) : nat :=
  length (filter nonblank lines).

(** *** Basic facts *)

Lemma py_get_some (d : dict) (k : string) (default v : json) :
  lookup k d = Some v -> py_get (JObj d) k default = Ok v.
Proof. unfold py_get, field. intros ->. reflexivity. Qed.

Lemma field_some (d : dict) (k : string) (default v : json) :
  lookup k d = Some v -> field d k default = v.
Proof. unfold field. intros ->. reflexivity. Qed.

Lemma field_none (d : dict) (k : string) (default : json) :
  lookup k d = None -> field d k default = default.
Proof. unfold field. intros ->. reflexivity. Qed.

Lemma is_noise_verbose (entry : json) : is_noise entry true = Ok false.
Proof. reflexivity. Qed.

Lemma flush_text_empty (st : state) :
  text_buffer st = "" -> flush_text st = Ok st.
Proof. unfold flush_text. intros ->. reflexivity. Qed.

(** C3: on the four-record sample stream (text "A" at 1000, a kvClient
    record, text "B" at 1002, info:builtRunRequest with tools=3 at 2000)
    coalesce_entries returns, in non-verbose mode, exactly two lines: the
    text line "AB" stamped with the clock of 1000, then the line of
    info:builtRunRequest with detail " tools=3" stamped with the clock of
    2000.  The kvClient record gives no line and does not split "AB". *)
Theorem C3_sample_stream_two_lines (t1 t2 : string) :
  clock 1000 = Ok t1 ->
  clock 2000 = Ok t2 ->
  coalesce_entries sample_stream false =
    Ok ["[" ++ t1 ++ "] text: AB";
        "[" ++ t2 ++ "] info:builtRunRequest tools=3"].
Proof.
  intros H1 H2.
  unfold coalesce_entries, coalesce_from, sample_stream.
  cbn. rewrite H1. cbn. rewrite H2. cbn.
  reflexivity.
Qed.

(** *** Formatting *)

Lemma format_entry_not_noise (d : dict) :
  is_noise (JObj d) false = Ok false ->
  format_entry (JObj d) false =
    (time_str <- entry_time d ;;
     data_str <- format_data (field d "type" (JStr "?"))
                   (if truthy (field d "subtype" JNull)
                    then field d "subtype" JNull else JStr "")
                   (field d "data" JNull) ;;
     Ok (Some ("[" ++ time_str ++ "] "
               ++ (if truthy (field d "subtype" JNull)
                   then py_str (field d "type" (JStr "?")) ++ ":"
                        ++ py_str (field d "subtype" JNull)
                   else py_str (field d "type" (JStr "?")))
               ++ data_str))).
Proof.
  intros Hn. unfold format_entry, entry_time. rewrite Hn. cbn.
  destruct (truthy (field d "ts" (JInt 0))); cbn;
    [destruct (py_clock _); cbn; [|reflexivity]|];
    destruct (format_data _ _ _); reflexivity.
Qed.

Lemma format_entry_verbose (d : dict) :
  format_entry (JObj d) true =
    (time_str <- entry_time d ;;
     Ok (Some ("[" ++ time_str ++ "] "
               ++ (if truthy (field d "subtype" JNull)
                   then py_str (field d "type" (JStr "?")) ++ ":"
                        ++ py_str (field d "subtype" JNull)
                   else py_str (field d "type" (JStr "?")))
               ++ (if truthy (field d "data" JNull)
                   then " " ++ str_take 300 (json_dumps (field d "data" JNull))
                   else "")))).
Proof.
  unfold format_entry, entry_time. cbn.
  destruct (truthy (field d "ts" (JInt 0))); cbn;
    [destruct (py_clock _); cbn|]; reflexivity.
Qed.

Lemma shell_detail (data msg value : dict) (cmd : string) :
  lookup "message" data = Some (JObj msg) ->
  lookup "case" msg = Some (JStr "shellArgs") ->
  lookup "value" msg = Some (JObj value) ->
  lookup "command" value = Some (JStr cmd) ->
  format_data (JStr "serverMessage") (JStr "execServerMessage") (JObj data)
  = Ok (" shell:" ++ str_take 50 cmd).
Proof.
  intros Hm Hc Hv Hcmd.
  destruct data as [|kv data']; [discriminate|].
  unfold format_data. cbn [eq_str String.eqb andb].
  change (eq_str (JStr "serverMessage") "serverMessage"
          && eq_str (JStr "execServerMessage") "execServerMessage")
    with true.
  cbv iota. unfold format_exec.
  rewrite (py_get_some _ _ _ _ Hm). cbn [bind].
  rewrite (py_get_some _ _ _ _ Hc), (py_get_some _ _ _ _ Hv). cbn [bind].
  change (eq_str (JStr "shellArgs") "mcpArgs") with false.
  change (eq_str (JStr "shellArgs") "grepArgs") with false.
  change (eq_str (JStr "shellArgs") "shellArgs") with true.
  cbv iota.
  rewrite (py_get_some _ _ _ _ Hcmd). reflexivity.
Qed.

Lemma take_split (n : nat) (s : string) :
  (exists rest, s = str_take n s ++ rest)
  /\ String.length (str_take n s) = Nat.min n (String.length s).
Proof.
  unfold str_take. revert n.
  induction s as [|c s IH]; intros [|n]; cbn.
  - split; [exists ""; reflexivity|reflexivity].
  - split; [exists ""; reflexivity|reflexivity].
  - split; [exists (String c s); reflexivity|reflexivity].
  - destruct (IH n) as [[rest Hrest] Hlen]. split.
    + exists rest. now rewrite <- Hrest.
    + now rewrite Hlen.
Qed.

(** C7: the detail that format_data gives a serverMessage:
    execServerMessage record whose data.message.case is "shellArgs" is
    " shell:" followed by the first 50 characters of
    data.message.value.command: by a prefix of the command that has 50
    characters, or the whole command when it is shorter.  For the command
    "echo hi" it is exactly " shell:echo hi", and the whole line of
    format_entry in non-verbose mode ends with it; of a command of 69
    characters the last 19 are cut. *)
Theorem C7_shell_args_detail (data msg value : dict) (cmd : string) :
  lookup "message" data = Some (JObj msg) ->
  lookup "case" msg = Some (JStr "shellArgs") ->
  lookup "value" msg = Some (JObj value) ->
  lookup "command" value = Some (JStr cmd) ->
  format_data (JStr "serverMessage") (JStr "execServerMessage") (JObj data)
  = Ok (" shell:" ++ str_take 50 cmd)
  /\ (exists shown rest,
        cmd = shown ++ rest
        /\ String.length shown = Nat.min 50 (String.length cmd)
        /\ format_data (JStr "serverMessage") (JStr "execServerMessage")
                       (JObj data)
           = Ok (" shell:" ++ shown))
  /\ format_data (JStr "serverMessage") (JStr "execServerMessage")
                 (JObj (shell_args "echo hi"))
     = Ok " shell:echo hi"
  /\ format_entry (shell_record "echo hi") false
     = Ok (Some "[??:??:??] serverMessage:execServerMessage shell:echo hi")
  /\ format_data (JStr "serverMessage") (JStr "execServerMessage")
                 (JObj (shell_args long_command))
     = Ok " shell:for f in *.txt; do wc -l $f; done | sort -n | tail"
  /\ format_entry (shell_record long_command) false
     = Ok (Some ("[??:??:??] serverMessage:execServerMessage"
                 ++ " shell:for f in *.txt; do wc -l $f; done | sort -n | tail")).
Proof.
  intros Hm Hc Hv Hcmd.
  pose proof (shell_detail data msg value cmd Hm Hc Hv Hcmd) as Hdetail.
  split; [exact Hdetail|]. split; [|repeat split; reflexivity].
  destruct (take_split 50 cmd) as [[rest Hrest] Hlen].
  exists (str_take 50 cmd), rest.
  split; [exact Hrest|]. split; [exact Hlen|exact Hdetail].
Qed.

(** *** One iteration of the loop *)

Lemma is_text_delta_dict (entry : json) :
  is_text_delta entry = true -> exists d, entry = JObj d.
Proof. destruct entry; try discriminate. intros _. eexists. reflexivity. Qed.

Lemma step_text_delta (verbose : bool) (st : state) (d : dict) :
  is_text_delta (JObj d) = true ->
  step verbose st (JObj d) =
    (text <- extract_text_delta (JObj d) ;;
     if truthy text then
       buffer <- py_append (text_buffer st) text ;;
       Ok (mkState (output st) buffer
             (if String.eqb (text_buffer st) ""
              then field d "ts" (JInt 0) else text_ts st))
     else Ok st).
Proof.
  intros H. unfold step. cbn [py_get bind].
  unfold is_text_delta in H. rewrite H.
  destruct (extract_text_delta (JObj d)) as [text|]; [|reflexivity].
  cbn [bind]. destruct (truthy text); [|reflexivity].
  destruct (String.eqb (text_buffer st) ""); reflexivity.
Qed.

Lemma step_other (verbose : bool) (st : state) (d : dict) :
  is_text_delta (JObj d) = false ->
  step verbose st (JObj d) =
    (noise <- is_noise (JObj d) verbose ;;
     if noise then Ok st
     else
       st1 <- flush_text st ;;
       formatted <- format_entry (JObj d) verbose ;;
       match formatted with
       | Some line =>
           if negb (String.eqb line "") then Ok (emit_line st1 line)
           else Ok st1
       | None => Ok st1
       end).
Proof.
  intros H. unfold step. cbn [py_get bind].
  unfold is_text_delta in H. rewrite H. reflexivity.
Qed.

Lemma step_fragment (verbose : bool) (st : state) (entry : json)
  (s : string) :
  fragment_text entry = Some s ->
  step verbose st entry =
    Ok (mkState (output st) (text_buffer st ++ s)
          (if String.eqb (text_buffer st) "" then first_ts [entry]
           else text_ts st)).
Proof.
  unfold fragment_text. intros H.
  destruct (is_text_delta entry) eqn:Htd; [|discriminate].
  destruct (is_text_delta_dict _ Htd) as [d ->].
  rewrite (step_text_delta _ _ _ Htd).
  destruct (extract_text_delta (JObj d)) as [[| | | |t| |]|];
    try discriminate.
  destruct (String.eqb t "") eqn:Ht; [discriminate|].
  injection H as <-. cbn. rewrite Ht. reflexivity.
Qed.

Lemma fragment_text_nonempty (entry : json) (s : string) :
  fragment_text entry = Some s -> s <> "".
Proof.
  unfold fragment_text. destruct (is_text_delta entry); [|discriminate].
  destruct (extract_text_delta entry) as [[| | | |t| |]|]; try discriminate.
  destruct (String.eqb t "") eqn:Ht; [discriminate|].
  intros [= <-]. apply String.eqb_neq. exact Ht.
Qed.


Lemma format_entry_line (d : dict) (verbose : bool) (r : option string) :
  is_noise (JObj d) verbose = Ok false ->
  format_entry (JObj d) verbose = Ok r ->
  exists line, r = Some line /\ String.eqb line "" = false.
Proof.
  intros Hn. unfold format_entry. rewrite Hn. cbn [bind py_get].
  destruct (if truthy (field d "ts" (JInt 0)) then _ else _) as [t|];
    [|discriminate].
  cbn [bind].
  destruct (if negb verbose then _ else _) as [ds|]; [|discriminate].
  cbn [bind]. intros [= <-]. eexists. split; [reflexivity|reflexivity].
Qed.

Lemma step_emitted (verbose : bool) (st st1 : state) (entry : json)
  (line : string) :
  emitted verbose entry ->
  flush_text st = Ok st1 ->
  format_entry entry verbose = Ok (Some line) ->
  step verbose st entry = Ok (emit_line st1 line).
Proof.
  intros [Htd [Hd Hn]] Hf Hl.
  destruct entry; try discriminate.
  rewrite (step_other _ _ _ Htd), Hn. cbn [bind].
  rewrite Hf. cbn [bind]. rewrite Hl. cbn [bind].
  destruct (format_entry_line _ _ _ Hn Hl) as [line' [[= <-] ->]].
  reflexivity.
Qed.

Lemma flush_text_buffer (st st1 : state) :
  flush_text st = Ok st1 -> text_buffer st1 = "".
Proof.
  unfold flush_text.
  destruct (String.eqb (text_buffer st) "") eqn:Hb; cbn.
  - intros [= <-]. apply String.eqb_eq. exact Hb.
  - destruct (py_clock (text_ts st)); cbn; [|discriminate].
    intros [= <-]. reflexivity.
Qed.

Lemma flush_text_pending (st : state) :
  text_buffer st <> "" ->
  flush_text st =
    (time_str <- py_clock (text_ts st) ;;
     Ok (mkState (output st ++ [text_line time_str (text_buffer st)])
                 "" (JInt 0))).
Proof.
  intros Hb. unfold flush_text.
  apply String.eqb_neq in Hb. rewrite Hb. reflexivity.
Qed.

(** C9: a record info:interactionUpdate whose payload has updateCase
    "textDelta" is, in non-verbose mode, not noise and not a fragment of
    the coalescer: one iteration of the loop flushes the pending text and
    appends the record's own line, with detail " textDelta"; the text
    buffer is empty afterwards, so nothing of the record is accumulated. *)
Theorem C9_info_wrapped_text_delta_is_signal
  (d data : dict) (st st1 : state) (time_str : string) :
  has_kind d "info" "interactionUpdate" ->
  lookup "data" d = Some (JObj data) ->
  lookup "updateCase" data = Some (JStr "textDelta") ->
  flush_text st = Ok st1 ->
  entry_time d = Ok time_str ->
  is_noise (JObj d) false = Ok false
  /\ is_text_delta (JObj d) = false
  /\ format_entry (JObj d) false
     = Ok (Some ("[" ++ time_str ++ "] info:interactionUpdate textDelta"))
  /\ step false st (JObj d)
     = Ok (emit_line st1
             ("[" ++ time_str ++ "] info:interactionUpdate textDelta"))
  /\ text_buffer
       (emit_line st1
          ("[" ++ time_str ++ "] info:interactionUpdate textDelta")) = "".
Proof.
  intros [Ht Hs] Hd Hu Hf Htime.
  assert (Hn : is_noise (JObj d) false = Ok false).
  { unfold is_noise, get_delta_type. cbn [py_get bind].
    rewrite !(field_some _ _ _ _ Ht), !(field_some _ _ _ _ Hs).
    cbn. rewrite (field_some _ _ _ _ Hd). cbn.
    rewrite (field_some _ _ _ _ Hu). reflexivity. }
  assert (Htd : is_text_delta (JObj d) = false).
  { unfold is_text_delta.
    rewrite (field_some _ _ _ _ Ht). reflexivity. }
  assert (Hfmt : format_entry (JObj d) false
     = Ok (Some ("[" ++ time_str ++ "] info:interactionUpdate textDelta"))).
  { rewrite (format_entry_not_noise _ Hn), Htime. cbn [bind].
    rewrite (field_some _ _ _ _ Ht), (field_some _ _ _ _ Hs),
      (field_some _ _ _ _ Hd).
    destruct data as [|kv data']; [discriminate|].
    cbn. unfold field. rewrite Hu. reflexivity. }
  repeat split; try assumption.
  - apply step_emitted; [|assumption|assumption].
    split; [assumption|split; [reflexivity|assumption]].
  - cbn. exact (flush_text_buffer _ _ Hf).
Qed.

Lemma prefix_cons (a b : ascii) (s1 s2 : string) :
  String.prefix (String a s1) (String b s2)
  = if ascii_dec a b then String.prefix s1 s2 else false.
Proof. reflexivity. Qed.

Lemma plain_not_placeholder (time_str buffer : string) :
  starts_plain time_str = true ->
  String.prefix "[??:??:??]" (text_line time_str buffer) = false.
Proof.
  unfold starts_plain, text_line. destruct time_str as [|c t].
  - intros _. reflexivity.
  - intros H.
    change ("[" ++ String c t ++ "] text: " ++ escape_text buffer)
      with (String "[" (String c (t ++ "] text: " ++ escape_text buffer))).
    rewrite !prefix_cons. rewrite prefix_cons in H.
    destruct (ascii_dec "[" "["); [|reflexivity].
    destruct (ascii_dec "?" c); [|reflexivity].
    destruct t; discriminate.
Qed.

(** *** Runs of fragments *)

Lemma append_assoc (a b c : string) : (a ++ b) ++ c = a ++ (b ++ c).
Proof. induction a as [|x a IH]; cbn; [reflexivity|now rewrite IH]. Qed.

Lemma append_nonempty (a b : string) : b <> "" -> String.eqb (a ++ b) "" = false.
Proof.
  intros Hb. apply String.eqb_neq.
  destruct a; cbn; [exact Hb|discriminate].
Qed.

Lemma run_entries_app (verbose : bool) (a b : list json) :
  forall st,
    run_entries verbose st (a ++ b) =
      (st' <- run_entries verbose st a ;; run_entries verbose st' b).
Proof.
  induction a as [|e a IH]; intros st; cbn [run_entries app bind].
  - reflexivity.
  - destruct (step verbose st e); cbn [bind]; [apply IH|reflexivity].
Qed.

Lemma run_fragments (verbose : bool) (run : list json) :
  forall st,
    forallb is_fragment run = true ->
    run_entries verbose st run =
      Ok (mkState (output st) (text_buffer st ++ run_text run)
            (match run with
             | [] => text_ts st
             | _ => if String.eqb (text_buffer st) "" then first_ts run
                    else text_ts st
             end)).
Proof.
  induction run as [|e run IH]; intros st Hall.
  - cbn. destruct st as [o b t]. cbn.
    replace (b ++ "") with b; [reflexivity|].
    induction b; cbn; congruence.
  - cbn [forallb] in Hall. apply andb_true_iff in Hall as [He Hrun].
    unfold is_fragment in He.
    destruct (fragment_text e) as [s|] eqn:Hs; [|discriminate].
    cbn [run_entries]. rewrite (step_fragment _ _ _ _ Hs). cbn [bind].
    rewrite (IH _ Hrun). cbn [output text_buffer text_ts run_text].
    rewrite Hs, append_assoc.
    rewrite (append_nonempty _ _ (fragment_text_nonempty _ _ Hs)).
    replace (first_ts (e :: run)) with (first_ts [e]) by reflexivity.
    destruct run; reflexivity.
Qed.

Lemma run_text_nonempty (run : list json) :
  run <> [] -> forallb is_fragment run = true -> run_text run <> "".
Proof.
  destruct run as [|e run]; [congruence|]. intros _ Hall.
  cbn [forallb] in Hall. apply andb_true_iff in Hall as [He _].
  unfold is_fragment in He. cbn [run_text].
  destruct (fragment_text e) as [s|] eqn:Hs; [|discriminate].
  pose proof (fragment_text_nonempty _ _ Hs) as Hne.
  destruct s; [congruence|discriminate].
Qed.


(** C2: in non-verbose mode a record interactionUpdate:s with s one of
    tokenDelta, partialToolCall, heartbeat, thinkingDelta goes through one
    iteration of the loop of coalesce_entries without appending a line and
    without touching the pending text (buffer and timestamp): the state
    after the iteration is the state before it, and the output of
    coalesce_entries is what it is without the record. *)
Theorem C2_skipped_delta_keeps_state (d : dict) (s : string) (st : state) :
  has_kind d "interactionUpdate" s ->
  In s SKIP_DELTAS ->
  step false st (JObj d) = Ok st
  /\ forall pre post,
       coalesce_entries (pre ++ JObj d :: post) false
       = coalesce_entries (pre ++ post) false.
Proof.
  intros [Ht Hs] Hin.
  assert (Hstep : forall st0, step false st0 (JObj d) = Ok st0).
  { intros st0. unfold step, is_noise, get_delta_type.
    rewrite !(py_get_some _ _ _ _ Ht), !(py_get_some _ _ _ _ Hs).
    simpl in Hin.
    destruct Hin as [<- | [<- | [<- | [<- | []]]]]; reflexivity. }
  split; [apply Hstep|].
  intros pre post. unfold coalesce_entries, coalesce_from.
  rewrite !run_entries_app.
  destruct (run_entries false init_state pre) as [st1|]; [|reflexivity].
  cbn [bind run_entries]. rewrite Hstep. reflexivity.
Qed.

(** *** Lines printed earlier do not matter to the loop *)

Lemma flush_prepend (lines : list string) (st : state) :
  flush_text (prepend lines st) =
    (st' <- flush_text st ;; Ok (prepend lines st')).
Proof.
  unfold flush_text, prepend. cbn [text_buffer text_ts output].
  destruct (negb (String.eqb (text_buffer st) "")); [|reflexivity].
  destruct (py_clock (text_ts st)); cbn; [|reflexivity].
  now rewrite app_assoc.
Qed.

Lemma step_prepend (verbose : bool) (lines : list string) (st : state)
  (entry : json) :
  step verbose (prepend lines st) entry =
    (st' <- step verbose st entry ;; Ok (prepend lines st')).
Proof.
  destruct entry as [| | | | | |d]; try reflexivity.
  destruct (is_text_delta (JObj d)) eqn:Htd.
  - rewrite !(step_text_delta _ _ _ Htd).
    destruct (extract_text_delta (JObj d)) as [text|]; [|reflexivity].
    cbn [bind]. destruct (truthy text); [|reflexivity].
    cbn [prepend text_buffer text_ts output].
    destruct (py_append (text_buffer st) text); reflexivity.
  - rewrite !(step_other _ _ _ Htd).
    destruct (is_noise (JObj d) verbose) as [[|]|]; try reflexivity.
    cbn [bind]. rewrite flush_prepend.
    destruct (flush_text st) as [st1|]; [|reflexivity]. cbn [bind].
    destruct (format_entry (JObj d) verbose) as [[line|]|];
      try reflexivity.
    cbn [bind]. destruct (negb (String.eqb line "")); [|reflexivity].
    unfold emit_line, prepend. cbn. now rewrite app_assoc.
Qed.

Lemma run_prepend (verbose : bool) (lines : list string)
  (entries : list json) :
  forall st,
    run_entries verbose (prepend lines st) entries =
      (st' <- run_entries verbose st entries ;; Ok (prepend lines st')).
Proof.
  induction entries as [|e entries IH]; intros st; cbn [run_entries].
  - reflexivity.
  - rewrite step_prepend.
    destruct (step verbose st e) as [st1|]; cbn [bind]; [|reflexivity].
    apply IH.
Qed.

Lemma coalesce_prepend (verbose : bool) (lines : list string)
  (entries : list json) (st : state) :
  coalesce_from verbose (prepend lines st) entries =
    (tail <- coalesce_from verbose st entries ;; Ok (lines ++ tail)%list).
Proof.
  unfold coalesce_from. rewrite run_prepend.
  destruct (run_entries verbose st entries) as [st1|]; [|reflexivity].
  cbn [bind]. rewrite flush_prepend.
  destruct (flush_text st1); reflexivity.
Qed.

(** A pending text in front of a record that is formatted comes out as a
    line of its own before everything else. *)
Lemma coalesce_pending (verbose : bool) (st : state) (time_str : string)
  (rest : list json) :
  text_buffer st <> "" ->
  py_clock (text_ts st) = Ok time_str ->
  match rest with [] => True | e :: _ => emitted verbose e end ->
  coalesce_from verbose st rest =
    (tail <- coalesce_entries rest verbose ;;
     Ok (output st ++ text_line time_str (text_buffer st) :: tail)%list).
Proof.
  intros Hb Ht Hrest.
  assert (Hflush : flush_text st =
            Ok (prepend (output st ++ [text_line time_str (text_buffer st)])
                        init_state)).
  { rewrite (flush_text_pending _ Hb), Ht. cbn. unfold prepend. cbn.
    now rewrite app_nil_r. }
  destruct rest as [|e rest].
  - unfold coalesce_entries, coalesce_from. cbn [run_entries bind].
    rewrite Hflush. cbn. now rewrite app_nil_r.
  - destruct Hrest as [Htd [Hd Hn]]. destruct e; try discriminate.
    assert (Hstep : step verbose st (JObj kvs) =
              step verbose (prepend (output st
                              ++ [text_line time_str (text_buffer st)])
                             init_state) (JObj kvs)).
    { rewrite !(step_other _ _ _ Htd), Hn. cbn [bind].
      rewrite Hflush. rewrite flush_text_empty; reflexivity. }
    unfold coalesce_entries.
    transitivity (coalesce_from verbose
                    (prepend (output st
                              ++ [text_line time_str (text_buffer st)])
                             init_state) (JObj kvs :: rest)).
    + unfold coalesce_from. cbn [run_entries]. now rewrite Hstep.
    + rewrite coalesce_prepend.
      destruct (coalesce_from verbose init_state (JObj kvs :: rest));
        cbn [bind]; [|reflexivity].
      now rewrite <- app_assoc.
Qed.

Lemma py_clock_plain (ts : json) (time_str : string) :
  (forall n t, clock n = Ok t -> starts_plain t = true) ->
  (forall bits t, clock_float bits = Ok t -> starts_plain t = true) ->
  py_clock ts = Ok time_str -> starts_plain time_str = true.
Proof.
  intros Hclock Hfloat Ht.
  destruct ts; try discriminate; cbn in Ht; eauto.
Qed.

Lemma coalesce_run (verbose : bool) (d : dict) (run : list json) :
  is_fragment (JObj d) = true ->
  forallb is_fragment run = true ->
  coalesce_entries (JObj d :: run) verbose
  = (time_str <- py_clock (field d "ts" (JInt 0)) ;;
     Ok [text_line time_str (run_text (JObj d :: run))]).
Proof.
  intros Hd Hrun.
  assert (Hall : forallb is_fragment (JObj d :: run) = true)
    by (cbn [forallb]; now rewrite Hd, Hrun).
  unfold coalesce_entries, coalesce_from.
  rewrite (run_fragments _ _ _ Hall). cbn [bind].
  rewrite flush_text_pending.
  - cbn [text_ts text_buffer output init_state String.eqb first_ts append app].
    destruct (py_clock (field d "ts" (JInt 0))); reflexivity.
  - cbn [text_buffer init_state append].
    apply run_text_nonempty; [discriminate|exact Hall].
Qed.

(** C10: a flush with a non-empty buffer renders the stored timestamp
    through the clock, whatever its value: the line of a pending text
    stamped n carries the clock string of n, and the stored timestamp is
    the ts of the first fragment, so a run whose first fragment has ts n
    comes out stamped with the clock of n, and with the clock of 0 when
    that ts is 0 or absent, where format_entry prints the placeholder.
    As clock strings start with the hour and not with a question mark, no
    line of text carries the placeholder. *)
Theorem C10_flushed_text_is_clocked
  (st : state) (d : dict) (run : list json) (verbose : bool) :
  text_buffer st <> "" ->
  is_fragment (JObj d) = true ->
  forallb is_fragment run = true ->
  (forall n t, clock n = Ok t -> starts_plain t = true) ->
  (forall bits t, clock_float bits = Ok t -> starts_plain t = true) ->
  (forall n, text_ts st = JInt n ->
     flush_text st =
       (time_str <- clock n ;;
        Ok (mkState (output st ++ [text_line time_str (text_buffer st)])
                    "" (JInt 0))))
  /\ (forall bits, text_ts st = JFloat bits ->
      flush_text st =
        (time_str <- clock_float bits ;;
         Ok (mkState (output st ++ [text_line time_str (text_buffer st)])
                     "" (JInt 0))))
  /\ (forall n, field d "ts" (JInt 0) = JInt n ->
      coalesce_entries (JObj d :: run) verbose
      = (time_str <- clock n ;;
         Ok [text_line time_str (run_text (JObj d :: run))]))
  /\ (field d "ts" (JInt 0) = JInt 0 -> entry_time d = Ok "??:??:??")
  /\ (forall lines,
        coalesce_entries (JObj d :: run) verbose = Ok lines ->
        Forall (fun line => String.prefix "[??:??:??]" line = false) lines)
  /\ (forall st',
        flush_text st = Ok st' ->
        exists time_str,
          py_clock (text_ts st) = Ok time_str
          /\ output st'
             = (output st ++ [text_line time_str (text_buffer st)])%list
          /\ String.prefix "[??:??:??]"
                           (text_line time_str (text_buffer st)) = false).
Proof.
  intros Hb Hd Hrun Hclock Hfloat.
  split; [|split; [|split; [|split; [|split]]]].
  - intros n Hts. rewrite (flush_text_pending _ Hb), Hts. reflexivity.
  - intros bits Hts. rewrite (flush_text_pending _ Hb), Hts. reflexivity.
  - intros n Hts. rewrite (coalesce_run _ _ _ Hd Hrun), Hts. reflexivity.
  - intros Hts. unfold entry_time. rewrite Hts. reflexivity.
  - intros lines. rewrite (coalesce_run _ _ _ Hd Hrun).
    destruct (py_clock (field d "ts" (JInt 0))) as [time_str|] eqn:Ht;
      [|discriminate].
    cbn [bind]. intros [= <-]. constructor; [|constructor].
    apply plain_not_placeholder.
    exact (py_clock_plain _ _ Hclock Hfloat Ht).
  - intros st'. rewrite (flush_text_pending _ Hb).
    destruct (py_clock (text_ts st)) as [time_str|] eqn:Ht; [|discriminate].
    cbn [bind]. intros [= <-]. exists time_str.
    split; [reflexivity|]. split; [reflexivity|].
    apply plain_not_placeholder.
    exact (py_clock_plain _ _ Hclock Hfloat Ht).
Qed.

Lemma carries_text_fragment (entry : json) (s : string) :
  carries_text entry s -> s <> "" -> fragment_text entry = Some s.
Proof.
  intros [d [data [-> [[Ht Hs] [Hd Htext]]]]] Hne.
  unfold fragment_text, is_text_delta, extract_text_delta.
  rewrite (field_some _ _ _ _ Ht), (field_some _ _ _ _ Hs).
  rewrite (py_get_some _ _ _ _ Hd).
  cbn [eq_str String.eqb andb bind].
  change (eq_str (JStr "interactionUpdate") "interactionUpdate"
          && eq_str (JStr "textDelta") "textDelta") with true.
  cbv iota.
  apply String.eqb_neq in Hne.
  destruct Htext as [Hdirect | [Hnone [msg [value [Hm [Hv Hnested]]]]]].
  - rewrite Hdirect, Hne. reflexivity.
  - rewrite Hnone, Hm, Hv, Hnested, Hne. reflexivity.
Qed.

Lemma run_text_carried (run : list json) (texts : list string) :
  Forall2 carries_text run texts ->
  Forall (fun s => s <> "") texts ->
  forallb is_fragment run = true
  /\ run_text run = fold_right append "" texts.
Proof.
  induction 1 as [|e s run texts He _ IH]; intros Hne.
  - split; reflexivity.
  - inversion Hne as [|? ? Hs Hrest]; subst.
    destruct (IH Hrest) as [Hall Htext].
    pose proof (carries_text_fragment _ _ He Hs) as Hf.
    cbn [forallb run_text fold_right]. unfold is_fragment.
    rewrite Hf, Htext. split; [exact Hall|reflexivity].
Qed.

(** C4 (amended): in verbose mode is_noise answers False on every
    record, and every record that is not an interactionUpdate:textDelta
    gets a line of its own after the flush of the pending text.  The
    accumulation of text deltas comes before that test and does not look
    at verbose: a textDelta record goes through the loop exactly as in
    non-verbose mode, a run of textDelta records that carry a non-empty
    text comes out as one line with the texts concatenated, and a
    textDelta record whose text is absent or empty leaves no line at
    all. *)
Theorem C4_verbose_never_noise_still_coalesces
  (run : list json) (texts : list string) :
  Forall2 carries_text run texts ->
  Forall (fun s => s <> "") texts ->
  run <> [] ->
  (forall entry, is_noise entry true = Ok false)
  /\ (forall d st st1 r,
        is_text_delta (JObj d) = false ->
        flush_text st = Ok st1 ->
        format_entry (JObj d) true = Ok r ->
        exists line,
          r = Some line /\ step true st (JObj d) = Ok (emit_line st1 line))
  /\ (forall entry st,
        is_text_delta entry = true ->
        step true st entry = step false st entry)
  /\ coalesce_entries run true
     = (time_str <- py_clock (first_ts run) ;;
        Ok [text_line time_str (fold_right append "" texts)])
  /\ (forall d st t,
        is_text_delta (JObj d) = true ->
        extract_text_delta (JObj d) = Ok t ->
        truthy t = false ->
        step true st (JObj d) = Ok st
        /\ coalesce_entries [JObj d] true = Ok []).
Proof.
  intros Hcarry Hne Hrun.
  split; [reflexivity|]. split; [|split; [|split]].
  - intros d st st1 r Htd Hf Hr.
    destruct (format_entry_line d true r (is_noise_verbose _) Hr)
      as [line [-> _]].
    exists line. split; [reflexivity|].
    apply step_emitted; [|assumption|assumption].
    split; [assumption|split; reflexivity].
  - intros entry st Htd. destruct (is_text_delta_dict _ Htd) as [d ->].
    now rewrite !(step_text_delta _ _ _ Htd).
  - destruct (run_text_carried _ _ Hcarry Hne) as [Hall Htext].
    destruct run as [|e run']; [congruence|].
    cbn [forallb] in Hall. apply andb_true_iff in Hall as [He Hrest].
    assert (Hdict : exists d, e = JObj d).
    { inversion Hcarry as [|? ? ? ? [d [data [-> _]]] _]; subst.
      eexists. reflexivity. }
    destruct Hdict as [d ->].
    rewrite (coalesce_run _ _ _ He Hrest), Htext. reflexivity.
  - intros d st t Htd Hx Ht.
    assert (Hstep : forall st0, step true st0 (JObj d) = Ok st0).
    { intros st0. rewrite (step_text_delta _ _ _ Htd), Hx. cbn [bind].
      rewrite Ht. reflexivity. }
    split; [apply Hstep|].
    unfold coalesce_entries, coalesce_from. cbn [run_entries].
    rewrite Hstep. reflexivity.
Qed.

(** *** The text of a flushed line *)




Lemma length_app (a b : string) :
  String.length (a ++ b) = (String.length a + String.length b)%nat.
Proof. induction a as [|c a IH]; cbn; [reflexivity|now rewrite IH]. Qed.







(** *** Malformed lines *)

(** C5 (amended): in batch mode a malformed line that is not blank is
    reported on standard error as "[PARSE ERROR] " followed by its first
    100 characters, it adds no record, and parsing goes on with the next
    line; the text made of the malformed line "{not json" and one valid
    line parses to exactly one record with exactly one reported error.
    In follow mode a malformed line is skipped as well and the loop goes
    on, but nothing is reported: the iteration does what it does on a
    blank line and never writes to standard error. *)
Theorem C5_malformed_line_is_skipped
  (line : string) (rest : list string) (entries : list json)
  (err : list string) (v : json) (verbose elapsed : bool)
  (st : follow_state) :
  str_strip line <> "" ->
  json_loads line = Raise JSONDecodeError ->
  json_loads malformed_line = Raise JSONDecodeError ->
  json_loads valid_line = Ok v ->
  parse_lines (line :: rest) entries err
  = parse_lines rest entries
      (err ++ ["[PARSE ERROR] " ++ str_take 100 line])
  /\ parse_entries sample_text 0 = (["[PARSE ERROR] {not json"], Ok [v])
  /\ follow_iter verbose st line elapsed = follow_iter verbose st " " elapsed
  /\ (forall st', follow_iter verbose st line elapsed = Ok st' ->
      reported (channels st') = reported (channels st))
  /\ (buffer st = [] ->
      follow_iter verbose st line elapsed
      = Ok (mkFollow [] (channels st) (sleeps st))).
Proof.
  intros Hline Hbad Hmal Hval.
  assert (Hne : String.eqb line "" = false).
  { apply String.eqb_neq. intros ->. apply Hline. reflexivity. }
  apply String.eqb_neq in Hline.
  assert (Hiter : follow_iter verbose st line elapsed
                  = follow_iter verbose st " " elapsed).
  { unfold follow_iter. rewrite Hne, Hline, Hbad. reflexivity. }
  repeat split.
  - cbn [parse_lines]. rewrite Hline, Hbad. reflexivity.
  - unfold parse_entries.
    change (last_lines 0 (split_lines (str_strip sample_text)))
      with [malformed_line; valid_line].
    cbn [parse_lines].
    change (negb (String.eqb (str_strip malformed_line) "")) with true.
    change (negb (String.eqb (str_strip valid_line) "")) with true.
    cbv iota. rewrite Hmal, Hval. reflexivity.
  - exact Hiter.
  - intros st'. rewrite Hiter. unfold follow_iter. cbn [bind].
    change (negb (String.eqb " " "") && negb (String.eqb (str_strip " ") ""))
      with false. cbv iota. cbn [bind].
    destruct (_ && _).
    + destruct (coalesce_entries (buffer st) verbose); [|discriminate].
      cbn [bind]. intros [= <-]. reflexivity.
    + cbn. intros [= <-]. reflexivity.
  - intros Hb. rewrite Hiter. unfold follow_iter. rewrite Hb. reflexivity.
Qed.

(** *** Records with fields missing *)

Lemma lookup_remove_same (k : string) (d : dict) :
  lookup k (remove_key k d) = None.
Proof.
  induction d as [|[k' v] d IH]; cbn; [reflexivity|].
  destruct (String.eqb k k') eqn:E; [exact IH|]. cbn. now rewrite E.
Qed.

Lemma lookup_remove_other (k k' : string) (d : dict) :
  String.eqb k k' = false ->
  lookup k' (remove_key k d) = lookup k' d.
Proof.
  intros Hk. induction d as [|[k0 v] d IH]; cbn; [reflexivity|].
  destruct (String.eqb k k0) eqn:E.
  - apply String.eqb_eq in E. subst k0.
    rewrite String.eqb_sym, Hk. exact IH.
  - cbn. now rewrite IH.
Qed.

Lemma field_remove_same (k : string) (d : dict) (default : json) :
  field (remove_key k d) k default = default.
Proof. unfold field. now rewrite lookup_remove_same. Qed.

Lemma field_remove_other (k k' : string) (d : dict) (default : json) :
  String.eqb k k' = false ->
  field (remove_key k d) k' default = field d k' default.
Proof. intros H. unfold field. now rewrite (lookup_remove_other _ _ _ H). Qed.

Ltac break_test :=
  match goal with
  | |- context [if ?b then _ else _] =>
      lazymatch b with
      | context [if _ then _ else _] => fail
      | context [match _ with _ => _ end] => fail
      | _ => destruct b eqn:?
      end
  | |- context [match ?r with Ok _ => _ | Raise _ => _ end] =>
      lazymatch r with
      | context [if _ then _ else _] => fail
      | context [match _ with _ => _ end] => fail
      | _ => destruct r eqn:?
      end
  end.

Ltac break_all :=
  unfold bind;
  repeat (break_test; cbn [andb orb]; try discriminate; try reflexivity).

Lemma is_noise_remove (k : string) (d : dict) :
  In k record_fields ->
  is_noise (JObj d) false = Ok false ->
  is_noise (JObj (remove_key k d)) false = Ok false.
Proof.
  intros Hk. unfold is_noise, get_delta_type. cbn [py_get bind].
  cbn [record_fields In] in Hk.
  destruct Hk as [<- | [<- | [<- | [<- | []]]]];
    rewrite ?field_remove_same, ?field_remove_other by reflexivity.
  - intros _. reflexivity.
  - generalize (field d "type" (JStr "")) (field d "subtype" (JStr ""))
      (field d "data" (JObj [])).
    intros typ sub data.
    destruct typ as [| | | |s| |]; try (intros _; reflexivity).
    cbn [eq_str].
    change (String.eqb "" "interactionUpdate") with false.
    change (String.eqb "" "kvServerMessage") with false.
    change (String.eqb "" "conversationCheckpointUpdate") with false.
    change (String.eqb "" "requestContextResult") with false.
    change (in_str_set (JStr "") (SKIP_DELTAS ++ COALESCE_DELTAS))
      with (@Ok bool false).
    destruct (String.eqb s "kvClient").
    + destruct (String.eqb s "serverMessage" && _); discriminate.
    + intros _.
      destruct (String.eqb s "serverMessage"), (String.eqb s "execClient"),
        (String.eqb s "interactionUpdate"), (String.eqb s "info");
        reflexivity.
  - intros H. exact H.
  - generalize (field d "type" (JStr "")) (field d "subtype" (JStr ""))
      (field d "data" (JObj [])).
    intros typ sub data.
    change (is_dict (JObj [])) with true.
    change (py_get (JObj []) "updateCase" JNull) with (Ok JNull).
    break_all.
Qed.

Lemma get_delta_type_remove (k : string) (d : dict) :
  In k record_fields ->
  succeeds (get_delta_type (JObj d)) ->
  succeeds (get_delta_type (JObj (remove_key k d))).
Proof.
  intros Hk. unfold get_delta_type. cbn [py_get bind].
  cbn [record_fields In] in Hk.
  destruct Hk as [<- | [<- | [<- | [<- | []]]]];
    rewrite ?field_remove_same, ?field_remove_other by reflexivity.
  - intros _. eexists. reflexivity.
  - intros _.
    generalize (field d "type" (JStr "")). intros typ.
    change (in_str_set (JStr "") (SKIP_DELTAS ++ COALESCE_DELTAS))
      with (@Ok bool false).
    change (eq_str (JStr "") "interactionUpdate") with false.
    destruct (eq_str typ "interactionUpdate"), (eq_str typ "info");
      eexists; reflexivity.
  - intros H. exact H.
  - generalize (field d "type" (JStr "")) (field d "subtype" (JStr ""))
      (field d "data" (JObj [])).
    intros typ sub data.
    change (is_dict (JObj [])) with true.
    change (py_get (JObj []) "updateCase" JNull) with (Ok JNull).
    unfold succeeds, bind.
    destruct (eq_str typ "interactionUpdate").
    + destruct (in_str_set sub (SKIP_DELTAS ++ COALESCE_DELTAS))
        as [[|]|]; [intros H; exact H| |intros H; exact H].
      intros _. destruct (_ && _); eexists; reflexivity.
    + intros _. destruct (_ && _); eexists; reflexivity.
Qed.

Lemma entry_time_remove (k : string) (d : dict) :
  In k record_fields ->
  succeeds (entry_time d) -> succeeds (entry_time (remove_key k d)).
Proof.
  intros Hk. unfold entry_time. cbn [record_fields In] in Hk.
  destruct Hk as [<- | [<- | [<- | [<- | []]]]];
    rewrite ?field_remove_same, ?field_remove_other by reflexivity;
    try (intros H; exact H).
  intros _. eexists. reflexivity.
Qed.

Lemma format_data_no_subtype (typ data : json) :
  succeeds (format_data typ (JStr "") data).
Proof.
  unfold format_data. destruct data as [| | | | | |[|kv d]];
    try (eexists; reflexivity).
  change (eq_str (JStr "") "execServerMessage") with false.
  change (eq_str (JStr "") "interactionUpdate") with false.
  change (eq_str (JStr "") "builtRunRequest") with false.
  change (eq_str (JStr "") "execClientMessage") with false.
  rewrite !andb_false_r. eexists. reflexivity.
Qed.

Lemma format_data_no_type (sub data : json) :
  succeeds (format_data (JStr "?") sub data).
Proof.
  unfold format_data. destruct data as [| | | | | |[|kv d]];
    eexists; reflexivity.
Qed.

Lemma format_entry_noise_inv (d : dict) (verbose : bool) (line : string) :
  format_entry (JObj d) verbose = Ok (Some line) ->
  is_noise (JObj d) verbose = Ok false.
Proof.
  unfold format_entry.
  destruct (is_noise (JObj d) verbose) as [[|]|]; cbn [bind];
    try discriminate.
  reflexivity.
Qed.

Lemma format_entry_remove (k : string) (d : dict) (verbose : bool)
  (line : string) :
  In k record_fields ->
  format_entry (JObj d) verbose = Ok (Some line) ->
  exists line',
    format_entry (JObj (remove_key k d)) verbose = Ok (Some line').
Proof.
  intros Hk H. destruct verbose.
  - rewrite format_entry_verbose in *.
    destruct (entry_time d) as [t|] eqn:Ht; [|discriminate].
    destruct (entry_time_remove k d Hk) as [t' ->];
      [eexists; exact Ht|].
    cbn [bind]. eexists. reflexivity.
  - pose proof (format_entry_noise_inv _ _ _ H) as Hn.
    rewrite (format_entry_not_noise _ (is_noise_remove _ _ Hk Hn)).
    rewrite (format_entry_not_noise _ Hn) in H.
    destruct (entry_time d) as [t|] eqn:Ht; [|discriminate].
    destruct (entry_time_remove k d Hk) as [t' ->];
      [eexists; exact Ht|].
    cbn [bind] in *.
    destruct (format_data _ _ _) as [ds|] eqn:Hd in H; [|discriminate].
    assert (Hs : succeeds
              (format_data (field (remove_key k d) "type" (JStr "?"))
                 (if truthy (field (remove_key k d) "subtype" JNull)
                  then field (remove_key k d) "subtype" JNull
                  else JStr "")
                 (field (remove_key k d) "data" JNull))).
    { cbn [record_fields In] in Hk.
      destruct Hk as [<- | [<- | [<- | [<- | []]]]];
        rewrite ?field_remove_same, ?field_remove_other by reflexivity.
      - apply format_data_no_type.
      - apply format_data_no_subtype.
      - eexists. exact Hd.
      - eexists. reflexivity. }
    destruct Hs as [ds' ->]. cbn [bind]. eexists. reflexivity.
Qed.

Lemma all_missing (d : dict) (k : string) :
  (forall k0, In k0 record_fields -> lookup k0 d = None) ->
  In k record_fields -> forall default, field d k default = default.
Proof. intros H Hk default. apply field_none. exact (H k Hk). Qed.

(** C6 (amended): the fields type, subtype, ts and data of a record are
    read with defaults, and their absence never causes an error.  A record
    without type is classified exactly like the record with type "" and is
    neither noise nor a delta.  A record with none of the four fields
    gives False in is_noise, None in get_delta_type and the generic line
    "[??:??:??] ?" in format_entry.  Deleting one of the four fields from
    a record that format_entry turns into a line leaves is_noise and
    format_entry without error, and get_delta_type too if it returned
    before.  (Fields that are present with a value of an unexpected type
    can still raise: the functions are not total on all dicts.) *)
Theorem C6_missing_fields_are_defaulted
  (d : dict) (verbose : bool) (k : string) (line : string) :
  In k record_fields ->
  format_entry (JObj d) verbose = Ok (Some line) ->
  succeeds (is_noise (JObj (remove_key k d)) verbose)
  /\ (succeeds (get_delta_type (JObj d)) ->
      succeeds (get_delta_type (JObj (remove_key k d))))
  /\ (exists line',
        format_entry (JObj (remove_key k d)) verbose = Ok (Some line'))
  /\ (forall d0, lookup "type" d0 = None ->
        is_noise (JObj d0) verbose
        = is_noise (JObj (("type", JStr "") :: d0)) verbose
        /\ get_delta_type (JObj d0)
           = get_delta_type (JObj (("type", JStr "") :: d0))
        /\ is_noise (JObj d0) verbose = Ok false
        /\ get_delta_type (JObj d0) = Ok JNull
        /\ is_text_delta (JObj d0) = false)
  /\ (forall d0,
        (forall k0, In k0 record_fields -> lookup k0 d0 = None) ->
        is_noise (JObj d0) verbose = Ok false
        /\ get_delta_type (JObj d0) = Ok JNull
        /\ format_entry (JObj d0) verbose = Ok (Some "[??:??:??] ?")).
Proof.
  intros Hk H. split; [|split; [|split; [|split]]].
  - destruct verbose; [eexists; reflexivity|].
    eexists. apply is_noise_remove; [exact Hk|].
    exact (format_entry_noise_inv _ _ _ H).
  - apply get_delta_type_remove. exact Hk.
  - exact (format_entry_remove _ _ _ _ Hk H).
  - intros d0 Ht.
    assert (Hg : get_delta_type (JObj d0) = Ok JNull).
    { unfold get_delta_type. cbn [py_get bind].
      rewrite (field_none _ _ _ Ht). reflexivity. }
    assert (Hn : is_noise (JObj d0) verbose = Ok false).
    { destruct verbose; [reflexivity|]. unfold is_noise.
      rewrite Hg. cbn [py_get bind]. rewrite (field_none _ _ _ Ht).
      reflexivity. }
    repeat split.
    + rewrite Hn. destruct verbose; [reflexivity|].
      unfold is_noise, get_delta_type. cbn [py_get bind].
      change (field (("type", JStr "") :: d0) "type" (JStr ""))
        with (JStr "").
      reflexivity.
    + rewrite Hg. unfold get_delta_type. cbn [py_get bind].
      change (field (("type", JStr "") :: d0) "type" (JStr ""))
        with (JStr "").
      reflexivity.
    + exact Hn.
    + exact Hg.
    + unfold is_text_delta. rewrite (field_none _ _ _ Ht). reflexivity.
  - intros d0 Hall.
    assert (Ht : lookup "type" d0 = None)
      by (apply Hall; cbn; auto).
    assert (Hg : get_delta_type (JObj d0) = Ok JNull).
    { unfold get_delta_type. cbn [py_get bind].
      rewrite (field_none _ _ _ Ht). reflexivity. }
    assert (Hn : is_noise (JObj d0) verbose = Ok false).
    { destruct verbose; [reflexivity|]. unfold is_noise.
      rewrite Hg. cbn [py_get bind]. rewrite (field_none _ _ _ Ht).
      reflexivity. }
    repeat split; [exact Hn|exact Hg|].
    unfold format_entry. rewrite Hn. cbn [bind py_get].
    rewrite !(all_missing d0 _ Hall) by (cbn; auto).
    destruct verbose; reflexivity.
Qed.

(** *** More on the loop *)

Lemma step_settled (verbose : bool) (st st' : state) (entry : json) :
  settled st -> step verbose st entry = Ok st' -> settled st'.
Proof.
  intros Hst. destruct entry as [| | | | | |d]; try discriminate.
  destruct (is_text_delta (JObj d)) eqn:Htd.
  - rewrite (step_text_delta _ _ _ Htd).
    destruct (extract_text_delta (JObj d)) as [text|]; [|discriminate].
    cbn [bind]. destruct (truthy text) eqn:Ht; [|intros [= <-]; exact Hst].
    destruct text; try discriminate. cbn [py_append bind].
    intros [= <-] Hb. cbn in Hb, Ht.
    destruct (text_buffer st); cbn in Hb; [|discriminate].
    subst s. discriminate.
  - rewrite (step_other _ _ _ Htd).
    destruct (is_noise (JObj d) verbose) as [[|]|]; cbn [bind];
      [intros [= <-]; exact Hst| |discriminate].
    destruct (flush_text st) as [st1|] eqn:Hf; [|discriminate]. cbn [bind].
    assert (H1 : settled st1).
    { unfold flush_text in Hf.
      destruct (negb (String.eqb (text_buffer st) "")).
      - destruct (py_clock (text_ts st)); [|discriminate].
        injection Hf as <-. intros _. reflexivity.
      - injection Hf as <-. exact Hst. }
    destruct (format_entry (JObj d) verbose) as [[line|]|];
      cbn [bind]; [|intros [= <-]; exact H1|discriminate].
    destruct (negb (String.eqb line "")); intros [= <-]; exact H1.
Qed.

Lemma run_settled (verbose : bool) (entries : list json) :
  forall st st',
    settled st -> run_entries verbose st entries = Ok st' -> settled st'.
Proof.
  induction entries as [|e entries IH]; intros st st' Hst; cbn [run_entries].
  - intros [= <-]. exact Hst.
  - destruct (step verbose st e) as [st1|] eqn:He; [|discriminate].
    cbn [bind]. apply IH. exact (step_settled _ _ _ _ Hst He).
Qed.

(** Cutting the input in front of a record that is formatted cuts the
    output: coalesce_entries of the whole is coalesce_entries of what comes
    before the record followed by coalesce_entries of the rest, errors
    included. *)
Theorem X1_coalesce_splits_at_emitted
  (verbose : bool) (a b : list json) (e : json) :
  emitted verbose e ->
  coalesce_entries (a ++ e :: b) verbose =
    (la <- coalesce_entries a verbose ;;
     lb <- coalesce_entries (e :: b) verbose ;;
     Ok (la ++ lb)%list).
Proof.
  intros He. unfold coalesce_entries at 1 2. unfold coalesce_from.
  rewrite run_entries_app.
  destruct (run_entries verbose init_state a) as [st|] eqn:Ha;
    [|reflexivity].
  cbn [bind].
  assert (Hst : settled st).
  { apply (run_settled verbose a init_state st); [|exact Ha].
    intros _. reflexivity. }
  destruct (String.eqb (text_buffer st) "") eqn:Hb.
  - apply String.eqb_eq in Hb.
    rewrite (flush_text_empty _ Hb). cbn [bind].
    assert (Hprep : st = prepend (output st) init_state).
    { destruct st as [o buf ts]. unfold settled in Hst. cbn in Hb, Hst.
      subst buf. specialize (Hst eq_refl). subst ts.
      unfold prepend, init_state. cbn. now rewrite app_nil_r. }
    pose proof (coalesce_prepend verbose (output st) (e :: b) init_state)
      as Hp.
    rewrite <- Hprep in Hp. unfold coalesce_from in Hp. exact Hp.
  - apply String.eqb_neq in Hb.
    rewrite (flush_text_pending _ Hb).
    destruct (py_clock (text_ts st)) as [t|err] eqn:Ht.
    + cbn [bind output].
      pose proof (coalesce_pending verbose st t (e :: b) Hb Ht He) as Hp.
      unfold coalesce_from in Hp. rewrite Hp.
      destruct (coalesce_entries (e :: b) verbose); cbn [bind];
        [|reflexivity].
      now rewrite <- app_assoc.
    + cbn [bind run_entries].
      destruct He as [Htd [Hd Hn]]. destruct e; try discriminate.
      rewrite (step_other _ _ _ Htd), Hn. cbn [bind].
      rewrite (flush_text_pending _ Hb), Ht. reflexivity.
Qed.

Lemma pending_le_1 (st : state) : (pending st <= 1)%nat.
Proof. unfold pending. destruct (String.eqb _ _); lia. Qed.

Lemma flush_count (st st' : state) :
  flush_text st = Ok st' ->
  length (output st') = (length (output st) + pending st)%nat
  /\ pending st' = 0%nat.
Proof.
  unfold flush_text, pending.
  destruct (String.eqb (text_buffer st) "") eqn:Hb; cbn [negb].
  - intros [= <-]. rewrite Hb. lia.
  - destruct (py_clock (text_ts st)); [|discriminate]. cbn [bind].
    intros [= <-]. cbn. rewrite List.length_app. cbn. lia.
Qed.

Lemma step_count (verbose : bool) (st st' : state) (entry : json) :
  step verbose st entry = Ok st' ->
  (length (output st') + pending st'
   <= length (output st) + pending st + 1)%nat.
Proof.
  destruct entry as [| | | | | |d]; try discriminate.
  destruct (is_text_delta (JObj d)) eqn:Htd.
  - rewrite (step_text_delta _ _ _ Htd).
    destruct (extract_text_delta (JObj d)) as [text|]; [|discriminate].
    cbn [bind]. destruct (truthy text); [|intros [= <-]; lia].
    destruct (py_append (text_buffer st) text); [|discriminate].
    cbn [bind]. intros [= <-]. cbn [output].
    pose proof (pending_le_1
                  (mkState (output st) a
                     (if String.eqb (text_buffer st) ""
                      then field d "ts" (JInt 0) else text_ts st))).
    lia.
  - rewrite (step_other _ _ _ Htd).
    destruct (is_noise (JObj d) verbose) as [[|]|]; cbn [bind];
      [intros [= <-]; lia| |discriminate].
    destruct (flush_text st) as [st1|] eqn:Hf; [|discriminate]. cbn [bind].
    destruct (flush_count _ _ Hf) as [Hlen Hp].
    assert (Hp' : forall line, pending (emit_line st1 line) = 0%nat)
      by (intros line; exact Hp).
    destruct (format_entry (JObj d) verbose) as [[line|]|];
      cbn [bind]; [|intros [= <-]; lia|discriminate].
    destruct (negb (String.eqb line "")); intros [= <-].
    + rewrite Hp'. unfold emit_line. cbn [output].
      rewrite List.length_app. cbn. lia.
    + lia.
Qed.

Lemma run_count (verbose : bool) (entries : list json) :
  forall st st',
    run_entries verbose st entries = Ok st' ->
    (length (output st') + pending st'
     <= length (output st) + pending st + length entries)%nat.
Proof.
  induction entries as [|e entries IH]; intros st st'; cbn [run_entries].
  - intros [= <-]. cbn. lia.
  - destruct (step verbose st e) as [st1|] eqn:He; [|discriminate].
    cbn [bind]. intros Hrun.
    pose proof (step_count _ _ _ _ He). pose proof (IH _ _ Hrun).
    cbn [length]. lia.
Qed.

(** coalesce_entries never returns more lines than it was given records:
    a text line takes at least one textDelta record, any other line
    exactly one record. *)
Theorem X2_coalesce_no_more_lines_than_records
  (verbose : bool) (entries : list json) (lines : list string) :
  coalesce_entries entries verbose = Ok lines ->
  (length lines <= length entries)%nat.
Proof.
  unfold coalesce_entries, coalesce_from.
  destruct (run_entries verbose init_state entries) as [st|] eqn:Hrun;
    [|discriminate].
  cbn [bind].
  destruct (flush_text st) as [st'|] eqn:Hf; [|discriminate].
  cbn [bind]. intros [= <-].
  pose proof (run_count _ _ _ _ Hrun) as Hc. cbn in Hc.
  destruct (flush_count _ _ Hf) as [Hlen _]. lia.
Qed.

(** *** More on formatting *)

Lemma replace_newline_absent (s : string) :
  has_newline s = false -> str_replace newline "\n" s = s.
Proof.
  unfold str_replace.
  induction s as [|c s IH]; [reflexivity|].
  cbn [has_newline]. intros H. apply orb_false_iff in H as [Hc Hs].
  cbn [replace_from]. unfold newline at 1. rewrite prefix_cons.
  destruct (ascii_dec (ascii_of_nat 10) c) as [<-|_].
  - rewrite Ascii.eqb_refl in Hc. discriminate.
  - now rewrite (IH Hs).
Qed.

(** A pending text without newline and of at most 300 characters is
    printed as it is: the flushed line is "[time] text: " followed by the
    text itself. *)
Theorem X3_short_plain_text_is_verbatim (time_str buffer : string) :
  has_newline buffer = false ->
  (String.length buffer <= 300)%nat ->
  text_line time_str buffer = "[" ++ time_str ++ "] text: " ++ buffer.
Proof.
  intros Hn Hlen. unfold text_line, escape_text, ellipsis.
  rewrite (replace_newline_absent _ Hn).
  apply Nat.ltb_ge in Hlen. now rewrite Hlen.
Qed.

Lemma stripped_filter (kv : string * json) :
  negb (is_null (snd kv))
  && negb (existsb (String.eqb (fst kv)) ["detail"; "$typeName"])
  = negb (stripped kv).
Proof. unfold stripped. now rewrite negb_orb. Qed.

(** The fallback detail of format_data does not see the fields detail and
    $typeName nor the fields whose value is null: with or without such a
    field the detail is the same, and a payload made of such fields only
    has no detail at all. *)
Theorem X4_fallback_ignores_stripped_fields
  (d1 d2 : dict) (kv : string * json) :
  stripped kv = true ->
  format_default (d1 ++ kv :: d2)%list = format_default (d1 ++ d2)%list
  /\ (forallb stripped (d1 ++ kv :: d2)%list = true ->
      format_default (d1 ++ kv :: d2)%list = "").
Proof.
  intros Hkv. unfold format_default. split.
  - rewrite !filter_app. cbn [filter].
    rewrite stripped_filter, Hkv. reflexivity.
  - intros Hall.
    replace (filter _ (d1 ++ kv :: d2)%list) with (@nil (string * json));
      [reflexivity|].
    symmetry. induction (d1 ++ kv :: d2)%list as [|x l IH]; [reflexivity|].
    cbn [forallb] in Hall. apply andb_true_iff in Hall as [Hx Hl].
    cbn [filter]. rewrite stripped_filter, Hx. cbn. exact (IH Hl).
Qed.

(** *** More on the sources *)

(** The lines kept by --last are the final lines of the file: with a
    positive N they are the last min(N, number of lines) lines, in order;
    with N zero or negative the whole file is kept. *)
Theorem X5_last_keeps_final_lines (last : Z) (lines : list string) :
  exists dropped,
    lines = (dropped ++ last_lines last lines)%list
    /\ length (last_lines last lines)
       = (if 0 <? last then Nat.min (Z.to_nat last) (length lines)
          else length lines).
Proof.
  unfold last_lines. destruct (0 <? last) eqn:Hpos.
  - destruct (last <? Z.of_nat (length lines)) eqn:Hlt.
    + exists (firstn (length lines - Z.to_nat last) lines). split.
      * now rewrite firstn_skipn.
      * rewrite length_skipn. apply Z.ltb_lt in Hlt, Hpos. lia.
    + exists []. split; [reflexivity|].
      apply Z.ltb_ge in Hlt. apply Z.ltb_lt in Hpos. lia.
  - exists []. split; reflexivity.
Qed.

Lemma parse_lines_count (lines : list string) :
  forall entries err err' entries',
    parse_lines lines entries err = (err', Ok entries') ->
    (length entries' + length err'
     = length entries + length err + count_nonblank lines)%nat.
Proof.
  unfold count_nonblank.
  induction lines as [|line lines IH]; intros entries err err' entries'.
  - cbn. intros [= <- <-]. lia.
  - cbn [parse_lines filter]. fold (nonblank line).
    destruct (nonblank line).
    + destruct (json_loads line) as [v|[]].
      all: try (intros [= _ ?]; discriminate).
      * intros H. apply IH in H. rewrite List.length_app in H.
        cbn [length] in *. lia.
      * intros H. apply IH in H. rewrite List.length_app in H.
        cbn [length] in *. lia.
    + apply IH.
Qed.

(** When parse_entries returns, every line it read is accounted for once:
    the number of records plus the number of reported errors is the number
    of lines that are not blank, among those kept by --last. *)
Theorem X6_parse_accounts_for_every_line
  (text : string) (last : Z) (err : list string) (entries : list json) :
  parse_entries text last = (err, Ok entries) ->
  (length entries + length err
   = count_nonblank (last_lines last (split_lines (str_strip text))))%nat.
Proof.
  unfold parse_entries. intros H.
  apply parse_lines_count in H. cbn [length] in H. lia.
Qed.

Lemma follow_iter_keeps (verbose : bool) (st st' : follow_state)
  (line : string) (elapsed : bool) :
  (length (buffer st) <= 50)%nat ->
  follow_iter verbose st line elapsed = Ok st' ->
  (length (buffer st') <= 50)%nat
  /\ reported (channels st') = reported (channels st)
  /\ exists lines,
       printed (channels st') = (printed (channels st) ++ lines)%list.
Proof.
  intros Hb. unfold follow_iter.
  destruct (if negb (String.eqb line "") && _ then _ else _)
    as [buffer1|] eqn:Hread; [|discriminate].
  cbn [bind].
  assert (H1 : (length buffer1 <= 51)%nat).
  { destruct (negb (String.eqb line "") && _).
    - destruct (json_loads line) as [v|[]]; try discriminate;
        injection Hread as <-; rewrite ?List.length_app; cbn; lia.
    - injection Hread as <-. lia. }
  destruct (match buffer1 with [] => false | _ => true end
            && (elapsed || (50 <? length buffer1)%nat)) eqn:Hemit.
  - destruct (coalesce_entries buffer1 verbose) as [lines|];
      [|discriminate].
    cbn [bind]. intros [= <-]. cbn. split; [lia|]. split; [reflexivity|].
    eexists. reflexivity.
  - assert (Hle : (length buffer1 <= 50)%nat).
    { destruct buffer1 as [|x l]; [cbn; lia|].
      cbn [andb] in Hemit. apply orb_false_iff in Hemit as [_ Hlen].
      apply Nat.ltb_ge in Hlen. exact Hlen. }
    destruct (String.eqb line ""); intros [= <-]; cbn;
      (split; [exact Hle|]); (split; [reflexivity|]);
      exists []; now rewrite app_nil_r.
Qed.

(** In follow mode the buffer never holds more than 50 records between two
    iterations, standard error is never written, and what was printed is
    never taken back: after any sequence of reads that the loop survives,
    the buffer has at most 50 records, nothing was reported, and the
    printed lines extend those printed before. *)
Theorem X7_follow_keeps_buffer_bounded
  (verbose : bool) (reads : list (string * bool)) :
  forall st st',
    (length (buffer st) <= 50)%nat ->
    follow_run verbose st reads = Ok st' ->
    (length (buffer st') <= 50)%nat
    /\ reported (channels st') = reported (channels st)
    /\ exists lines,
         printed (channels st') = (printed (channels st) ++ lines)%list.
Proof.
  induction reads as [|[line elapsed] reads IH]; intros st st' Hb;
    cbn [follow_run].
  - intros [= <-]. split; [exact Hb|]. split; [reflexivity|].
    exists []. now rewrite app_nil_r.
  - destruct (follow_iter verbose st line elapsed) as [st1|] eqn:Hi;
      [|discriminate].
    cbn [bind]. intros Hrun.
    destruct (follow_iter_keeps _ _ _ _ _ Hb Hi) as [Hb1 [Hr1 [l1 Hp1]]].
    destruct (IH _ _ Hb1 Hrun) as [Hb' [Hr' [l2 Hp']]].
    split; [exact Hb'|]. split; [congruence|].
    exists (l1 ++ l2)%list. rewrite Hp', Hp1. now rewrite app_assoc.
Qed.

End Log.


(** ** The shell helpers *)

Import Shell.

Lemma run_launches (o : os) (cmd : string) (cwd : option string)
  (timeout : option Z) :
  exists shell_path,
    run o cmd cwd timeout = launch o [shell_path; "-c"; cmd] cwd timeout cmd.
Proof. unfold run. eexists. reflexivity. Qed.

Lemma sh_launches (o : os) (cmd : string) (cwd : option string)
  (timeout : option Z) (shell_path : string) :
  or_else (locate_shell o) None = Some shell_path ->
  exists flags source,
    sh o cmd cwd timeout
    = launch o (shell_path :: flags ++ ["-c"; (source ++ cmd)%string])%list
             cwd timeout cmd.
Proof.
  intros H. unfold sh. rewrite H.
  destruct (is_true _).
  - exists [], (match or_else (getenv o "OMP_SHELL_SNAPSHOT") None with
                | Some path => "source '" ++ path ++ "' 2>/dev/null && "
                | None => ""
                end). reflexivity.
  - exists ["-l"], (match or_else (getenv o "OMP_SHELL_SNAPSHOT") None with
                    | Some path => "source '" ++ path ++ "' 2>/dev/null && "
                    | None => ""
                    end). reflexivity.
Qed.

Lemma timeout_outcome (p : process) (cmd : string) :
  first_wait p = Expired ->
  _run_with_interrupt p cmd
  = send p SIGKILL (uncaught (final_wait p) (-9) cmd).
Proof. intros H. unfold _run_with_interrupt. rewrite H. reflexivity. Qed.

Lemma interrupt_outcome (p : process) (cmd : string) :
  first_wait p = Interrupted ->
  _run_with_interrupt p cmd
  = send p SIGINT
      match grace_wait p with
      | Expired => send p SIGKILL (uncaught (final_wait p) (-2) cmd)
      | w => uncaught w (-2) cmd
      end.
Proof. intros H. unfold _run_with_interrupt. rewrite H. reflexivity. Qed.

Ltac settle :=
  repeat match goal with
         | |- _ /\ _ => split
         | |- _ <-> _ => split
         | |- forall _, _ => intro
         | |- ~ _ => intro
         | H : _ /\ _ |- _ => destruct H
         | H : _ \/ _ |- _ => destruct H
         | H : exists _, _ |- _ => destruct H
         | H : succeeds _ |- _ => destruct H
         | H : graceful_then_forceful _ _ |- _ => destruct H
         end;
  repeat match goal with
         | H : Ok _ = Ok _ |- _ => injection H; clear H; intros; subst
         | H : Raise _ = Raise _ |- _ => injection H; clear H; intros; subst
         end;
  subst; try discriminate; try congruence; try reflexivity;
  try solve [unfold succeeds; eauto 12];
  try solve [right; split;
             [exists tt; reflexivity
             |left; split; [reflexivity|discriminate]]].

Ltac shell_cases p :=
  unfold _run_with_interrupt, send, uncaught, _make_shell_result, after;
  destruct (first_wait p) as [[? ?]|[]];
  destruct (killpg p SIGINT) as [[]|?];
  destruct (grace_wait p) as [[? ?]|[]];
  destruct (killpg p SIGKILL) as [[]|?];
  destruct (final_wait p) as [[? ?]|?];
  cbn.

(** C8 (amended): when the wait of _run_with_interrupt times out, the
    process group is sent SIGKILL at once, with no graceful signal before
    it; when the wait is interrupted, the group is sent SIGINT and, only if
    the process has not finished two seconds later, SIGKILL.  A ShellResult
    comes back, with code -9 after a timeout and -2 after an interrupt and
    with the output of the last wait, exactly when every os.killpg call
    returns and the wait after the last signal returns; otherwise the
    exception of os.killpg, or the exception of that wait (a second
    interrupt among them), leaves the helper.  sh raises RuntimeError when
    it finds no shell and the platform is not Windows; run falls back to
    /bin/sh instead of raising; both hand the command to
    _run_with_interrupt when the process is spawned, and an exception of
    subprocess.Popen leaves them with no signal sent and no status
    event. *)
Theorem C8_timeout_and_interrupt_give_results
  (p : process) (cmd : string) (o : os) (cwd : option string)
  (timeout : option Z) :
  (first_wait p = Expired ->
   signals (fst (_run_with_interrupt p cmd))
   = match killpg p SIGKILL with Ok _ => [SIGKILL] | Raise _ => [] end
   /\ ~ graceful_then_forceful p cmd
   /\ (forall r,
         snd (_run_with_interrupt p cmd) = Ok r
         <-> succeeds (killpg p SIGKILL)
             /\ exists out err,
                  final_wait p = Finished out err
                  /\ r = mkResult out err (-9))
   /\ (forall e,
         snd (_run_with_interrupt p cmd) = Raise e
         <-> killpg p SIGKILL = Raise e
             \/ (succeeds (killpg p SIGKILL) /\ final_wait p = Raise e)))
  /\ (first_wait p = Interrupted ->
      signals (fst (_run_with_interrupt p cmd))
      = match killpg p SIGINT with
        | Raise _ => []
        | Ok _ =>
            match grace_wait p with
            | Expired =>
                match killpg p SIGKILL with
                | Ok _ => [SIGINT; SIGKILL]
                | Raise _ => [SIGINT]
                end
            | _ => [SIGINT]
            end
        end
      /\ (forall r,
            snd (_run_with_interrupt p cmd) = Ok r
            <-> succeeds (killpg p SIGINT)
                /\ ((exists out err,
                       grace_wait p = Finished out err
                       /\ r = mkResult out err (-2))
                    \/ (grace_wait p = Expired
                        /\ succeeds (killpg p SIGKILL)
                        /\ exists out err,
                             final_wait p = Finished out err
                             /\ r = mkResult out err (-2))))
      /\ (forall e,
            snd (_run_with_interrupt p cmd) = Raise e
            <-> killpg p SIGINT = Raise e
                \/ (succeeds (killpg p SIGINT)
                    /\ ((grace_wait p = Raise e /\ e <> TimeoutExpired)
                        \/ (grace_wait p = Expired
                            /\ (killpg p SIGKILL = Raise e
                                \/ (succeeds (killpg p SIGKILL)
                                    /\ final_wait p = Raise e)))))))
  /\ (or_else (locate_shell o) None = None ->
      String.prefix "win" (platform o) = false ->
      sh o cmd cwd timeout = ([], Raise RuntimeError))
  /\ (forall shell_path,
        or_else (locate_shell o) None = Some shell_path ->
        exists flags source,
          sh o cmd cwd timeout
          = launch o (shell_path :: flags ++ ["-c"; (source ++ cmd)%string])%list
                   cwd timeout cmd)
  /\ (is_true (which o "bash") = false ->
      is_true (which o "sh") = false ->
      run o cmd cwd timeout = launch o ["/bin/sh"; "-c"; cmd] cwd timeout cmd)
  /\ (exists shell_path,
        run o cmd cwd timeout
        = launch o [shell_path; "-c"; cmd] cwd timeout cmd)
  /\ (forall args,
        (spawn o args (cwd_arg cwd) timeout = Ok p ->
         launch o args cwd timeout cmd = _run_with_interrupt p cmd)
        /\ (forall e,
              spawn o args (cwd_arg cwd) timeout = Raise e ->
              launch o args cwd timeout cmd = ([], Raise e)))
  /\ (forall e,
        (forall args, spawn o args (cwd_arg cwd) timeout = Raise e) ->
        run o cmd cwd timeout = ([], Raise e)
        /\ (forall shell_path,
              or_else (locate_shell o) None = Some shell_path ->
              sh o cmd cwd timeout = ([], Raise e)))
  /\ (or_else (locate_shell o) None = None ->
      String.prefix "win" (platform o) = true ->
      forall e,
        subprocess_run o ["cmd"; "/c"; cmd] (cwd_arg cwd) timeout = Raise e ->
        sh o cmd cwd timeout = ([], Raise e)).
Proof.
  split; [|split; [|split; [|split; [|split; [|split; [|split; [|split]]]]]]].
  - intros Hfirst. rewrite (timeout_outcome p cmd Hfirst).
    unfold graceful_then_forceful. rewrite (timeout_outcome p cmd Hfirst).
    unfold send, uncaught, _make_shell_result, after.
    destruct (killpg p SIGKILL) as [[]|ek];
      destruct (final_wait p) as [[out err]|ef]; cbn; settle.
  - intros Hfirst. rewrite (interrupt_outcome p cmd Hfirst).
    unfold send, uncaught, _make_shell_result, after.
    destruct (killpg p SIGINT) as [[]|ei];
      destruct (grace_wait p) as [[out err]|[]];
      destruct (killpg p SIGKILL) as [[]|ek];
      destruct (final_wait p) as [[out' err']|ef]; cbn; settle.
  - intros Hnone Hwin. unfold sh. rewrite Hnone, Hwin. reflexivity.
  - intros shell_path. apply sh_launches.
  - intros Hbash Hsh. unfold run.
    destruct (which o "bash") as [[|c b]|]; try discriminate;
      destruct (which o "sh") as [[|c' b']|]; try discriminate; reflexivity.
  - apply run_launches.
  - intros args. unfold launch. split.
    + intros ->. reflexivity.
    + intros e ->. reflexivity.
  - intros e Hspawn. split.
    + destruct (run_launches o cmd cwd timeout) as [shell_path ->].
      unfold launch. now rewrite Hspawn.
    + intros shell_path Hshell.
      destruct (sh_launches o cmd cwd timeout shell_path Hshell)
        as [flags [source ->]].
      unfold launch. now rewrite Hspawn.
  - intros Hnone Hwin e Hrun. unfold sh. rewrite Hnone, Hwin, Hrun.
    reflexivity.
Qed.

(** A command that timed out or was interrupted never counts as a
    success: when _run_with_interrupt returns a result after a wait that
    did not finish, its code is -9 (timeout) or -2 (interrupt) and the
    result is false as a boolean; when the first wait finishes, no signal
    is sent and the result carries the exit code and the whole output of
    the process. *)
Theorem X8_killed_command_is_falsy (p : process) (cmd : string)
  (r : ShellResult) :
  snd (_run_with_interrupt p cmd) = Ok r ->
  match first_wait p with
  | Finished out err =>
      r = mkResult out err (returncode p)
      /\ signals (fst (_run_with_interrupt p cmd)) = []
  | Expired => code r = -9 /\ succeeded r = false
  | Interrupted => code r = -2 /\ succeeded r = false
  | Raise _ => False
  end.
Proof.
  shell_cases p; try discriminate; intros [= <-]; split; reflexivity.
Qed.

(** Whatever the process does, _run_with_interrupt sends at most two
    signals, SIGKILL at most once and never before SIGINT, and it emits
    exactly one status event when it returns a result and none when an
    exception leaves it. *)
Theorem X9_signals_and_status_events (p : process) (cmd : string) :
  In (signals (fst (_run_with_interrupt p cmd)))
     [[]; [SIGINT]; [SIGINT; SIGKILL]; [SIGKILL]]
  /\ length (statuses (fst (_run_with_interrupt p cmd)))
     = match snd (_run_with_interrupt p cmd) with
       | Ok _ => 1%nat
       | Raise _ => 0%nat
       end.
Proof.
  shell_cases p; auto 6.
Qed.




(** ** The text and line helpers *)

Lemma slice_to (A : Type) (n : Z) (l : list A) :
  0 <= n -> Prelude.slice None (Some n) l = firstn (Z.to_nat n) l.
Proof.
  intros Hn. unfold Prelude.slice, Prelude.clip. cbn [skipn].
  replace (n <? 0) with false by (symmetry; apply Z.ltb_ge; exact Hn).
  rewrite Nat.sub_0_r.
  destruct (Z.le_gt_cases n (Z.of_nat (length l))) as [Hle|Hgt].
  - now rewrite Z.min_l.
  - rewrite Z.min_r by lia. rewrite Nat2Z.id.
    rewrite !firstn_all2; [reflexivity|lia|lia].
Qed.

Lemma slice_from (A : Type) (a : Z) (l : list A) :
  0 <= a -> Prelude.slice (Some a) None l = skipn (Z.to_nat a) l.
Proof.
  intros Ha. unfold Prelude.slice, Prelude.clip.
  replace (a <? 0) with false by (symmetry; apply Z.ltb_ge; exact Ha).
  destruct (Z.le_gt_cases a (Z.of_nat (length l))) as [Hle|Hgt].
  - rewrite Z.min_l by exact Hle.
    apply firstn_all2. rewrite length_skipn. lia.
  - rewrite Z.min_r by lia. rewrite Nat2Z.id, Nat.sub_diag. cbn [firstn].
    symmetry. apply skipn_all2. lia.
Qed.

Lemma slice_from_neg (A : Type) (a : Z) (l : list A) :
  a < 0 ->
  Prelude.slice (Some a) None l
  = skipn (length l - Z.to_nat (- a)) l.
Proof.
  intros Ha. unfold Prelude.slice, Prelude.clip.
  replace (a <? 0) with true by (symmetry; apply Z.ltb_lt; exact Ha).
  replace (Z.to_nat (Z.max (Z.of_nat (length l) + a) 0))
    with (length l - Z.to_nat (- a))%nat by lia.
  apply firstn_all2. rewrite length_skipn. lia.
Qed.

Lemma slice_between (A : Type) (a b : Z) (l : list A) :
  0 <= a -> 0 <= b ->
  Prelude.slice (Some a) (Some b) l
  = firstn (Z.to_nat b - Z.to_nat a) (skipn (Z.to_nat a) l).
Proof.
  intros Ha Hb. unfold Prelude.slice, Prelude.clip.
  replace (a <? 0) with false by (symmetry; apply Z.ltb_ge; exact Ha).
  replace (b <? 0) with false by (symmetry; apply Z.ltb_ge; exact Hb).
  destruct (Z.le_gt_cases a (Z.of_nat (length l))) as [Hale|Hagt].
  - rewrite (Z.min_l a) by exact Hale.
    destruct (Z.le_gt_cases b (Z.of_nat (length l))) as [Hble|Hbgt].
    + now rewrite Z.min_l.
    + rewrite Z.min_r by lia. rewrite Nat2Z.id.
      rewrite !firstn_all2; [reflexivity| |]; rewrite length_skipn; lia.
  - rewrite (Z.min_r a) by lia. rewrite Nat2Z.id.
    rewrite !(skipn_all2 l) by lia. now rewrite !firstn_nil.
Qed.

Lemma join_app (a b : list string) :
  a <> [] -> b <> [] ->
  Prelude.join_lines (a ++ b)
  = Prelude.join_lines a ++ newline ++ Prelude.join_lines b.
Proof.
  unfold Prelude.join_lines. intros Ha Hb.
  induction a as [|x a IH]; [congruence|].
  destruct a as [|y a].
  - cbn [app String.concat]. destruct b; [congruence|reflexivity].
  - cbn [app String.concat] in *. rewrite IH by discriminate.
    now rewrite !append_assoc.
Qed.

(** head and tail cut a text in two: for 0 < n < number of lines, the
    first n lines that head returns, a newline and the last (number of
    lines - n) lines that tail returns make the text again (with "\n"
    between all lines).  At the ends they differ: head(text, 0) is empty,
    but tail(text, 0) is the whole text, because the slice [-0:] starts at
    0; and a negative n makes head drop the last -n lines and tail drop
    the first -n lines. *)
Theorem X11_head_and_tail_cut_the_text (text : string) (n : Z) :
  let all_lines := Prelude.splitlines text in
  let len := Z.of_nat (length all_lines) in
  (0 < n < len ->
   snd (Prelude.head text n) ++ newline ++ snd (Prelude.tail text (len - n))
   = Prelude.join_lines all_lines)
  /\ snd (Prelude.head text 0) = ""
  /\ snd (Prelude.tail text 0) = Prelude.join_lines all_lines
  /\ (n < 0 ->
      snd (Prelude.head text n)
      = Prelude.join_lines
          (firstn (length all_lines - Z.to_nat (- n)) all_lines)
      /\ snd (Prelude.tail text n)
         = Prelude.join_lines (skipn (Z.to_nat (- n)) all_lines)).
Proof.
  intros all_lines len. unfold Prelude.head, Prelude.tail. cbn [snd].
  fold all_lines. split; [|split; [|split]].
  - intros Hn.
    rewrite slice_to by lia.
    rewrite slice_from_neg by lia.
    replace (length all_lines - Z.to_nat (- - (len - n)))%nat
      with (Z.to_nat n) by (unfold len; lia).
    rewrite <- join_app.
    + now rewrite firstn_skipn.
    + intros H. apply (f_equal (@length string)) in H.
      rewrite length_firstn in H. cbn in H. unfold len in Hn. lia.
    + intros H. apply (f_equal (@length string)) in H.
      rewrite length_skipn in H. cbn in H. unfold len in Hn. lia.
  - now rewrite slice_to by lia.
  - rewrite slice_from by lia. reflexivity.
  - intros Hn. split.
    + unfold Prelude.slice, Prelude.clip. cbn [skipn].
      replace (n <? 0) with true by (symmetry; apply Z.ltb_lt; exact Hn).
      rewrite Nat.sub_0_r. f_equal. f_equal. lia.
    + rewrite slice_from by lia. reflexivity.
Qed.

Lemma expand_app (g1 g2 : list (Z * string)) :
  Prelude.expand (g1 ++ g2) = (Prelude.expand g1 ++ Prelude.expand g2)%list.
Proof. unfold Prelude.expand. apply flat_map_app. Qed.

Lemma repeat_snoc (x : string) (n : nat) :
  (repeat x n ++ [x])%list = x :: repeat x n.
Proof. induction n as [|n IH]; cbn; [reflexivity|now rewrite IH]. Qed.

Lemma uniq_loop_expand (rest : list string) :
  forall groups current count,
    1 <= count ->
    Prelude.expand (Prelude.uniq_loop rest groups current count)
    = (Prelude.expand groups ++ repeat current (Z.to_nat count) ++ rest)%list
    /\ (Forall (fun g => 1 <= fst g) groups ->
        Forall (fun g => 1 <= fst g)
               (Prelude.uniq_loop rest groups current count)).
Proof.
  induction rest as [|line rest IH]; intros groups current count Hc.
  - cbn [Prelude.uniq_loop]. split.
    + rewrite expand_app. cbn. now rewrite !app_nil_r.
    + intros Hg. apply Forall_app. split; [exact Hg|].
      constructor; [exact Hc|constructor].
  - cbn [Prelude.uniq_loop].
    destruct (String.eqb line current) eqn:E.
    + apply String.eqb_eq in E. subst line.
      destruct (IH groups current (count + 1)) as [He Hf]; [lia|].
      split; [|exact Hf].
      rewrite He. f_equal.
      replace (Z.to_nat (count + 1)) with (S (Z.to_nat count)) by lia.
      cbn [repeat]. rewrite <- repeat_snoc, <- app_assoc. reflexivity.
    + destruct (IH (groups ++ [(count, current)])%list line 1) as [He Hf];
        [lia|].
      split.
      * rewrite He, expand_app. cbn. rewrite app_nil_r, <- app_assoc.
        reflexivity.
      * intros Hg. apply Hf. apply Forall_app. split; [exact Hg|].
        constructor; [exact Hc|constructor].
Qed.

Lemma no_repeat_snoc (l : list string) (x y : string) :
  Prelude.no_repeat (l ++ [x]) -> x <> y ->
  Prelude.no_repeat ((l ++ [x]) ++ [y]).
Proof.
  induction l as [|a l IH]; intros H Hxy.
  - cbn. auto.
  - destruct l as [|b l].
    + cbn in *. tauto.
    + cbn [app Prelude.no_repeat] in *. destruct H as [Hab H].
      split; [exact Hab|]. apply IH; assumption.
Qed.

Lemma uniq_loop_no_repeat (rest : list string) :
  forall groups current count,
    Prelude.no_repeat (map snd groups ++ [current]) ->
    Prelude.no_repeat
      (map snd (Prelude.uniq_loop rest groups current count)).
Proof.
  induction rest as [|line rest IH]; intros groups current count H.
  - cbn [Prelude.uniq_loop]. rewrite map_app. exact H.
  - cbn [Prelude.uniq_loop].
    destruct (String.eqb line current) eqn:E.
    + apply IH. exact H.
    + apply IH. rewrite map_app. cbn [map snd].
      apply no_repeat_snoc; [exact H|].
      apply String.eqb_neq in E. congruence.
Qed.

(** uniq with count is a run-length encoding of the lines of the text:
    writing each line of a group as often as its count gives the lines
    back, every count is at least 1, and two groups that follow each other
    never have the same line.  Without count, uniq returns the lines of the
    groups joined by newlines. *)
Theorem X12_uniq_is_run_length_encoding (text : string) :
  let groups := Prelude.uniq_groups (Prelude.splitlines text) in
  snd (Prelude.uniq text true) = inl groups
  /\ snd (Prelude.uniq text false)
     = inr (Prelude.join_lines (map snd groups))
  /\ Prelude.expand groups = Prelude.splitlines text
  /\ Forall (fun g => 1 <= fst g) groups
  /\ Prelude.no_repeat (map snd groups).
Proof.
  intros groups. unfold groups, Prelude.uniq.
  destruct (Prelude.splitlines text) as [|first rest].
  - cbn. repeat split. constructor.
  - cbn [snd Prelude.uniq_groups].
    destruct (uniq_loop_expand rest [] first 1) as [He Hf]; [lia|].
    repeat split.
    + rewrite He. reflexivity.
    + apply Hf. constructor.
    + apply uniq_loop_no_repeat. cbn. exact I.
Qed.

Lemma fromkeys_in (l : list string) (x : string) :
  In x (Prelude.fromkeys l) <-> In x l.
Proof.
  induction l as [|y l IH]; [reflexivity|].
  cbn [Prelude.fromkeys In]. rewrite filter_In, IH.
  destruct (String.eqb_spec x y) as [->|Hne].
  - split; auto.
  - split.
    + intros [H|[H _]]; auto.
    + intros [H|H]; [auto|]. right. split; [exact H|reflexivity].
Qed.

Lemma fromkeys_nodup (l : list string) : NoDup (Prelude.fromkeys l).
Proof.
  induction l as [|y l IH]; [constructor|].
  cbn [Prelude.fromkeys]. constructor.
  - rewrite filter_In. intros [_ H].
    rewrite String.eqb_refl in H. discriminate.
  - apply NoDup_filter. exact IH.
Qed.

(** sort_lines returns the lines of the text in ascending order of their
    characters (descending with reverse, which is the ascending list
    backwards); without unique it keeps every line as often as it occurs,
    with unique it keeps each different line exactly once. *)
Theorem X13_sort_lines_sorts (text : string) (reverse unique : bool) :
  Sorted (fun x y => String.leb x y = true)
         (Prelude.sorted_lines text false unique)
  /\ Prelude.sorted_lines text true unique
     = rev (Prelude.sorted_lines text false unique)
  /\ Permutation (Prelude.splitlines text)
                 (Prelude.sorted_lines text reverse false)
  /\ NoDup (Prelude.sorted_lines text reverse true)
  /\ (forall line,
        In line (Prelude.sorted_lines text reverse unique)
        <-> In line (Prelude.splitlines text))
  /\ snd (Prelude.sort_lines text reverse unique)
     = Prelude.join_lines (Prelude.sorted_lines text reverse unique).
Proof.
  unfold Prelude.sorted_lines.
  split; [|split; [|split; [|split; [|split]]]].
  - apply Prelude.StringSort.Sorted_sort.
  - reflexivity.
  - destruct reverse.
    + rewrite <- Permutation_rev. apply Prelude.StringSort.Permuted_sort.
    + apply Prelude.StringSort.Permuted_sort.
  - assert (H : NoDup (Prelude.StringSort.sort
                         (Prelude.fromkeys (Prelude.splitlines text)))).
    { eapply Permutation_NoDup; [apply Prelude.StringSort.Permuted_sort|].
      apply fromkeys_nodup. }
    destruct reverse; [|exact H].
    eapply Permutation_NoDup; [apply Permutation_rev|exact H].
  - intros line.
    assert (H : forall l, In line (Prelude.StringSort.sort l) <-> In line l).
    { intros l. split; apply Permutation_in;
        [apply Permutation_sym|]; apply Prelude.StringSort.Permuted_sort. }
    destruct reverse; rewrite <- ?in_rev, H;
      destruct unique; rewrite ?fromkeys_in; reflexivity.
  - reflexivity.
Qed.

Lemma kept_lines_eq (data : string) (start stop : Z) :
  0 <= stop ->
  Prelude.kept_lines data start (Some stop)
  = (firstn (Z.to_nat (Z.max 1 start - 1)) (Prelude.splitlines data)
     ++ skipn (Z.to_nat stop) (Prelude.splitlines data))%list.
Proof.
  intros Hs. unfold Prelude.kept_lines.
  rewrite slice_to by lia. rewrite slice_from by lia.
  f_equal.
  destruct (Z.le_gt_cases stop (Z.of_nat (length (Prelude.splitlines data))))
    as [Hle|Hgt].
  - now rewrite Z.min_r.
  - rewrite Z.min_l by lia. rewrite Nat2Z.id.
    rewrite !skipn_all2; [reflexivity|lia|lia].
Qed.

Lemma selected_lines_eq (data : string) (start stop : Z) :
  0 <= stop ->
  Prelude.selected_lines data start (Some stop)
  = firstn (Z.to_nat stop - Z.to_nat (Z.max 1 start - 1))
           (skipn (Z.to_nat (Z.max 1 start - 1)) (Prelude.splitlines data)).
Proof.
  intros Hs. unfold Prelude.selected_lines.
  rewrite slice_between by lia.
  destruct (Z.le_gt_cases stop (Z.of_nat (length (Prelude.splitlines data))))
    as [Hle|Hgt].
  - now rewrite Z.min_r.
  - rewrite Z.min_l by lia. rewrite Nat2Z.id.
    rewrite !firstn_all2; [reflexivity| |]; rewrite length_skipn; lia.
Qed.

(** What lines shows of a range is what delete_lines removes: for
    1 <= start <= end, putting the lines that lines(path, start, end)
    selects back at position start of the lines that
    delete_lines(path, start, end) keeps gives the lines of the file, and
    when start is a line of the file the count that delete_lines returns
    is the number of those lines. *)
Theorem X14_delete_lines_removes_the_range
  (path data : string) (start stop : Z) :
  1 <= start -> start <= stop ->
  let all_lines := Prelude.splitlines data in
  let kept := Prelude.kept_lines data start (Some stop) in
  let selected := Prelude.selected_lines data start (Some stop) in
  all_lines = (firstn (Z.to_nat start - 1) kept ++ selected
               ++ skipn (Z.to_nat start - 1) kept)%list
  /\ (start <= Z.of_nat (length all_lines) ->
      Prelude.value (Prelude.delete_lines path data start (Some stop))
      = Z.of_nat (length selected)
      /\ (length kept + length selected = length all_lines)%nat).
Proof.
  intros H1 H2 all_lines kept selected.
  unfold kept, selected.
  rewrite kept_lines_eq, selected_lines_eq by lia.
  fold all_lines.
  replace (Z.to_nat (Z.max 1 start - 1)) with (Z.to_nat start - 1)%nat by lia.
  set (a := (Z.to_nat start - 1)%nat). set (b := Z.to_nat stop).
  assert (Hab : (a < b)%nat) by (unfold a, b; lia).
  destruct (Nat.le_gt_cases a (length all_lines)) as [Hle|Hgt].
  - assert (Hfa : length (firstn a all_lines) = a)
      by (rewrite length_firstn; lia).
    split.
    + rewrite firstn_app, Hfa, Nat.sub_diag. cbn [firstn].
      rewrite app_nil_r, firstn_firstn, Nat.min_id.
      rewrite skipn_app, Hfa, Nat.sub_diag. cbn [skipn].
      rewrite (skipn_all2 (firstn a all_lines)) by lia. cbn [app].
      replace (skipn b all_lines)
        with (skipn (b - a) (skipn a all_lines))
        by (rewrite skipn_skipn; f_equal; lia).
      rewrite (firstn_skipn (b - a) (skipn a all_lines)).
      now rewrite firstn_skipn.
    + intros Hs. unfold Prelude.delete_lines. cbn [Prelude.value].
      fold all_lines.
      repeat (rewrite List.length_app || rewrite length_firstn
              || rewrite length_skipn).
      split; lia.
  - split; [|intros Hs; unfold a in Hgt; lia].
    rewrite (firstn_all2 all_lines) by lia.
    rewrite !(skipn_all2 all_lines) by lia.
    rewrite firstn_nil, app_nil_r.
    rewrite firstn_all2, skipn_all2 by lia. now rewrite app_nil_r.
Qed.

(** The count that delete_lines returns is the number of lines by which
    the file shrinks, for every range that starts at most one line past
    the end (and whose end is not negative): it is not clipped at 0, and
    for a range whose end lies more than one line before its start it is
    negative and the file grows, lines end+1 .. start-1 being written
    twice.  The text written back is the kept lines joined by newlines,
    with a final newline unless the file had no line. *)
Theorem X15_delete_lines_count_is_the_shrinkage
  (path data : string) (start : Z) (stop : option Z) :
  0 <= match stop with Some e => e | None => start end ->
  start <= Z.of_nat (length (Prelude.splitlines data)) + 1 ->
  Z.of_nat (length (Prelude.kept_lines data start stop))
  = Z.of_nat (length (Prelude.splitlines data))
    - Prelude.value (Prelude.delete_lines path data start stop)
  /\ Prelude.written (Prelude.delete_lines path data start stop)
     = Prelude.join_lines (Prelude.kept_lines data start stop)
       ++ match Prelude.splitlines data with [] => "" | _ => newline end.
Proof.
  intros Hstop Hstart. split; [|reflexivity].
  unfold Prelude.delete_lines. cbn [Prelude.value].
  unfold Prelude.kept_lines.
  set (all_lines := Prelude.splitlines data) in *.
  set (e := match stop with Some e => e | None => start end) in *.
  rewrite slice_to by lia. rewrite slice_from by lia.
  rewrite List.length_app, length_firstn, length_skipn. lia.
Qed.

Lemma splitlines_line (a rest : string) :
  Prelude.is_line a ->
  Prelude.splitlines (a ++ newline ++ rest) = a :: Prelude.splitlines rest.
Proof.
  unfold Prelude.is_line. induction a as [|c a IH]; intros Ha.
  - cbn. destruct rest; reflexivity.
  - cbn [Prelude.has_break] in Ha. apply orb_false_iff in Ha as [Hc Ha].
    cbn [append Prelude.splitlines]. rewrite Hc.
    change (a ++ String (ascii_of_nat 10) rest)
      with (a ++ newline ++ rest).
    now rewrite (IH Ha).
Qed.

Lemma splitlines_join (ls : list string) :
  Forall Prelude.is_line ls -> ls <> [] ->
  Prelude.splitlines (Prelude.join_lines ls ++ newline) = ls.
Proof.
  unfold Prelude.join_lines.
  induction ls as [|x ls IH]; intros Hall Hne; [congruence|].
  inversion Hall as [|? ? Hx Hls]; subst.
  destruct ls as [|y ls].
  - cbn [String.concat].
    replace (x ++ newline) with (x ++ newline ++ "")
      by (f_equal).
    now rewrite (splitlines_line _ _ Hx).
  - cbn [String.concat] in *.
    rewrite !append_assoc.
    rewrite (splitlines_line _ _ Hx). f_equal.
    apply IH; [exact Hls|discriminate].
Qed.

Lemma splitlines_are_lines (s : string) :
  Forall Prelude.is_line (Prelude.splitlines s)
  /\ forall c s', s = String c s' ->
                  Forall Prelude.is_line (Prelude.splitlines s').
Proof.
  induction s as [|c s [IH1 IH2]].
  - split; [constructor|discriminate].
  - split; [|intros c0 s0 [= _ <-]; exact IH1].
    cbn [Prelude.splitlines].
    destruct (Prelude.is_linebreak c) eqn:Hc.
    + destruct s as [|c' s''].
      * constructor; [reflexivity|constructor].
      * destruct (Prelude.is_cr c && Prelude.is_lf c').
        -- constructor; [reflexivity|]. exact (IH2 c' s'' eq_refl).
        -- constructor; [reflexivity|exact IH1].
    + destruct (Prelude.splitlines s) as [|line rest].
      * constructor; [|constructor].
        unfold Prelude.is_line. cbn. now rewrite Hc.
      * inversion IH1 as [|? ? Hl Hr]; subst.
        constructor; [|exact Hr].
        unfold Prelude.is_line in *. cbn. now rewrite Hc, Hl.
Qed.

Lemma Forall_take (A : Type) (P : A -> Prop) (n : nat) (l : list A) :
  Forall P l -> Forall P (firstn n l).
Proof.
  revert n. induction l as [|x l IH]; intros [|n] H; cbn;
    try constructor; inversion H; subst; auto.
Qed.

Lemma Forall_drop (A : Type) (P : A -> Prop) (n : nat) (l : list A) :
  Forall P l -> Forall P (skipn n l).
Proof.
  revert n. induction l as [|x l IH]; intros [|n] H; cbn; auto.
  inversion H; subst; auto.
Qed.

(** delete_lines undoes insert_at: after a text of m >= 1 lines was
    inserted at index idx (line_num clipped to 1 .. number of lines + 1,
    after or before that line), deleting lines idx+1 .. idx+m of the file
    that insert_at wrote keeps exactly the lines the file had before. *)
Theorem X16_delete_lines_undoes_insert_at
  (path data text : string) (line_num : Z) (after : bool) :
  Prelude.splitlines text <> [] ->
  let idx := Prelude.insert_index data line_num after in
  let m := Z.of_nat (length (Prelude.splitlines text)) in
  Prelude.splitlines
    (Prelude.written (Prelude.insert_at path data line_num text after))
  = Prelude.inserted_lines data line_num text after
  /\ Prelude.kept_lines
       (Prelude.written (Prelude.insert_at path data line_num text after))
       (idx + 1) (Some (idx + m))
     = Prelude.splitlines data.
Proof.
  intros Hne idx m.
  assert (Hidx : 0 <= idx <= Z.of_nat (length (Prelude.splitlines data))).
  { unfold idx, Prelude.insert_index. destruct after; lia. }
  assert (Hins : Prelude.inserted_lines data line_num text after
                 = (firstn (Z.to_nat idx) (Prelude.splitlines data)
                    ++ Prelude.splitlines text
                    ++ skipn (Z.to_nat idx) (Prelude.splitlines data))%list).
  { unfold Prelude.inserted_lines. fold (Prelude.insert_index data line_num after).
    fold idx. rewrite slice_to, slice_from by lia. reflexivity. }
  assert (Hw : Prelude.splitlines
                 (Prelude.written
                    (Prelude.insert_at path data line_num text after))
               = Prelude.inserted_lines data line_num text after).
  { unfold Prelude.insert_at. cbn [Prelude.written].
    apply splitlines_join.
    - rewrite Hins. apply Forall_app. split; [|apply Forall_app; split].
      + apply Forall_take. apply splitlines_are_lines.
      + apply splitlines_are_lines.
      + apply Forall_drop. apply splitlines_are_lines.
    - rewrite Hins. intros H. apply app_eq_nil in H as [_ H].
      apply app_eq_nil in H as [H _]. contradiction. }
  split; [exact Hw|].
  rewrite kept_lines_eq by lia. rewrite Hw, Hins.
  replace (Z.to_nat (Z.max 1 (idx + 1) - 1)) with (Z.to_nat idx) by lia.
  set (i := Z.to_nat idx).
  set (all_lines := Prelude.splitlines data).
  set (new_lines := Prelude.splitlines text).
  assert (Hi : length (firstn i all_lines) = i)
    by (rewrite length_firstn; unfold i, all_lines; lia).
  rewrite firstn_app, Hi, Nat.sub_diag. cbn [firstn]. rewrite app_nil_r.
  rewrite firstn_firstn, Nat.min_id.
  replace (Z.to_nat (idx + m)) with (i + length new_lines)%nat
    by (unfold i, m, new_lines; lia).
  rewrite skipn_app, Hi.
  rewrite (skipn_all2 (firstn i all_lines)) by lia. cbn [app].
  replace (i + length new_lines - i)%nat with (length new_lines) by lia.
  rewrite skipn_app, Nat.sub_diag. cbn [skipn].
  rewrite (skipn_all2 new_lines) by lia. cbn [app].
  apply firstn_skipn.
Qed.

Lemma prefix_length (a b : string) :
  String.prefix a b = true -> (String.length a <= String.length b)%nat.
Proof.
  revert a. induction b as [|c b IH]; intros [|x a]; cbn; try lia;
    try discriminate.
  destruct (ascii_dec x c); [|discriminate].
  intros H. specialize (IH _ H). lia.
Qed.

Lemma replace_count_length (old new : string) :
  old <> "" ->
  forall s skip,
    (skip <= String.length s)%nat ->
    (String.length (replace_from old new s skip)
     + Prelude.count_from old s skip * String.length old
     = String.length s - skip
       + Prelude.count_from old s skip * String.length new)%nat.
Proof.
  intros Hold.
  assert (Hlen : (1 <= String.length old)%nat)
    by (destruct old; [congruence|cbn; lia]).
  induction s as [|c s IH]; intros skip Hskip.
  - cbn. lia.
  - cbn [replace_from Prelude.count_from String.length] in *.
    destruct skip as [|k].
    + destruct (String.prefix old (String c s)) eqn:Hp.
      * apply prefix_length in Hp. cbn [String.length] in Hp.
        specialize (IH (String.length old - 1)%nat ltac:(lia)).
        rewrite length_app. lia.
      * specialize (IH 0%nat ltac:(lia)). cbn [String.length]. lia.
    + specialize (IH k ltac:(lia)). lia.
Qed.

Lemma replace_absent (old new s : string) :
  Prelude.count_from old s 0 = 0%nat -> replace_from old new s 0 = s.
Proof.
  induction s as [|c s IH]; [reflexivity|].
  cbn [replace_from Prelude.count_from].
  destruct (String.prefix old (String c s)); [discriminate|].
  intros H. now rewrite (IH H).
Qed.

Lemma interleave_length (new s : string) :
  String.length (Prelude.interleave new s)
  = (String.length s + String.length s * String.length new)%nat.
Proof.
  induction s as [|c s IH]; [reflexivity|].
  cbn [Prelude.interleave String.length]. rewrite length_app.
  cbn [String.length]. rewrite IH. lia.
Qed.

(** The count that replace returns for a literal pattern accounts for the
    whole change of the file: the text written back is longer than the text
    read by count times (length of the replacement - length of the
    pattern), and when the count is 0 the text is written back unchanged.
    This holds for the empty pattern too, which Python finds before every
    character and at the end. *)
Theorem X17_replace_count_accounts_for_length
  (re_subn : string -> string -> string -> res (string * Z))
  (path data pattern repl : string) (e : Prelude.edit Z) :
  Prelude.replace re_subn path data pattern repl false = Ok e ->
  Z.of_nat (String.length (Prelude.written e))
  + Prelude.value e * Z.of_nat (String.length pattern)
  = Z.of_nat (String.length data)
    + Prelude.value e * Z.of_nat (String.length repl)
  /\ 0 <= Prelude.value e
  /\ (Prelude.value e = 0 -> Prelude.written e = data).
Proof.
  unfold Prelude.replace. cbn [bind fst snd]. intros [= <-].
  cbn [Prelude.written Prelude.value].
  unfold Prelude.str_replace_all, Prelude.str_count.
  destruct pattern as [|c pattern].
  - split; [|split; [lia|intros H; lia]].
    rewrite length_app, interleave_length. cbn [String.length]. lia.
  - split; [|split; [lia|]].
    + pose proof (replace_count_length (String c pattern) repl
                    ltac:(discriminate) data 0%nat ltac:(lia)) as H.
      unfold str_replace. lia.
    + intros H. apply replace_absent. lia.
Qed.

Lemma matching_in (match_fn : string -> bool) (lines : list string) :
  forall i m,
    In m (Prelude.matching match_fn lines i)
    <-> i <= m < i + Z.of_nat (length lines)
        /\ match_fn (nth (Z.to_nat (m - i)) lines "") = true.
Proof.
  induction lines as [|line rest IH]; intros i m.
  - cbn. split; [contradiction|lia].
  - cbn [Prelude.matching length].
    assert (Hnth : i < m ->
              nth (Z.to_nat (m - i)) (line :: rest) ""
              = nth (Z.to_nat (m - (i + 1))) rest "").
    { intros Hlt.
      replace (Z.to_nat (m - i)) with (S (Z.to_nat (m - (i + 1)))) by lia.
      reflexivity. }
    split.
    + intros H.
      assert (Hcases : m = i /\ match_fn line = true
                       \/ In m (Prelude.matching match_fn rest (i + 1))).
      { destruct (match_fn line) eqn:Hf; [|now right].
        destruct H as [<-|H]; [now left|now right]. }
      destruct Hcases as [[-> Hf]|Hin].
      * split; [lia|]. now rewrite Z.sub_diag.
      * apply IH in Hin as [Hr Hf]. split; [lia|].
        rewrite Hnth by lia. exact Hf.
    + intros [Hr Hf].
      destruct (Z.eq_dec m i) as [->|Hne].
      * rewrite Z.sub_diag in Hf. cbn in Hf. rewrite Hf. now left.
      * assert (Hin : In m (Prelude.matching match_fn rest (i + 1))).
        { apply IH. split; [lia|]. rewrite <- Hnth by lia. exact Hf. }
        destruct (match_fn line); [now right|exact Hin].
Qed.

Lemma offsets_in (context offset : Z) :
  0 < context ->
  In offset (Prelude.offsets context) <-> - context <= offset <= context.
Proof.
  intros Hc. unfold Prelude.offsets. rewrite in_map_iff. split.
  - intros [k [<- Hk]]. apply in_seq in Hk. lia.
  - intros H. exists (Z.to_nat (offset + context)). split; [lia|].
    apply in_seq. lia.
Qed.

Lemma sorted_set_in (keep : Z -> bool) (added : list Z) (x : Z) :
  In x (Prelude.sorted_set keep added) <-> In x added /\ keep x = true.
Proof.
  unfold Prelude.sorted_set.
  rewrite <- (nodup_In Z.eq_dec added x), <- filter_In.
  split; apply Permutation_in;
    [apply Permutation_sym|]; apply Prelude.ZSort.Permuted_sort.
Qed.

Lemma sorted_set_increasing (keep : Z -> bool) (added : list Z) :
  StronglySorted Z.lt (Prelude.sorted_set keep added).
Proof.
  unfold Prelude.sorted_set.
  set (l := filter keep (nodup Z.eq_dec added)).
  assert (Hnd : NoDup (Prelude.ZSort.sort l)).
  { eapply Permutation_NoDup; [apply Prelude.ZSort.Permuted_sort|].
    apply NoDup_filter, NoDup_nodup. }
  assert (Hs : StronglySorted (fun x y => (x <=? y) = true)
                 (Prelude.ZSort.sort l)).
  { apply Sorted_StronglySorted.
    - intros x y z Hxy Hyz. apply Z.leb_le in Hxy, Hyz. apply Z.leb_le. lia.
    - apply Prelude.ZSort.Sorted_sort. }
  induction Hs as [|x r Hr IH Hall]; [constructor|].
  inversion Hnd as [|? ? Hx Hnd']; subst.
  constructor; [exact (IH Hnd')|].
  rewrite Forall_forall in *. intros y Hy.
  specialize (Hall y Hy). apply Z.leb_le in Hall.
  assert (x <> y) by (intros ->; contradiction). lia.
Qed.

(** What grep returns: its hits come in strictly increasing order of the
    line number, no line twice, and a line of the file is a hit exactly
    when it lies within context lines of a line that matches (when it
    matches itself, for a context of 0 or less); each hit carries the
    number of its line, counted from 1, and the text of that line. *)
Theorem X18_grep_hits_are_the_context_of_matches
  (re_compile : string -> bool -> res (string -> bool))
  (path data pattern : string) (ignore_case literal : bool) (context : Z)
  (match_fn : string -> bool) (events : list json)
  (hits : list (Z * string)) :
  Prelude.line_matcher re_compile pattern ignore_case literal = Ok match_fn ->
  Prelude.grep re_compile path data pattern ignore_case literal context
  = Ok (events, hits) ->
  let lines := Prelude.splitlines data in
  let len := Z.of_nat (length lines) in
  StronglySorted Z.lt (map fst hits)
  /\ forall ln text,
       In (ln, text) hits
       <-> 1 <= ln <= len
           /\ text = nth (Z.to_nat (ln - 1)) lines ""
           /\ exists m,
                1 <= m <= len
                /\ match_fn (nth (Z.to_nat (m - 1)) lines "") = true
                /\ Z.abs (ln - m) <= Z.max context 0.
Proof.
  intros Hm. unfold Prelude.grep. cbv zeta. rewrite Hm. cbn [bind].
  intros Hgrep. injection Hgrep as _ <-.
  set (lines := Prelude.splitlines data).
  set (len := Z.of_nat (length lines)).
  set (match_lines := Prelude.matching match_fn lines 1).
  assert (Hmatch : forall m, In m match_lines
                     <-> 1 <= m <= len
                         /\ match_fn (nth (Z.to_nat (m - 1)) lines "") = true).
  { intros m. unfold match_lines. rewrite matching_in. fold len. 
    split; intros [H1 H2]; (split; [lia|exact H2]). }
  assert (Hout : forall ln,
            In ln (Prelude.output_lines match_lines context len)
            <-> 1 <= ln <= len
                /\ exists m, In m match_lines
                             /\ Z.abs (ln - m) <= Z.max context 0).
  { intros ln. unfold Prelude.output_lines.
    destruct (0 <? context) eqn:Hc.
    - apply Z.ltb_lt in Hc. rewrite sorted_set_in, in_flat_map. split.
      + intros [[m [Hin Hoff]] Hr].
        apply in_map_iff in Hoff as [offset [<- Hoff]].
        apply offsets_in in Hoff; [|exact Hc].
        apply andb_true_iff in Hr as [Hr1 Hr2].
        apply Z.leb_le in Hr1, Hr2.
        split; [lia|]. exists m. split; [exact Hin|lia].
      + intros [Hr [m [Hin Habs]]]. split.
        * exists m. split; [exact Hin|]. apply in_map_iff.
          exists (ln - m). split; [lia|]. apply offsets_in; lia.
        * apply andb_true_iff. split; apply Z.leb_le; lia.
    - apply Z.ltb_ge in Hc. rewrite sorted_set_in. split.
      + intros [Hin _]. split; [apply Hmatch in Hin; lia|].
        exists ln. split; [exact Hin|lia].
      + intros [_ [m [Hin Habs]]].
        assert (ln = m) by lia. subst m. split; [exact Hin|reflexivity]. }
  split.
  - unfold Prelude.hits_of. rewrite map_map. cbn [fst]. rewrite map_id.
    unfold Prelude.output_lines.
    destruct (0 <? context); apply sorted_set_increasing.
  - intros ln text. unfold Prelude.hits_of. rewrite in_map_iff. split.
    + intros [ln' [[= -> <-] Hin]]. apply Hout in Hin as [Hr [m [Hin Habs]]].
      split; [exact Hr|]. split; [reflexivity|].
      exists m. apply Hmatch in Hin as [Hmr Hf]. auto.
    + intros [Hr [-> [m [Hmr [Hf Habs]]]]]. exists ln. split; [reflexivity|].
      apply Hout. split; [exact Hr|]. exists m. split; [|exact Habs].
      apply Hmatch. auto.
Qed.

(** X18 on the literal pattern "b" in a file of three lines, with one line
    of context. *)
Lemma X18_witness :
  Prelude.line_matcher (fun _ _ => Raise OSError) "b" false true
  = Ok (fun line => Prelude.contains "b" line)
  /\ snd (match Prelude.grep (fun _ _ => Raise OSError) "f"
                  ("b" ++ newline ++ "a" ++ newline ++ "c") "b" false true 1
          with Ok r => r | Raise _ => ([], []) end)
     = [(1, "b"); (2, "a")]
  /\ StronglySorted Z.lt (map fst [(1, "b"); (2, "a")]).
Proof.
  assert (H1 : Prelude.line_matcher (fun _ _ => Raise OSError) "b" false true
               = Ok (fun line => Prelude.contains "b" line)) by reflexivity.
  assert (H2 : Prelude.grep (fun _ _ => Raise OSError) "f"
                 ("b" ++ newline ++ "a" ++ newline ++ "c") "b" false true 1
               = Ok ([Prelude.emit "grep"
                        [("pattern", JStr "b"); ("path", JStr "f");
                         ("count", JInt 1);
                         ("hits",
                          JArr [JObj [("line", JInt 1); ("text", JStr "b")];
                                JObj [("line", JInt 2); ("text", JStr "a")]])]],
                     [(1, "b"); (2, "a")])) by reflexivity.
  split; [exact H1|]. split; [reflexivity|].
  exact (proj1 (X18_grep_hits_are_the_context_of_matches _ _ _ _ _ _ _ _ _ _
                  H1 H2)).
Defined.

Lemma select_spec (parts : list string) (indices : list Z) :
  match Prelude.select parts indices with
  | Ok selected =>
      (forall i, In i indices -> - Z.of_nat (length parts) <= i)
      /\ (length selected <= length indices)%nat
  | Raise e =>
      e = IndexError
      /\ exists i, In i indices /\ i < - Z.of_nat (length parts)
  end.
Proof.
  induction indices as [|i rest IH]; cbn [Prelude.select].
  - split; [contradiction|cbn; lia].
  - destruct (i <? Z.of_nat (length parts)) eqn:Hlt.
    + destruct (i <? - Z.of_nat (length parts)) eqn:Hneg.
      * apply Z.ltb_lt in Hneg. split; [reflexivity|].
        exists i. split; [now left|exact Hneg].
      * apply Z.ltb_ge in Hneg.
        destruct (Prelude.select parts rest) as [selected|e]; cbn [bind].
        -- destruct IH as [Hall Hlen]. split; [|cbn; lia].
           intros j [<-|Hj]; [exact Hneg|exact (Hall j Hj)].
        -- destruct IH as [He [j [Hj Hlow]]]. split; [exact He|].
           exists j. split; [now right|exact Hlow].
    + apply Z.ltb_ge in Hlt.
      destruct (Prelude.select parts rest) as [selected|e].
      * destruct IH as [Hall Hlen]. split; [|cbn; lia].
        intros j [<-|Hj]; [lia|exact (Hall j Hj)].
      * destruct IH as [He [j [Hj Hlow]]]. split; [exact He|].
        exists j. split; [now right|exact Hlow].
Qed.

Lemma cols_lines_spec (lines : list string) (indices : list Z)
  (sep : option string) :
  match Prelude.cols_lines lines indices sep with
  | Ok result_lines =>
      (forall line i, In line lines -> In i indices ->
         - Z.of_nat (length (Prelude.fields sep line)) <= i)
      /\ length result_lines = length lines
  | Raise e =>
      e = IndexError
      /\ exists line i,
           In line lines /\ In i indices
           /\ i < - Z.of_nat (length (Prelude.fields sep line))
  end.
Proof.
  induction lines as [|line rest IH]; cbn [Prelude.cols_lines].
  - split; [contradiction|reflexivity].
  - pose proof (select_spec (Prelude.fields sep line) indices) as Hs.
    destruct (Prelude.select (Prelude.fields sep line) indices)
      as [selected|e]; cbn [bind].
    + destruct Hs as [Hall _].
      destruct (Prelude.cols_lines rest indices sep) as [result|e];
        cbn [bind].
      * destruct IH as [Hrest Hlen]. split; [|cbn; now rewrite Hlen].
        intros l i [<-|Hl] Hi; [exact (Hall i Hi)|exact (Hrest l i Hl Hi)].
      * destruct IH as [He [l [i [Hl [Hi Hlow]]]]]. split; [exact He|].
        exists l, i. split; [now right|]. split; assumption.
    + destruct Hs as [He [i [Hi Hlow]]]. split; [exact He|].
      exists line, i. split; [now left|]. split; assumption.
Qed.

(** cols never raises for columns counted from 0: an index past the last
    field of a line is skipped on that line.  A negative index counts from
    the end of each line, and cols raises IndexError exactly when some line
    has fewer fields than a negative index asks for; otherwise it returns
    one output line for every line of the text. *)
Theorem X19_cols_raises_only_below_the_first_field
  (text : string) (indices : list Z) (sep : option string) :
  match Prelude.cols text indices sep with
  | Ok (events, out) =>
      (forall line i,
         In line (Prelude.splitlines text) -> In i indices ->
         - Z.of_nat (length (Prelude.fields sep line)) <= i)
      /\ exists result_lines,
           out = Prelude.join_lines result_lines
           /\ length result_lines = length (Prelude.splitlines text)
  | Raise e =>
      e = IndexError
      /\ exists line i,
           In line (Prelude.splitlines text) /\ In i indices
           /\ i < - Z.of_nat (length (Prelude.fields sep line))
  end.
Proof.
  unfold Prelude.cols.
  pose proof (cols_lines_spec (Prelude.splitlines text) indices sep) as H.
  destruct (Prelude.cols_lines (Prelude.splitlines text) indices sep)
    as [result|e]; cbn [bind].
  - destruct H as [Hall Hlen]. split; [exact Hall|].
    exists result. split; [reflexivity|exact Hlen].
  - exact H.
Qed.

Lemma filter_split_length (A : Type) (f : A -> bool) (l : list A) :
  (length l = length (filter f l) + length (filter (fun x => negb (f x)) l))%nat.
Proof.
  induction l as [|x l IH]; [reflexivity|].
  cbn [filter]. destruct (f x); cbn; lia.
Qed.

Lemma filter_twice (A : Type) (f : A -> bool) (l : list A) :
  filter f (filter f l) = filter f l.
Proof.
  induction l as [|x l IH]; [reflexivity|].
  cbn [filter]. destruct (f x) eqn:E; [|exact IH].
  cbn [filter]. now rewrite E, IH.
Qed.

Lemma Forall_keep (A : Type) (P : A -> Prop) (f : A -> bool) (l : list A) :
  Forall P l -> Forall P (filter f l).
Proof.
  induction 1 as [|x l Hx Hl IH]; cbn; [constructor|].
  destruct (f x); [constructor|]; assumption.
Qed.

(** delete_matching with a literal pattern returns the number of lines
    that contain the pattern and keeps the other lines in their order; for
    a pattern that is not empty, running it again on the file it wrote
    deletes nothing and writes the same text. *)
Theorem X20_delete_matching_is_idempotent
  (re_compile : string -> bool -> res (string -> bool))
  (path data pattern : string) (e : Prelude.edit Z) :
  pattern <> "" ->
  Prelude.delete_matching re_compile path data pattern false = Ok e ->
  Prelude.value e
  = Z.of_nat (length (filter (Prelude.contains pattern)
                             (Prelude.splitlines data)))
  /\ Prelude.delete_matching re_compile path (Prelude.written e) pattern false
     = Ok (Prelude.mkEdit
             [Prelude.emit "delete_matching"
                [("path", JStr path); ("pattern", JStr pattern);
                 ("count", JInt 0)]]
             (Prelude.written e) 0).
Proof.
  intros Hp. unfold Prelude.delete_matching, Prelude.unmatched_lines.
  cbn [bind]. intros [= <-]. cbn [Prelude.value Prelude.written].
  pose proof (proj1 (splitlines_are_lines data)) as Hlines.
  set (keep := fun l => negb (Prelude.contains pattern l)).
  generalize dependent (Prelude.splitlines data). intros all_lines Hlines.
  split.
  - rewrite (filter_split_length _ (Prelude.contains pattern) all_lines).
    fold keep. lia.
  - assert (Hempty : keep "" = true).
    { unfold keep. destruct pattern; [congruence|reflexivity]. }
    destruct all_lines as [|x l]; [reflexivity|].
    destruct (filter keep (x :: l)) as [|y k] eqn:Hk.
    + change (Prelude.splitlines (Prelude.rewrite_lines (x :: l) []))
        with [""].
      cbn [filter]. rewrite Hempty. reflexivity.
    + assert (Hs : Prelude.splitlines
                     (Prelude.rewrite_lines (x :: l) (y :: k)) = y :: k).
      { unfold Prelude.rewrite_lines. apply splitlines_join; [|discriminate].
        rewrite <- Hk. now apply Forall_keep. }
      assert (Hf : filter keep (y :: k) = y :: k).
      { rewrite <- Hk. apply filter_twice. }
      rewrite Hs, Hf, Z.sub_diag. reflexivity.
Qed.

(** X20 on the pattern "b" in a file of three lines. *)
Lemma X20_witness :
  ("b" <> ""
   /\ Prelude.delete_matching (fun _ _ => Raise OSError) "f"
        ("ab" ++ newline ++ "c" ++ newline ++ "b") "b" false
      = Ok (Prelude.mkEdit
              [Prelude.emit "delete_matching"
                 [("path", JStr "f"); ("pattern", JStr "b");
                  ("count", JInt 2)]]
              ("c" ++ newline) 2))
  /\ 2 = Z.of_nat
           (length (filter (Prelude.contains "b")
                           (Prelude.splitlines
                              ("ab" ++ newline ++ "c" ++ newline ++ "b")))).
Proof.
  assert (H1 : "b" <> "") by discriminate.
  assert (H2 : Prelude.delete_matching (fun _ _ => Raise OSError) "f"
                 ("ab" ++ newline ++ "c" ++ newline ++ "b") "b" false
               = Ok (Prelude.mkEdit
                       [Prelude.emit "delete_matching"
                          [("path", JStr "f"); ("pattern", JStr "b");
                           ("count", JInt 2)]]
                       ("c" ++ newline) 2)) by reflexivity.
  exact (conj (conj H1 H2)
           (proj1 (X20_delete_matching_is_idempotent _ _ _ _ _ H1 H2))).
Defined.


(** ** The theorems on the reference platform *)

Local Notation "'on_ref' f" :=
  (f Ref.clock Ref.clock_float Ref.json_dumps Ref.py_repr)
  (at level 10, f at level 9).

(** C2 on a heartbeat record, with a text pending. *)
Lemma C2_witness :
  (has_kind heartbeat_record "interactionUpdate" "heartbeat"
   /\ In "heartbeat" SKIP_DELTAS)
  /\ on_ref step false pending_state (JObj heartbeat_record)
     = Ok pending_state.
Proof.
  assert (Hk : has_kind heartbeat_record "interactionUpdate" "heartbeat")
    by (split; reflexivity).
  assert (Hs : In "heartbeat" SKIP_DELTAS)
    by (right; right; left; reflexivity).
  exact (conj (conj Hk Hs)
           (proj1 (C2_skipped_delta_keeps_state Ref.clock Ref.clock_float
                     Ref.json_dumps Ref.py_repr heartbeat_record "heartbeat"
                     pending_state Hk Hs))).
Defined.

(** C3 with the clock of the UTC time zone. *)
Lemma C3_witness :
  (Ref.clock 1000 = Ok "00:00:01.000" /\ Ref.clock 2000 = Ok "00:00:02.000")
  /\ on_ref coalesce_entries sample_stream false
     = Ok ["[00:00:01.000] text: AB";
           "[00:00:02.000] info:builtRunRequest tools=3"].
Proof.
  assert (H1 : Ref.clock 1000 = Ok "00:00:01.000") by reflexivity.
  assert (H2 : Ref.clock 2000 = Ok "00:00:02.000") by reflexivity.
  exact (conj (conj H1 H2)
           (C3_sample_stream_two_lines Ref.clock Ref.clock_float
              Ref.json_dumps Ref.py_repr _ _ H1 H2)).
Defined.

(** C7 on the record of the command "echo hi" and on the record of a
    command of 69 characters. *)
Lemma C7_witness :
  format_data Ref.json_dumps Ref.py_repr
    (JStr "serverMessage") (JStr "execServerMessage")
    (JObj (shell_args "echo hi"))
  = Ok " shell:echo hi"
  /\ format_data Ref.json_dumps Ref.py_repr
       (JStr "serverMessage") (JStr "execServerMessage")
       (JObj (shell_args long_command))
     = Ok " shell:for f in *.txt; do wc -l $f; done | sort -n | tail".
Proof.
  split.
  - refine (proj1 (C7_shell_args_detail Ref.clock Ref.clock_float
                     Ref.json_dumps Ref.py_repr (shell_args "echo hi")
                     [("case", JStr "shellArgs");
                      ("value", JObj [("command", JStr "echo hi")])]
                     [("command", JStr "echo hi")] "echo hi" _ _ _ _));
      reflexivity.
  - refine (proj1 (C7_shell_args_detail Ref.clock Ref.clock_float
                     Ref.json_dumps Ref.py_repr (shell_args long_command)
                     [("case", JStr "shellArgs");
                      ("value", JObj [("command", JStr long_command)])]
                     [("command", JStr long_command)] long_command
                     _ _ _ _));
      reflexivity.
Defined.



(** C4 on the run "A", "B" in verbose mode. *)
Lemma C4_witness :
  on_ref coalesce_entries [text_delta "A" 1000; text_delta "B" 1002] true
  = Ok ["[00:00:01.000] text: AB"].
Proof.
  refine (proj1 (proj2 (proj2 (proj2
            (C4_verbose_never_noise_still_coalesces Ref.clock Ref.clock_float
               Ref.json_dumps Ref.py_repr
               [text_delta "A" 1000; text_delta "B" 1002] ["A"; "B"]
               _ _ _))))).
  - constructor; [|constructor; [|constructor]].
    + exists [("type", JStr "interactionUpdate");
              ("subtype", JStr "textDelta");
              ("data", JObj [("text", JStr "A")]); ("ts", JInt 1000)],
             [("text", JStr "A")].
      split; [reflexivity|]. split; [split; reflexivity|].
      split; [reflexivity|left; reflexivity].
    + exists [("type", JStr "interactionUpdate");
              ("subtype", JStr "textDelta");
              ("data", JObj [("text", JStr "B")]); ("ts", JInt 1002)],
             [("text", JStr "B")].
      split; [reflexivity|]. split; [split; reflexivity|].
      split; [reflexivity|left; reflexivity].
  - constructor; [discriminate|constructor; [discriminate|constructor]].
  - discriminate.
Defined.

(** In verbose mode a textDelta record without text leaves no line. *)
Lemma C4_counterexample : ~ on_ref verbose_drops_nothing.
Proof.
  intros H. apply (H textless_delta []); reflexivity.
Qed.

(** C5 on the text of the malformed line and one valid line. *)
Lemma C5_witness :
  (str_strip malformed_line <> ""
   /\ Ref.json_loads malformed_line = Raise JSONDecodeError
   /\ Ref.json_loads valid_line = Ok (JObj [("type", JStr "info")]))
  /\ parse_entries Ref.json_loads sample_text 0
     = (["[PARSE ERROR] {not json"], Ok [JObj [("type", JStr "info")]]).
Proof.
  assert (H1 : str_strip malformed_line <> "") by discriminate.
  assert (H2 : Ref.json_loads malformed_line = Raise JSONDecodeError)
    by reflexivity.
  assert (H3 : Ref.json_loads valid_line = Ok (JObj [("type", JStr "info")]))
    by reflexivity.
  exact (conj (conj H1 (conj H2 H3))
           (proj1 (proj2
              (C5_malformed_line_is_skipped Ref.clock Ref.clock_float
                 Ref.json_dumps Ref.py_repr Ref.json_loads malformed_line
                 [valid_line] [] [] _ false false follow_start
                 H1 H2 H2 H3)))).
Defined.

(** In follow mode the malformed line "{not json" leaves standard error
    empty. *)
Lemma C5_counterexample :
  ~ follow_reports_malformed Ref.clock Ref.clock_float Ref.json_dumps
      Ref.py_repr Ref.json_loads.
Proof.
  intros H.
  destruct (H false follow_start malformed_line false follow_start)
    as [preview Hp].
  - discriminate.
  - reflexivity.
  - reflexivity.
  - discriminate.
Qed.

Lemma broken_exec_record_raises :
  on_ref format_entry (JObj broken_exec_record) false = Raise AttributeError.
Proof. reflexivity. Qed.

Lemma list_subtype_record_raises :
  is_noise (JObj list_subtype_record) false = Raise TypeError
  /\ get_delta_type (JObj list_subtype_record) = Raise TypeError.
Proof. split; reflexivity. Qed.

(** format_entry raises on a record whose data.message is a string. *)
Lemma C6_counterexample : ~ on_ref total_on_dicts.
Proof.
  intros H.
  destruct (H broken_exec_record false) as [_ [_ [line Hline]]].
  rewrite broken_exec_record_raises in Hline. discriminate.
Qed.

(** C6 on the builtRunRequest record, deleting its ts. *)
Lemma C6_witness :
  (In "ts" record_fields
   /\ on_ref format_entry (JObj built_run_request_fields) false
      = Ok (Some "[00:00:02.000] info:builtRunRequest tools=3"))
  /\ exists line,
       on_ref format_entry (JObj (remove_key "ts" built_run_request_fields))
         false = Ok (Some line).
Proof.
  assert (Hk : In "ts" record_fields) by (right; right; left; reflexivity).
  assert (Hf : on_ref format_entry (JObj built_run_request_fields) false
               = Ok (Some "[00:00:02.000] info:builtRunRequest tools=3"))
    by reflexivity.
  exact (conj (conj Hk Hf)
           (proj1 (proj2 (proj2
              (C6_missing_fields_are_defaulted Ref.clock Ref.clock_float
                 Ref.json_dumps Ref.py_repr built_run_request_fields false
                 "ts" _ Hk Hf))))).
Defined.

(** C9 on an info-wrapped text delta, with a text pending. *)
Lemma C9_witness :
  on_ref step false pending_state (JObj wrapped_text_delta)
  = Ok (mkState ["[00:00:01.000] text: pending";
                 "[00:00:00.005] info:interactionUpdate textDelta"]
                "" (JInt 0)).
Proof.
  refine (proj1 (proj2 (proj2 (proj2
            (C9_info_wrapped_text_delta_is_signal Ref.clock Ref.clock_float
               Ref.json_dumps Ref.py_repr wrapped_text_delta
               [("updateCase", JStr "textDelta"); ("text", JStr "zz")]
               pending_state
               (mkState ["[00:00:01.000] text: pending"] "" (JInt 0))
               "00:00:00.005" _ _ _ _ _)))));
    try reflexivity.
  split; reflexivity.
Defined.

Lemma ref_hour_plain (h : Z) (rest : string) :
  0 <= h < 24 -> starts_plain (Ref.digits 2 h ++ rest) = true.
Proof.
  intros Hh. replace h with (Z.of_nat (Z.to_nat h)) by lia.
  assert (Hk : (Z.to_nat h < 24)%nat) by lia.
  remember (Z.to_nat h) as k eqn:Ek. clear Ek Hh.
  do 24 (destruct k as [|k]; [reflexivity|]). lia.
Qed.

Lemma ref_clock_plain (n : Z) (t : string) :
  Ref.clock n = Ok t -> starts_plain t = true.
Proof.
  unfold Ref.clock. destruct (_ && _); [|discriminate].
  intros [= <-]. apply ref_hour_plain. apply Z.mod_pos_bound. lia.
Qed.

Lemma ref_clock_float_plain (bits : Z) (t : string) :
  Ref.clock_float bits = Ok t -> starts_plain t = true.
Proof.
  unfold Ref.clock_float. destruct (_ =? 2047); [discriminate|].
  apply ref_clock_plain.
Qed.

(** C10 on a pending text stamped 1000, on a lone text delta without ts
    and on a run whose first fragment is stamped 3723004. *)
Lemma C10_witness :
  flush_text Ref.clock Ref.clock_float pending_state
  = Ok (mkState ["[00:00:01.000] text: pending"] "" (JInt 0))
  /\ on_ref coalesce_entries [JObj unstamped_text_delta] false
     = Ok ["[00:00:00.000] text: zz"]
  /\ on_ref coalesce_entries [JObj stamped_text_delta; text_delta "B" 1002]
       true
     = Ok ["[01:02:03.004] text: zzB"].
Proof.
  assert (Hb : text_buffer pending_state <> "") by discriminate.
  pose proof (C10_flushed_text_is_clocked Ref.clock Ref.clock_float
                Ref.json_dumps Ref.py_repr pending_state
                unstamped_text_delta [] false Hb eq_refl eq_refl
                ref_clock_plain ref_clock_float_plain)
    as [Hflush [_ [Hzero _]]].
  pose proof (C10_flushed_text_is_clocked Ref.clock Ref.clock_float
                Ref.json_dumps Ref.py_repr pending_state
                stamped_text_delta [text_delta "B" 1002] true Hb eq_refl
                eq_refl ref_clock_plain ref_clock_float_plain)
    as [_ [_ [Hstamped _]]].
  exact (conj (Hflush 1000 eq_refl)
           (conj (Hzero 0 eq_refl) (Hstamped 3723004 eq_refl))).
Defined.

(** A process that times out gets SIGKILL as its first signal. *)
Lemma C8_counterexample : ~ graceful_then_forceful hung "sleep 60".
Proof.
  intros [[H | H] _]; vm_compute in H; discriminate.
Qed.

Lemma hung_is_killed_at_once :
  _run_with_interrupt hung "sleep 60"
  = ([Killpg SIGKILL; Status "sleep 60" (-9) "partial"],
     Ok (mkResult "partial" "" (-9))).
Proof. reflexivity. Qed.

(** C8 on processes that time out (one dies on SIGKILL, one is interrupted
    again, one is gone before the signal), on a process that ignores
    SIGINT, and on systems without a shell or without a working Popen. *)
Lemma C8_witness :
  (first_wait hung = Expired
   /\ signals (fst (_run_with_interrupt hung "sleep 60")) = [SIGKILL]
   /\ snd (_run_with_interrupt hung "sleep 60")
      = Ok (mkResult "partial" "" (-9)))
  /\ (first_wait harassed = Expired
      /\ snd (_run_with_interrupt harassed "sleep 60")
         = Raise KeyboardInterrupt)
  /\ (first_wait vanished = Expired
      /\ snd (run (bash_os vanished) "sleep 60" None (Some 5))
         = Raise OSError)
  /\ (first_wait stubborn = Interrupted
      /\ signals (fst (_run_with_interrupt stubborn "sleep 60"))
         = [SIGINT; SIGKILL]
      /\ snd (_run_with_interrupt stubborn "sleep 60")
         = Ok (mkResult "partial" "" (-2)))
  /\ sh (bare_os stubborn) "sleep 60" None (Some 5) = ([], Raise RuntimeError)
  /\ run (bare_os stubborn) "sleep 60" None (Some 5)
     = launch (bare_os stubborn) ["/bin/sh"; "-c"; "sleep 60"] None (Some 5)
              "sleep 60"
  /\ run broken_os "sleep 60" None (Some 5) = ([], Raise OSError).
Proof.
  pose proof (C8_timeout_and_interrupt_give_results hung "sleep 60"
                (bare_os hung) None (Some 5)) as [Hhung _].
  pose proof (C8_timeout_and_interrupt_give_results harassed "sleep 60"
                (bare_os harassed) None (Some 5)) as [Hharassed _].
  pose proof (C8_timeout_and_interrupt_give_results vanished "sleep 60"
                (bash_os vanished) None (Some 5)) as [Hvanished _].
  pose proof (C8_timeout_and_interrupt_give_results stubborn "sleep 60"
                (bare_os stubborn) None (Some 5))
    as [_ [Hstubborn [Hsh [_ [Hrun _]]]]].
  pose proof (C8_timeout_and_interrupt_give_results stubborn "sleep 60"
                broken_os None (Some 5))
    as [_ [_ [_ [_ [_ [_ [_ [Hbroken _]]]]]]]].
  specialize (Hhung eq_refl). specialize (Hharassed eq_refl).
  specialize (Hvanished eq_refl). specialize (Hstubborn eq_refl).
  destruct Hhung as [Hsig [_ [Hok _]]].
  destruct Hharassed as [_ [_ [_ Hraise]]].
  destruct Hvanished as [_ [_ [_ Hgone]]].
  destruct Hstubborn as [Hsig2 [Hok2 _]].
  split; [split; [reflexivity|split; [exact Hsig|]]|].
  { apply Hok. split; [exists tt; reflexivity|].
    exists "partial", "". split; reflexivity. }
  split; [split; [reflexivity|]|].
  { apply Hraise. right. split; [exists tt; reflexivity|reflexivity]. }
  split; [split; [reflexivity|]|].
  { exact (proj2 (Hgone OSError) (or_introl eq_refl)). }
  split; [split; [reflexivity|split; [exact Hsig2|]]|].
  { apply Hok2. split; [exists tt; reflexivity|].
    right. split; [reflexivity|]. split; [exists tt; reflexivity|].
    exists "partial", "". split; reflexivity. }
  split; [apply Hsh; reflexivity|].
  split; [apply Hrun; reflexivity|].
  exact (proj1 (Hbroken OSError (fun _ => eq_refl))).
Defined.

(** X1 on the text "A" followed by the builtRunRequest record. *)
Lemma X1_witness :
  emitted false built_run_request
  /\ on_ref coalesce_entries
       ([text_delta "A" 1000] ++ built_run_request :: []) false
     = Ok ["[00:00:01.000] text: A";
           "[00:00:02.000] info:builtRunRequest tools=3"].
Proof.
  assert (He : emitted false built_run_request)
    by (split; [reflexivity|split; reflexivity]).
  exact (conj He
           (X1_coalesce_splits_at_emitted Ref.clock Ref.clock_float
              Ref.json_dumps Ref.py_repr false [text_delta "A" 1000] []
              built_run_request He)).
Defined.

(** X2 on the sample stream: two lines for four records. *)
Lemma X2_witness :
  on_ref coalesce_entries sample_stream false
  = Ok ["[00:00:01.000] text: AB";
        "[00:00:02.000] info:builtRunRequest tools=3"]
  /\ (2 <= 4)%nat.
Proof.
  assert (H : on_ref coalesce_entries sample_stream false
              = Ok ["[00:00:01.000] text: AB";
                    "[00:00:02.000] info:builtRunRequest tools=3"])
    by reflexivity.
  exact (conj H
           (X2_coalesce_no_more_lines_than_records Ref.clock Ref.clock_float
              Ref.json_dumps Ref.py_repr false sample_stream _ H)).
Defined.

(** X3 on the text "AB". *)
Lemma X3_witness :
  (has_newline "AB" = false /\ (String.length "AB" <= 300)%nat)
  /\ text_line "00:00:01.000" "AB" = "[00:00:01.000] text: AB".
Proof.
  assert (H1 : has_newline "AB" = false) by reflexivity.
  assert (H2 : (String.length "AB" <= 300)%nat) by (cbn; lia).
  exact (conj (conj H1 H2)
           (X3_short_plain_text_is_verbatim "00:00:01.000" "AB" H1 H2)).
Defined.

(** X4 on a payload with a detail field. *)
Lemma X4_witness :
  stripped ("detail", JStr "x") = true
  /\ format_default Ref.json_dumps
       ([("a", JInt 1)] ++ ("detail", JStr "x") :: [])%list
     = format_default Ref.json_dumps ([("a", JInt 1)] ++ [])%list.
Proof.
  assert (H : stripped ("detail", JStr "x") = true) by reflexivity.
  exact (conj H
           (proj1 (X4_fallback_ignores_stripped_fields Ref.json_dumps
                     [("a", JInt 1)] [] ("detail", JStr "x") H))).
Defined.

(** X6 on the text of the malformed line and one valid line. *)
Lemma X6_witness :
  parse_entries Ref.json_loads sample_text 0
  = (["[PARSE ERROR] {not json"], Ok [JObj [("type", JStr "info")]])
  /\ (1 + 1
      = count_nonblank (last_lines 0 (split_lines (str_strip sample_text))))%nat.
Proof.
  assert (H : parse_entries Ref.json_loads sample_text 0
              = (["[PARSE ERROR] {not json"],
                 Ok [JObj [("type", JStr "info")]]))
    by reflexivity.
  exact (conj H
           (X6_parse_accounts_for_every_line Ref.json_loads sample_text 0
              _ _ H)).
Defined.

(** X7 on a malformed line and a valid line that is printed at once. *)
Lemma X7_witness :
  ((length (buffer follow_start) <= 50)%nat
   /\ follow_run Ref.clock Ref.clock_float Ref.json_dumps Ref.py_repr
        Ref.json_loads false follow_start
        [(malformed_line, false); (valid_line, true)]
      = Ok (mkFollow [] (mkIo ["[??:??:??] info"] []) 0))
  /\ (length (@nil json) <= 50)%nat.
Proof.
  assert (H1 : (length (buffer follow_start) <= 50)%nat) by (cbn; lia).
  assert (H2 : follow_run Ref.clock Ref.clock_float Ref.json_dumps
                 Ref.py_repr Ref.json_loads false follow_start
                 [(malformed_line, false); (valid_line, true)]
               = Ok (mkFollow [] (mkIo ["[??:??:??] info"] []) 0))
    by reflexivity.
  exact (conj (conj H1 H2)
           (proj1 (X7_follow_keeps_buffer_bounded Ref.clock Ref.clock_float
                     Ref.json_dumps Ref.py_repr Ref.json_loads false _ _ _
                     H1 H2))).
Defined.

(** X8 on the process that outlives the timeout. *)
Lemma X8_witness :
  snd (_run_with_interrupt hung "sleep 60") = Ok (mkResult "partial" "" (-9))
  /\ code (mkResult "partial" "" (-9)) = -9
  /\ succeeded (mkResult "partial" "" (-9)) = false.
Proof.
  assert (H : snd (_run_with_interrupt hung "sleep 60")
              = Ok (mkResult "partial" "" (-9))) by reflexivity.
  exact (conj H (X8_killed_command_is_falsy hung "sleep 60" _ H)).
Defined.

(** X14 on line 2 of a file of three lines. *)
Lemma X14_witness :
  (1 <= 2 /\ 2 <= 2)
  /\ Prelude.value
       (Prelude.delete_lines "f" ("1" ++ newline ++ "2" ++ newline ++ "3")
          2 (Some 2))
     = 1.
Proof.
  assert (H1 : 1 <= 2) by lia.
  assert (H2 : 2 <= 2) by lia.
  refine (conj (conj H1 H2)
            (proj1 (proj2 (X14_delete_lines_removes_the_range "f"
                     ("1" ++ newline ++ "2" ++ newline ++ "3") 2 2 H1 H2)
                     _))).
  vm_compute. discriminate.
Defined.

(** X15 on the range 4..2 of a file of five lines: the count is -1 and
    the file has six lines afterwards. *)
Lemma X15_witness :
  (0 <= 2 /\ 4 <= 5 + 1)
  /\ Z.of_nat
       (length
          (Prelude.kept_lines
             ("1" ++ newline ++ "2" ++ newline ++ "3" ++ newline ++ "4"
                  ++ newline ++ "5") 4 (Some 2)))
     = 5 - -1.
Proof.
  assert (H1 : 0 <= 2) by lia.
  assert (H2 : 4 <= 5 + 1) by lia.
  exact (conj (conj H1 H2)
           (proj1 (X15_delete_lines_count_is_the_shrinkage "f"
                     ("1" ++ newline ++ "2" ++ newline ++ "3" ++ newline
                          ++ "4" ++ newline ++ "5") 4 (Some 2) H1 H2))).
Defined.

(** X16 on the text "x" inserted after line 1 of a file of two lines. *)
Lemma X16_witness :
  Prelude.splitlines "x" <> []
  /\ Prelude.kept_lines
       (Prelude.written
          (Prelude.insert_at "f" ("1" ++ newline ++ "2") 1 "x" true))
       (1 + 1) (Some (1 + 1))
     = ["1"; "2"].
Proof.
  assert (H : Prelude.splitlines "x" <> []) by discriminate.
  exact (conj H
           (proj2 (X16_delete_lines_undoes_insert_at "f"
                     ("1" ++ newline ++ "2") "x" 1 true H))).
Defined.

(** X17 on "aaa" with "aa" replaced by "b". *)
Lemma X17_witness :
  Prelude.replace (fun _ _ _ => Raise OSError) "f" "aaa" "aa" "b" false
  = Ok (Prelude.mkEdit
          [Prelude.emit "replace" [("path", JStr "f"); ("count", JInt 1)]]
          "ba" 1)
  /\ 2 + 1 * 2 = 3 + 1 * 1.
Proof.
  assert (H : Prelude.replace (fun _ _ _ => Raise OSError)
                "f" "aaa" "aa" "b" false
              = Ok (Prelude.mkEdit
                      [Prelude.emit "replace"
                         [("path", JStr "f"); ("count", JInt 1)]]
                      "ba" 1)) by reflexivity.
  exact (conj H
           (proj1 (X17_replace_count_accounts_for_length _ _ _ _ _ _ H))).
Defined.

(** X11 on a text of three lines, cut after the first line, and with
    n = -1. *)
Lemma X11_witness :
  (0 < 1 < 3
   /\ snd (Prelude.head ("a" ++ newline ++ "b" ++ newline ++ "c") 1)
      ++ newline
      ++ snd (Prelude.tail ("a" ++ newline ++ "b" ++ newline ++ "c") 2)
      = "a" ++ newline ++ "b" ++ newline ++ "c")
  /\ (-1 < 0
      /\ snd (Prelude.head ("a" ++ newline ++ "b" ++ newline ++ "c") (-1))
         = "a" ++ newline ++ "b"
      /\ snd (Prelude.tail ("a" ++ newline ++ "b" ++ newline ++ "c") (-1))
         = "b" ++ newline ++ "c").
Proof.
  assert (H1 : 0 < 1 < 3) by lia.
  assert (H2 : -1 < 0) by lia.
  exact (conj
           (conj H1
              (proj1 (X11_head_and_tail_cut_the_text
                        ("a" ++ newline ++ "b" ++ newline ++ "c") 1) H1))
           (conj H2
              (proj2 (proj2 (proj2 (X11_head_and_tail_cut_the_text
                        ("a" ++ newline ++ "b" ++ newline ++ "c") (-1))))
                 H2))).
Defined.

(** X19 on two lines of three and two fields: the index -3 raises
    because of the second line, the indices 0 and 5 do not. *)
Lemma X19_witness :
  (exists line i,
     In line (Prelude.splitlines ("a b c" ++ newline ++ "d e"))
     /\ In i [-3]
     /\ i < - Z.of_nat (length (Prelude.fields None line)))
  /\ match Prelude.cols ("a b c" ++ newline ++ "d e") [0; 5] None with
     | Ok (_, out) => out = "a" ++ newline ++ "d"
     | Raise _ => False
     end
  /\ forall line i,
       In line (Prelude.splitlines ("a b c" ++ newline ++ "d e")) ->
       In i [0; 5] ->
       - Z.of_nat (length (Prelude.fields None line)) <= i.
Proof.
  pose proof (X19_cols_raises_only_below_the_first_field
                ("a b c" ++ newline ++ "d e") [-3] None) as Hraise.
  pose proof (X19_cols_raises_only_below_the_first_field
                ("a b c" ++ newline ++ "d e") [0; 5] None) as Hok.
  exact (conj (proj2 Hraise) (conj eq_refl (proj1 Hok))).
Defined.
